(** * Trade journal: round-trip reconstruction and live-trade risk

    A shallow embedding of [app_logic.py]: the upload parser, the round-trip
    reconstructor with its statistics, the tag groups, the live-trade plan
    generator and the live-trade risk recalculator; of the streaks of
    [database.py]; and of the two handlers of [server.py] that save the
    settings the live-trade functions read.  The properties proved of them
    follow.

    Conventions of the embedding.
    - Python [int] is [Z]; [//] and [%] are [Z.div] and [Z.modulo], which
      round towards minus infinity as Python does.
    - Python [float] is [num]: an exact rational or one of the three special
      values.  Binary rounding error, the overflow of an operation on
      [float]s and the sign of zero are not modelled, and the [int]/[float]
      tag of a money amount is not tracked ([0] and [0.0] are the same
      [num]).
    - An [int] that Python converts to a [float] in mixed arithmetic is
      converted with [float_of_int], which raises [OverflowError] beyond the
      range of [float], in the statistics of the fills of an upload and in
      the parser.  In the live-trade functions it is promoted with
      [of_int], without that check.
    - Python [str] is the [string] of its UTF-8 bytes; comparison is
      [String.compare] (byte order, which is code-point order on UTF-8
      text).
    - A Python [dict] used as a map is a [gmap]; a dict with a fixed set of
      keys read by name is a [Record].
    - An exception is a value of [exn]; code that can raise returns
      [result]. *)

From Stdlib Require Import ZArith QArith Qcanon String Ascii List Sorted Permutation.
From stdpp Require Import base option gmap strings list sorting pretty.

Local Open Scope string_scope.
Local Open Scope list_scope.
Local Open Scope Z_scope.

(** ** Exceptions

    An exception is given by its class, among those that the program names
    or lets through; [OtherError] is an exception of another class, which
    only the libraries that read a file raise ([csv.Error], the exceptions
    of openpyxl and of [zipfile]). *)

Inductive exn : Type :=
| ValueError
| KeyError
| TypeError
| IndexError
| OverflowError
| UnboundLocalError
| OtherError (name : string).

Inductive result (A : Type) : Type :=
| Ok (a : A)
| Raise (e : exn).

Arguments Ok {A} a.
Arguments Raise {A} e.

#[global] Instance result_ret : MRet result := fun A a => Ok a.

#[global] Instance result_bind : MBind result := fun A B k r =>
  match r with
  | Ok a => k a
  | Raise e => Raise e
  end.

(** ** Numbers *)

Inductive num : Type :=
| Fin (q : Qc)
| PInf
| NInf
| NaN.

Definition of_int (z : Z) : num := Fin (Q2Qc (inject_Z z)).

Definition Qc_ltb (x y : Qc) : bool :=
  match (x ?= y)%Qc with Lt => true | _ => false end.

Definition nopp (x : num) : num :=
  match x with
  | Fin q => Fin (- q)%Qc
  | PInf => NInf
  | NInf => PInf
  | NaN => NaN
  end.

Definition nadd (x y : num) : num :=
  match x, y with
  | NaN, _ | _, NaN => NaN
  | PInf, NInf | NInf, PInf => NaN
  | PInf, _ | _, PInf => PInf
  | NInf, _ | _, NInf => NInf
  | Fin a, Fin b => Fin (a + b)%Qc
  end.

Definition nsub (x y : num) : num := nadd x (nopp y).

(** Sign of a number: [Some Lt], [Some Eq], [Some Gt], or [None] for NaN. *)
Definition nsign (x : num) : option comparison :=
  match x with
  | Fin q => Some (q ?= Q2Qc 0)%Qc
  | PInf => Some Gt
  | NInf => Some Lt
  | NaN => None
  end.

Definition nmul (x y : num) : num :=
  match x, y with
  | Fin a, Fin b => Fin (a * b)%Qc
  | _, _ =>
      match nsign x, nsign y with
      | None, _ | _, None => NaN
      | Some Eq, _ | _, Some Eq => NaN
      | Some Gt, Some Gt | Some Lt, Some Lt => PInf
      | _, _ => NInf
      end
  end.

(** The quotient of a [float] [x] by an [int] [z].  Python raises
    [ZeroDivisionError] when [z] is zero; every division of the program is
    guarded by a test of its divisor, and the guard is kept at the call. *)
Definition ndiv_int (x : num) (z : Z) : num :=
  match x with
  | Fin a => Fin (a / Q2Qc (inject_Z z))%Qc
  | NaN => NaN
  | PInf => if z <? 0 then NInf else PInf
  | NInf => if z <? 0 then PInf else NInf
  end.

Definition nltb (x y : num) : bool :=
  match x, y with
  | NaN, _ | _, NaN => false
  | Fin a, Fin b => Qc_ltb a b
  | NInf, NInf => false
  | NInf, _ => true
  | _, PInf => match x with PInf => false | _ => true end
  | _, _ => false
  end.

Definition nabs (x : num) : num :=
  match x with
  | Fin q => Fin (if Qc_ltb q (Q2Qc 0) then - q else q)%Qc
  | PInf | NInf => PInf
  | NaN => NaN
  end.

(** Python's [max(a, b)] keeps [a] unless [b > a]. *)
Definition nmax (a b : num) : num := if nltb a b then b else a.

(** [round(x, ndigits)]: to the nearest multiple of [10 ^ -ndigits], a tie
    going to the even one; a [float] that is not finite is returned as is. *)
Definition round_half_even (q : Qc) (ndigits : nat) : Qc :=
  let s := 10 ^ Z.of_nat ndigits in
  let n := Qnum q * s in
  let d := Zpos (Qden q) in
  let fl := n / d in
  let r := n mod d in
  let k := if 2 * r <? d then fl
           else if d <? 2 * r then fl + 1
           else if Z.even fl then fl else fl + 1 in
  Q2Qc (Qmake k (Z.to_pos s)).

Definition round (x : num) (ndigits : nat) : num :=
  match x with
  | Fin q => Fin (round_half_even q ndigits)
  | _ => x
  end.

(** [int(x)] for a [float] [x]: truncation towards zero. *)
Definition int_of_float (x : num) : result Z :=
  match x with
  | Fin q => Ok (Z.quot (Qnum q) (Zpos (Qden q)))
  | PInf | NInf => Raise OverflowError
  | NaN => Raise ValueError
  end.

(** [float(z)] for an [int] [z], which is also what Python does to the
    [int] operand of mixed arithmetic.  The conversion rounds to the nearest
    [float], and raises [OverflowError] when that is beyond the largest one,
    [2^1024 - 2^971]: from [2^1024 - 2^970] on. *)
Definition FLOAT_INT_BOUND : Z := 2 ^ 1024 - 2 ^ 970.

Definition float_of_int (z : Z) : result num :=
  if Z.abs z <? FLOAT_INT_BOUND then Ok (of_int z) else Raise OverflowError.

(** [x * z] for a [float] [x] and an [int] [z]. *)
Definition mul_float_int (x : num) (z : Z) : result num :=
  y ← float_of_int z; Ok (nmul x y).

(** [x / z] for a [float] [x] and an [int] [z] that is not zero. *)
Definition div_float_int (x : num) (z : Z) : result num :=
  _ ← float_of_int z; Ok (ndiv_int x z).

(** [sum(xs)]: Python starts from [0] and adds from the left. *)
Definition sum_Z (l : list Z) : Z := fold_left Z.add l 0.
Definition sum_num (l : list num) : num := fold_left nadd l (of_int 0).

(** ** Sorting

    [sorted(l, key=k)] is stable.  A stable sort is determined by its input
    and the order on keys, so any stable algorithm is a model of it; the keys
    of the program are strings, and insertion is used here: an element goes in
    front of the first element whose key is not smaller, which keeps elements
    with equal keys in their input order. *)

Fixpoint insert_by {A : Type} (key : A -> string) (x : A) (l : list A) : list A :=
  match l with
  | [] => [x]
  | y :: l' =>
      if String.leb (key x) (key y) then x :: y :: l' else y :: insert_by key x l'
  end.

Definition sorted {A : Type} (key : A -> string) (l : list A) : list A :=
  foldr (insert_by key) [] l.

(** ** Fills and round-trip trades *)

Record Fill : Type := {
  side : string;
  qty : Z;
  price : num;
  time : string;
  date : string;
}.

Record Trade : Type := {
  trade_num : Z;
  direction : string;
  trade_qty : Z;
  avg_entry : num;
  avg_exit : num;
  pnl : num;
  entry_time : string;
  exit_time : string;
  fills : list Fill;
  open : bool;
}.

Record Day : Type := {
  day_date : string;
  trades : list Trade;
}.

(** The four accumulators of the first loop of [_compute_stats]. *)
Record Totals : Type := {
  buy_qty : Z;
  buy_val : num;
  sell_qty : Z;
  sell_val : num;
}.

Definition totals_step (a : Totals) (f : Fill) : Totals :=
  if String.eqb (side f) "Buy" then
    {| buy_qty := buy_qty a + qty f;
       buy_val := nadd (buy_val a) (nmul (of_int (qty f)) (price f));
       sell_qty := sell_qty a;
       sell_val := sell_val a |}
  else
    {| buy_qty := buy_qty a;
       buy_val := buy_val a;
       sell_qty := sell_qty a + qty f;
       sell_val := nadd (sell_val a) (nmul (of_int (qty f)) (price f)) |}.

(** The first loop of [_compute_stats].  The product [f["qty"] * f["price"]]
    converts the quantity to a [float], which raises [OverflowError] when
    the quantity is out of range; the step is [totals_step] otherwise. *)
Fixpoint totals_loop (l : list Fill) (a : Totals) : result Totals :=
  match l with
  | [] => Ok a
  | f :: l' =>
      _ ← float_of_int (qty f);
      totals_loop l' (totals_step a f)
  end.

(** The accumulators after the loop, when it returns. *)
Definition totals (l : list Fill) : Totals :=
  fold_left totals_step l
    {| buy_qty := 0; buy_val := of_int 0; sell_qty := 0; sell_val := of_int 0 |}.

(** Truth value of an [int]. *)
Definition truthy (z : Z) : bool := negb (z =? 0).

(** [fills[0]] raises [IndexError] on an empty list; the divisions and the
    product with the quantity convert an [int] to a [float], and raise
    [OverflowError] when it is out of range. *)
Definition _compute_stats (l : list Fill) (n : Z) : result Trade :=
  match l with
  | [] => Raise IndexError
  | first :: _ =>
      t ← totals_loop l
            {| buy_qty := 0; buy_val := of_int 0; sell_qty := 0; sell_val := of_int 0 |};
      let is_short := String.eqb (side first) "Sell" in
      let q := Z.max (buy_qty t) (sell_qty t) in
      entry ←
        (if is_short && truthy (sell_qty t) then div_float_int (sell_val t) (sell_qty t)
         else if truthy (buy_qty t) then div_float_int (buy_val t) (buy_qty t)
         else Ok (of_int 0));
      exit ←
        (if is_short && truthy (buy_qty t) then div_float_int (buy_val t) (buy_qty t)
         else if truthy (sell_qty t) then div_float_int (sell_val t) (sell_qty t)
         else Ok (of_int 0));
      let unclosed :=
        (is_short && (buy_qty t =? 0)) || (negb is_short && (sell_qty t =? 0)) in
      p ←
        (if unclosed then Ok (of_int 0)
         else
           x ← mul_float_int (if is_short then nsub entry exit else nsub exit entry) q;
           Ok (nmul x (of_int 5)));
      Ok {| trade_num := n;
            direction := if is_short then "Short" else "Long";
            trade_qty := q;
            avg_entry := round entry 4;
            avg_exit := round exit 4;
            pnl := round p 2;
            entry_time := time first;
            exit_time := time (List.last l first);
            fills := l;
            open := unclosed |}
  end.

(** Signed quantity of a fill: what the loop adds to [position]. *)
Definition signed_qty (f : Fill) : Z :=
  if String.eqb (side f) "Buy" then qty f else - qty f.

(** The loop of [_build_round_trips], with its three variables. *)
Fixpoint build_loop (l : list Fill) (position : Z) (current : list Fill)
    (acc : list Trade) : result (list Trade) :=
  match l with
  | [] =>
      match current with
      | [] => Ok acc
      | _ :: _ =>
          t ← _compute_stats current (Z.of_nat (length acc) + 1);
          Ok (acc ++ [t])
      end
  | f :: l' =>
      let position := position + signed_qty f in
      let current := current ++ [f] in
      if position =? 0 then
        t ← _compute_stats current (Z.of_nat (length acc) + 1);
        build_loop l' position [] (acc ++ [t])
      else build_loop l' position current acc
  end.

Definition _build_round_trips (l : list Fill) : result (list Trade) :=
  build_loop l 0 [] [].

(** [by_date.setdefault(f["date"], []).append(f)] for every fill. *)
Definition group_by_date (l : list Fill) : gmap string (list Fill) :=
  fold_left (fun m f => <[date f := default [] (m !! date f) ++ [f]]> m) l ∅.

(** [sorted(by_date.items())] orders the pairs by date: the dates of a dict
    are pairwise different, so the comparison of two pairs is decided by
    their first components. *)
Definition reconstruct_trades (l : list Fill) : result (list Day) :=
  mapM (fun '(d, day_fills) =>
          ts ← _build_round_trips (sorted time day_fills);
          Ok {| day_date := d; trades := ts |})
       (sorted fst (map_to_list (group_by_date l))).

(** Sum of the signed quantities of a group of fills. *)
Definition signed_sum (l : list Fill) : Z := sum_Z (map signed_qty l).

(** ** Builtins of the Python runtime

    The conversions of text that the program leaves to Python are taken as
    they are, without a model of their grammar:
    - [py_float s] is [float(s)] for a [str] [s], [None] when it raises
      [ValueError];
    - [py_int s] is [int(s)] for a [str] [s], [None] when it raises
      [ValueError];
    - [strptime_strftime raw fmt out] is
      [datetime.strptime(raw, fmt).strftime(out)], [None] when [strptime]
      raises [ValueError];
    - [py_repr_float x] is [str(x)] for a [float] [x]. *)

Class PyBuiltins : Type := {
  py_float : string -> option num;
  py_int : string -> option Z;
  strptime_strftime : string -> string -> string -> option string;
  py_repr_float : num -> string;
}.

(** ** Live trades: configuration *)

Record Instrument : Type := {
  dollars_per_point : num;
  dollars_per_tick : num;
  ticks_per_point : Z;
}.

Definition MES_defaults : Instrument :=
  {| dollars_per_point := of_int 5;
     dollars_per_tick := Fin (Q2Qc (5 # 4));
     ticks_per_point := 4 |}.

Definition ES_defaults : Instrument :=
  {| dollars_per_point := of_int 50;
     dollars_per_tick := Fin (Q2Qc (25 # 2));
     ticks_per_point := 4 |}.

Definition INSTRUMENT_CONFIG : list (string * Instrument) :=
  [("MES", MES_defaults); ("ES", ES_defaults)].

Definition DEFAULT_TRADE_DEFAULTS : list (string * string) :=
  [("full_stop_points", "20");
   ("full_tp_points", "20");
   ("partial_stop_points", "20");
   ("partial_tp1_points", "5");
   ("partial_tp2_points", "10");
   ("partial_tp3_points", "20")].

(** [d[k]] on a dict. *)
Definition getitem {K V : Type} `{Countable K} (d : gmap K V) (k : K) : result V :=
  match d !! k with
  | Some v => Ok v
  | None => Raise KeyError
  end.

Section Config.
Context {B : PyBuiltins}.

(** The rows of table [app_config], as [db.get_all_config()] returns them:
    every value is text. *)
Variable config : gmap string string.

(** [float(config.get(key, default))] with a number for [default]. *)
Definition config_float (key : string) (default : num) : result num :=
  match config !! key with
  | Some s => match py_float s with Some x => Ok x | None => Raise ValueError end
  | None => Ok default
  end.

(** [int(config.get(key, default))] with an [int] for [default]. *)
Definition config_int (key : string) (default : Z) : result Z :=
  match config !! key with
  | Some s => match py_int s with Some z => Ok z | None => Raise ValueError end
  | None => Ok default
  end.

Definition get_trade_defaults : gmap string string :=
  foldl (fun res '(key, default_val) =>
           <[key := default default_val (config !! ("td_" +:+ key))]> res)
        ∅ DEFAULT_TRADE_DEFAULTS.

Definition get_instrument_config : result (gmap string Instrument) :=
  foldl (fun acc '(inst, defaults) =>
           res ← acc;
           dpp ← config_float ("inst_" +:+ inst +:+ "_dpp") (dollars_per_point defaults);
           dpt ← config_float ("inst_" +:+ inst +:+ "_dpt") (dollars_per_tick defaults);
           tpp ← config_int ("inst_" +:+ inst +:+ "_tpp") (ticks_per_point defaults);
           Ok (<[inst := {| dollars_per_point := dpp;
                            dollars_per_tick := dpt;
                            ticks_per_point := tpp |}]> res))
        (Ok ∅) INSTRUMENT_CONFIG.

(** [get_instrument_config().get(instrument, INSTRUMENT_CONFIG["MES"])
    ["dollars_per_point"]], the opening of the three live-trade functions. *)
Definition instrument_dpp (instrument : string) : result num :=
  ic ← get_instrument_config;
  Ok (dollars_per_point (default MES_defaults (ic !! instrument))).
End Config.

(** ** Live trades: the plan of levels *)

Record Level : Type := {
  level_type : string;
  portion : Z;
  lv_qty : Z;
  lv_price : num;
  risk_dollars : num;
  reward_dollars : num;
}.

(** [float(s)] where a [ValueError] propagates. *)
Definition float_of_str {B : PyBuiltins} (s : string) : result num :=
  match py_float s with
  | Some x => Ok x
  | None => Raise ValueError
  end.

(** [qtys[i] += 1]. *)
Definition incr_at (i : nat) (qtys : list Z) : result (list Z) :=
  match qtys !! i with
  | Some q => Ok (<[i := q + 1]> qtys)
  | None => Raise IndexError
  end.

(** [l[i]] on a list. *)
Definition nth_item {A : Type} (l : list A) (i : nat) : result A :=
  match l !! i with
  | Some a => Ok a
  | None => Raise IndexError
  end.

(** Lines 353 to 358: the three quantities of partials mode. *)
Definition split_qty (total_qty : Z) : result (list Z) :=
  let base_qty := total_qty / 3 in
  let remainder := total_qty mod 3 in
  foldl (fun acc i => qtys ← acc; incr_at i qtys)
        (Ok [base_qty; base_qty; base_qty])
        (seq 0 (Z.to_nat remainder)).

Definition stop_price_at (is_long : bool) (entry_price dist : num) : num :=
  if is_long then nsub entry_price dist else nadd entry_price dist.

Definition tp_price_at (is_long : bool) (entry_price dist : num) : num :=
  if is_long then nadd entry_price dist else nsub entry_price dist.

(** The body of [compute_live_trade_plan] once [dpp] and [defaults] are
    read. *)
Definition plan_levels {B : PyBuiltins} (dpp : num) (defaults : gmap string string)
    (direction : string) (entry_price : num) (total_qty : Z) (mode : string)
    : result (list Level) :=
  let is_long := String.eqb direction "Long" in
  if String.eqb mode "full" then
    stop_dist ← getitem defaults "full_stop_points" ≫= float_of_str;
    tp_dist ← getitem defaults "full_tp_points" ≫= float_of_str;
    let stop_price := stop_price_at is_long entry_price stop_dist in
    let tp_price := tp_price_at is_long entry_price tp_dist in
    let risk := nmul (nmul (nabs (nsub entry_price stop_price)) (of_int total_qty)) dpp in
    let reward := nmul (nmul (nabs (nsub tp_price entry_price)) (of_int total_qty)) dpp in
    Ok [ {| level_type := "stop"; portion := 1; lv_qty := total_qty;
            lv_price := round stop_price 2; risk_dollars := round risk 2;
            reward_dollars := of_int 0 |};
         {| level_type := "tp"; portion := 1; lv_qty := total_qty;
            lv_price := round tp_price 2; risk_dollars := of_int 0;
            reward_dollars := round reward 2 |} ]
  else
    stop_dist ← getitem defaults "partial_stop_points" ≫= float_of_str;
    tp1_dist ← getitem defaults "partial_tp1_points" ≫= float_of_str;
    tp2_dist ← getitem defaults "partial_tp2_points" ≫= float_of_str;
    tp3_dist ← getitem defaults "partial_tp3_points" ≫= float_of_str;
    qtys ← split_qty total_qty;
    let tp_dists := [tp1_dist; tp2_dist; tp3_dist] in
    foldl (fun acc i =>
             levels ← acc;
             let stop_price := stop_price_at is_long entry_price stop_dist in
             q ← nth_item qtys i;
             let risk := nmul (nmul (nabs (nsub entry_price stop_price)) (of_int q)) dpp in
             tp_dist ← nth_item tp_dists i;
             let tp_price := tp_price_at is_long entry_price tp_dist in
             let reward := nmul (nmul (nabs (nsub tp_price entry_price)) (of_int q)) dpp in
             Ok (levels ++
                 [ {| level_type := "stop"; portion := Z.of_nat i + 1; lv_qty := q;
                      lv_price := round stop_price 2; risk_dollars := round risk 2;
                      reward_dollars := of_int 0 |};
                   {| level_type := "tp"; portion := Z.of_nat i + 1; lv_qty := q;
                      lv_price := round tp_price 2; risk_dollars := of_int 0;
                      reward_dollars := round reward 2 |} ]))
          (Ok []) (seq 0 3).

Definition compute_live_trade_plan {B : PyBuiltins} (config : gmap string string)
    (direction instrument : string) (entry_price : num) (total_qty : Z)
    (mode : string) : result (list Level) :=
  dpp ← instrument_dpp config instrument;
  plan_levels dpp (get_trade_defaults config) direction entry_price total_qty mode.

(** The body of [compute_execution_pnl] once [dpp] is read. *)
Definition execution_pnl (dpp : num) (direction : string)
    (entry_price exec_price : num) (q : Z) : num :=
  if String.eqb direction "Long" then
    round (nmul (nmul (nsub exec_price entry_price) (of_int q)) dpp) 2
  else
    round (nmul (nmul (nsub entry_price exec_price) (of_int q)) dpp) 2.

Definition compute_execution_pnl {B : PyBuiltins} (config : gmap string string)
    (direction instrument : string) (entry_price exec_price : num) (q : Z)
    : result num :=
  dpp ← instrument_dpp config instrument;
  Ok (execution_pnl dpp direction entry_price exec_price q).

(** ** Live trades: the risk snapshot *)

Record Execution : Type := {
  exec_type : string;
  ex_portion : Z;
  ex_qty : Z;
  ex_price : num;
  exec_time : string;
  ex_pnl : num;
}.

Record LiveTrade : Type := {
  lt_direction : string;
  instrument : string;
  entry_price : num;
  total_qty : Z;
  mode : string;
  levels : list Level;
  executions : list Execution;
}.

(** One entry of [portion_details]. *)
Record PortionDetail : Type := {
  pd_portion : Z;
  pd_qty : Z;
  stop_price : num;
  tp_price : option num;
  stop_pnl : num;
  tp_pnl : num;
}.

(** The values held by the snapshot; the snapshot itself is a dict from
    field names to such values. *)
Inductive pyval : Type :=
| VInt (z : Z)
| VNum (x : num)
| VBool (b : bool)
| VList (l : list PortionDetail).

(** Signed P&L of [q] units leaving at [target]. *)
Definition exit_pnl (is_long : bool) (entry target : num) (q : Z) (dpp : num) : num :=
  if is_long then nmul (nmul (nsub target entry) (of_int q)) dpp
  else nmul (nmul (nsub entry target) (of_int q)) dpp.

(** Lines 417 to 421. *)
Definition initial_risk_of (entry dpp : num) (lvs : list Level) : num :=
  fold_left (fun initial_risk lv =>
               if String.eqb (level_type lv) "stop" then
                 nadd initial_risk
                      (nmul (nmul (nabs (nsub entry (lv_price lv))) (of_int (lv_qty lv))) dpp)
               else initial_risk)
            lvs (of_int 0).

(** Lines 441 to 443. *)
Definition portion_exited_of (exs : list Execution) : gmap Z Z :=
  fold_left (fun m e => <[ex_portion e := default 0 (m !! ex_portion e) + ex_qty e]> m)
            exs (<[1 := 0]> (<[2 := 0]> (<[3 := 0]> ∅))).

(** Lines 446 to 449. *)
Definition portion_levels_of (lvs : list Level) : gmap (string * Z) Level :=
  fold_left (fun m lv => <[(level_type lv, portion lv) := lv]> m) lvs ∅.

(** The three variables of the loop over the portions. *)
Record PortionsState : Type := {
  total_stop_risk : num;
  total_reward : num;
  portion_details : list PortionDetail;
}.

(** One turn of the loop of lines 454 to 494. *)
Definition portion_step (is_long : bool) (entry dpp : num)
    (portion_exited : gmap Z Z) (portion_levels : gmap (string * Z) Level)
    (st : PortionsState) (p : Z) : PortionsState :=
  match portion_levels !! ("stop", p) with
  | None => st
  | Some stop_lv =>
      let tp_lv := portion_levels !! ("tp", p) in
      let rem := lv_qty stop_lv - default 0 (portion_exited !! p) in
      if rem <=? 0 then st
      else
        let s_pnl := exit_pnl is_long entry (lv_price stop_lv) rem dpp in
        let t_pnl :=
          match tp_lv with
          | Some lv => exit_pnl is_long entry (lv_price lv) rem dpp
          | None => of_int 0
          end in
        {| total_stop_risk := nadd (total_stop_risk st) s_pnl;
           total_reward :=
             match tp_lv with
             | Some _ => nadd (total_reward st) (nmax t_pnl (of_int 0))
             | None => total_reward st
             end;
           portion_details :=
             portion_details st ++
             [ {| pd_portion := p; pd_qty := rem;
                  stop_price := lv_price stop_lv;
                  tp_price := lv_price <$> tp_lv;
                  stop_pnl := round s_pnl 2;
                  tp_pnl := round t_pnl 2 |} ] |}
  end.

Definition portions_loop (is_long : bool) (entry dpp : num)
    (exs : list Execution) (lvs : list Level) : PortionsState :=
  fold_left (portion_step is_long entry dpp (portion_exited_of exs) (portion_levels_of lvs))
            [1; 2; 3]
            {| total_stop_risk := of_int 0; total_reward := of_int 0;
               portion_details := [] |}.

(** Lines 501 to 504 and 524 to 527. *)
Definition risk_of (worst_case : num) : num :=
  if nltb worst_case (of_int 0) then nabs worst_case else of_int 0.

(** What the two branches of line 439 leave in the variables that the final
    dict reads. *)
Record Outcome : Type := {
  current_risk : num;
  reward : num;
  net_stop_exposure : num;
  details : list PortionDetail;
}.

Definition partials_outcome (is_long : bool) (entry dpp realized_pnl : num)
    (exs : list Execution) (lvs : list Level) : Outcome :=
  let st := portions_loop is_long entry dpp exs lvs in
  let worst_case_pnl := nadd (total_stop_risk st) realized_pnl in
  {| current_risk := risk_of worst_case_pnl;
     reward := total_reward st;
     net_stop_exposure := round worst_case_pnl 2;
     details := portion_details st |}.

(** [next((lv for lv in levels if lv["level_type"] == ty), None)]. *)
Definition first_level (ty : string) (lvs : list Level) : option Level :=
  List.find (fun lv => String.eqb (level_type lv) ty) lvs.

(** In full mode [current_risk] is assigned only under [remaining_qty > 0];
    read unassigned it raises [UnboundLocalError]. *)
Definition full_outcome (is_long : bool) (entry dpp realized_pnl : num)
    (remaining_qty : Z) (lvs : list Level) : result Outcome :=
  if 0 <? remaining_qty then
    let stop_lv := first_level "stop" lvs in
    let tp_lv := first_level "tp" lvs in
    let '(risk, exposure) :=
      match stop_lv with
      | Some lv =>
          let worst_case :=
            nadd (exit_pnl is_long entry (lv_price lv) remaining_qty dpp) realized_pnl in
          (risk_of worst_case, round worst_case 2)
      | None => (of_int 0, of_int 0)
      end in
    let total :=
      match tp_lv with
      | Some lv =>
          nmax (exit_pnl is_long entry (lv_price lv) remaining_qty dpp) (of_int 0)
      | None => of_int 0
      end in
    Ok {| current_risk := risk; reward := total; net_stop_exposure := exposure;
          details := [] |}
  else Raise UnboundLocalError.

(** The body of [recalculate_live_trade] once [dpp] is read. *)
Definition risk_snapshot (dpp : num) (live_trade : LiveTrade)
    : result (gmap string pyval) :=
  let is_long := String.eqb (lt_direction live_trade) "Long" in
  let entry := entry_price live_trade in
  let exited_qty := sum_Z (map ex_qty (executions live_trade)) in
  let realized_pnl := sum_num (map ex_pnl (executions live_trade)) in
  let remaining_qty := total_qty live_trade - exited_qty in
  let initial_risk := initial_risk_of entry dpp (levels live_trade) in
  if remaining_qty <=? 0 then
    Ok (list_to_map
          [ ("remaining_qty", VInt 0);
            ("exited_qty", VInt exited_qty);
            ("realized_pnl", VNum (round realized_pnl 2));
            ("current_risk", VNum (of_int 0));
            ("potential_reward", VNum (of_int 0));
            ("initial_risk", VNum (round initial_risk 2));
            ("active_portions", VList []);
            ("portion_details", VList []);
            ("is_closed", VBool true) ])
  else
    let partials := String.eqb (mode live_trade) "partials" in
    o ← (if partials then
           Ok (partials_outcome is_long entry dpp realized_pnl
                 (executions live_trade) (levels live_trade))
         else
           full_outcome is_long entry dpp realized_pnl remaining_qty
             (levels live_trade));
    Ok (list_to_map
          [ ("remaining_qty", VInt remaining_qty);
            ("exited_qty", VInt exited_qty);
            ("realized_pnl", VNum (round realized_pnl 2));
            ("current_risk", VNum (round (current_risk o) 2));
            ("potential_reward", VNum (round (reward o) 2));
            ("initial_risk", VNum (round initial_risk 2));
            ("net_stop_exposure", VNum (net_stop_exposure o));
            ("active_portions",
             VList (if partials then filter (fun d => 0 < pd_qty d) (details o) else []));
            ("portion_details", VList (details o));
            ("is_closed", VBool (remaining_qty <=? 0)) ]).

Definition recalculate_live_trade {B : PyBuiltins} (config : gmap string string)
    (live_trade : LiveTrade) : result (gmap string pyval) :=
  dpp ← instrument_dpp config (instrument live_trade);
  risk_snapshot dpp live_trade.

(** The fields that spec section 4.5 lists for the snapshot. *)
Definition snapshot_fields : list string :=
  [ "remaining_qty"; "exited_qty"; "realized_pnl"; "current_risk";
    "potential_reward"; "initial_risk"; "net_stop_exposure"; "active_portions";
    "portion_details"; "is_closed" ].

(** ** The upload parser

    Text.  A [str] is the [string] of its UTF-8 bytes.  The white space of
    [str.strip] and [str.split] is that of [str.isspace], which has
    characters of one, two and three bytes:
    - U+0009 to U+000D and U+001C to U+0020 (one byte each);
    - U+0085 and U+00A0 (C2 85 and C2 A0);
    - U+1680 (E1 9A 80), U+2000 to U+200A (E2 80 80 to E2 80 8A), U+2028,
      U+2029 and U+202F (E2 80 A8, E2 80 A9 and E2 80 AF), U+205F (E2 81 9F)
      and U+3000 (E3 80 80).
    The bytes of a character after its first one are 80 to BF, and none of
    them starts a white-space character: a scan of the bytes that tests for
    white space at every byte finds the white-space characters of the text
    and no other. *)

Definition space1 (a : ascii) : bool :=
  let x := N_of_ascii a in
  ((0x09 <=? x)%N && (x <=? 0x0D)%N) || ((0x1C <=? x)%N && (x <=? 0x20)%N).

Definition space2 (a b : ascii) : bool :=
  let x := N_of_ascii a in
  let y := N_of_ascii b in
  (x =? 0xC2)%N && ((y =? 0x85)%N || (y =? 0xA0)%N).

Definition space3 (a b c : ascii) : bool :=
  let x := N_of_ascii a in
  let y := N_of_ascii b in
  let z := N_of_ascii c in
  ((x =? 0xE1)%N && (y =? 0x9A)%N && (z =? 0x80)%N)
  || ((x =? 0xE2)%N && (y =? 0x80)%N &&
      (((0x80 <=? z)%N && (z <=? 0x8A)%N)
       || (z =? 0xA8)%N || (z =? 0xA9)%N || (z =? 0xAF)%N))
  || ((x =? 0xE2)%N && (y =? 0x81)%N && (z =? 0x9F)%N)
  || ((x =? 0xE3)%N && (y =? 0x80)%N && (z =? 0x80)%N).

(** The number of bytes of the white-space character that [l] starts with,
    [0] when [l] starts with none. *)
Definition space_width (l : list ascii) : nat :=
  match l with
  | a :: l1 =>
      if space1 a then 1%nat
      else
        match l1 with
        | b :: l2 =>
            if space2 a b then 2%nat
            else
              match l2 with
              | c :: _ => if space3 a b c then 3%nat else 0%nat
              | [] => 0%nat
              end
        | [] => 0%nat
        end
  | [] => 0%nat
  end.

(** [s.lstrip()]: the white-space characters at the start are dropped;
    [skip] is the number of bytes of the current one still to drop. *)
Fixpoint lstrip_from (skip : nat) (l : list ascii) : list ascii :=
  match l with
  | [] => []
  | _ :: l' =>
      match skip with
      | S k => lstrip_from k l'
      | O =>
          match space_width l with
          | O => l
          | S k => lstrip_from k l'
          end
      end
  end.

Definition lstrip (l : list ascii) : list ascii := lstrip_from 0 l.

(** [s.rstrip()]: the text is cut where only white space follows. *)
Fixpoint rstrip (l : list ascii) : list ascii :=
  match l with
  | [] => []
  | c :: l' =>
      match lstrip l with
      | [] => []
      | _ :: _ => c :: rstrip l'
      end
  end.

(** [s.strip()]. *)
Definition strip (s : string) : string :=
  string_of_list_ascii (rstrip (lstrip (list_ascii_of_string s))).

(** A word that was read, [cur] being its bytes in reverse, goes in front
    of the words found after it. *)
Definition flush (cur : list ascii) (rest : list string) : list string :=
  match cur with
  | [] => rest
  | _ :: _ => string_of_list_ascii (List.rev cur) :: rest
  end.

(** The loop of [s.split()]: [cur] is the word being read, reversed, and
    [skip] the number of bytes of the current white-space character still to
    pass. *)
Fixpoint split_loop (skip : nat) (l : list ascii) (cur : list ascii) : list string :=
  match l with
  | [] => flush cur []
  | c :: l' =>
      match skip with
      | S k => split_loop k l' cur
      | O =>
          match space_width l with
          | O => split_loop 0 l' (c :: cur)
          | S k => flush cur (split_loop k l' [])
          end
      end
  end.

(** [s.split()]: the maximal runs of characters that are not white space. *)
Definition split (s : string) : list string :=
  split_loop 0 (list_ascii_of_string s) [].

Definition lower_ascii (c : ascii) : ascii :=
  let n := N_of_ascii c in
  if (65 <=? n)%N && (n <=? 90)%N then ascii_of_N (n + 32) else c.

(** [s.lower()] as far as the program uses it, which is to compare the
    result with ["csv"], ["xlsx"] and ["xls"]: the letters [A] to [Z] are
    lowered and every other byte is kept.  The two characters outside ASCII
    that [lower] maps to a text with an ASCII letter, U+0130 and U+212A,
    give [i] and [k], which are in none of the three words. *)
Definition lower (s : string) : string :=
  string_of_list_ascii (List.map lower_ascii (list_ascii_of_string s)).

(** [s.rsplit(".", 1)[-1]]: what follows the last dot, or [s] without one. *)
Definition after_last_dot (s : string) : string :=
  string_of_list_ascii
    (fold_left (fun acc c => if Ascii.eqb c "."%char then [] else acc ++ [c])
               (list_ascii_of_string s) []).

(** The value of a cell.  [csv.DictReader] yields text, or [None] in a row
    that is too short; openpyxl yields the value of the cell of the sheet:
    [None] for an empty cell, text, an [int], a [float], a [bool], or a
    date, a time or a duration, which is given here by its truth value and
    by its [str()]. *)
Inductive cell : Type :=
| CNone
| CStr (s : string)
| CInt (z : Z)
| CFloat (x : num)
| CBool (b : bool)
| CDate (truth : bool) (text : string).

(** [bool(v)]: [None], the empty text, zero and [False] are false. *)
Definition cell_bool (v : cell) : bool :=
  match v with
  | CNone => false
  | CStr s => negb (String.eqb s "")
  | CInt z => negb (z =? 0)
  | CFloat x => match x with Fin q => negb (Qc_eq_bool q (Q2Qc 0)) | _ => true end
  | CBool b => b
  | CDate truth _ => truth
  end.

(** [bool(r.get(key))]: an absent key gives [None]. *)
Definition cell_truthy (v : option cell) : bool :=
  match v with
  | Some c => cell_bool c
  | None => false
  end.

(** [str(v)]; an [int] is written in decimal.  A sheet has no [int] of
    more digits than [str] accepts: openpyxl reads it with [int], which has
    the same limit. *)
Definition str {B : PyBuiltins} (v : cell) : string :=
  match v with
  | CNone => "None"
  | CStr s => s
  | CInt z => pretty z
  | CFloat x => py_repr_float x
  | CBool b => if b then "True" else "False"
  | CDate _ text => text
  end.

Definition REQUIRED_COLUMNS : gset string :=
  list_to_set ["B/S"; "avgPrice"; "filledQty"; "Fill Time"; "Date"].

(** [try: return f() except ValueError: pass], then the next format. *)
Fixpoint first_format {B : PyBuiltins} (raw : string) (fmts : list string)
    (out : string) : option string :=
  match fmts with
  | [] => None
  | fmt :: fmts' =>
      match strptime_strftime raw fmt out with
      | Some s => Some s
      | None => first_format raw fmts' out
      end
  end.

Definition _parse_fill_time {B : PyBuiltins} (raw : string) : string :=
  let raw := strip raw in
  match first_format raw
          ["%m/%d/%Y %H:%M:%S"; "%Y-%m-%d %H:%M:%S"; "%m/%d/%y %H:%M:%S"]
          "%H:%M:%S" with
  | Some s => s
  | None =>
      match split raw with
      | _ :: second :: _ => second
      | _ => raw
      end
  end.

Definition _parse_date {B : PyBuiltins} (raw : string) : result string :=
  raw ← nth_item (split (strip raw)) 0;
  match first_format raw ["%m/%d/%Y"; "%Y-%m-%d"; "%m/%d/%y"] "%Y-%m-%d" with
  | Some s => Ok s
  | None => Ok raw
  end.

(** [float(v)] for a cell: the text is parsed, an [int] is converted, and
    [None] and a date raise [TypeError]. *)
Definition float_of_cell {B : PyBuiltins} (v : cell) : result num :=
  match v with
  | CNone => Raise TypeError
  | CStr s => float_of_str s
  | CInt z => float_of_int z
  | CFloat x => Ok x
  | CBool b => Ok (of_int (if b then 1 else 0))
  | CDate _ _ => Raise TypeError
  end.

(** The dict display of lines 132 to 138; its entries are evaluated in the
    order written. *)
Definition fill_of_row {B : PyBuiltins} (r : gmap string cell) : result Fill :=
  s ← getitem r "B/S";
  vq ← getitem r "filledQty";
  x ← float_of_str (str vq);
  q ← int_of_float x;
  vp ← getitem r "avgPrice";
  p ← float_of_cell vp;
  t ← getitem r "Fill Time";
  vd ← getitem r "Date";
  d ← _parse_date (str vd);
  Ok {| side := strip (str s); qty := q; price := p;
        time := _parse_fill_time (str t); date := d |}.

(** The exceptions named by the [except] clause of line 139. *)
Definition caught (e : exn) : bool :=
  match e with
  | ValueError | KeyError | TypeError => true
  | _ => false
  end.

(** The loop of lines 128 to 140. *)
Fixpoint fills_of_rows {B : PyBuiltins} (rows : list (gmap string cell))
    (acc : list Fill) : result (list Fill) :=
  match rows with
  | [] => Ok acc
  | r :: rows' =>
      if negb (cell_truthy (r !! "Fill Time")) || negb (cell_truthy (r !! "B/S"))
      then fills_of_rows rows' acc
      else
        match fill_of_row r with
        | Ok f => fills_of_rows rows' (acc ++ [f])
        | Raise e => if caught e then fills_of_rows rows' acc else Raise e
        end
  end.

(** The two libraries that read the file are taken as they are:
    - [csv_rows file_bytes] is
      [list(csv.DictReader(io.StringIO(file_bytes.decode("utf-8-sig",
      errors="replace"))))], or the exception that it raises ([csv.Error]
      on a field that is too long).  A cell is text or [None].  The key
      [None] under which [DictReader] puts the cells that a row has too many
      is left out: the program reads columns by their name only.
    - [xlsx_sheet file_bytes] is the active sheet of
      [openpyxl.load_workbook(io.BytesIO(file_bytes), data_only=True)]: the
      values of the cells of its first row, and the values of the rows from
      the second one on as [iter_rows(min_row=2, values_only=True)] yields
      them; or the exception that loading the workbook or reading the sheet
      raises. *)
Class FileReaders : Type := {
  csv_rows : list Byte.byte -> result (list (gmap string (option string)));
  xlsx_sheet : list Byte.byte -> result (list cell * list (list cell));
}.

Definition cell_of_csv (v : option string) : cell :=
  match v with
  | Some s => CStr s
  | None => CNone
  end.

Definition row_of_csv (r : gmap string (option string)) : gmap string cell :=
  cell_of_csv <$> r.

(** [str(c.value).strip() if c.value else ""]. *)
Definition header_of {B : PyBuiltins} (v : cell) : string :=
  if cell_bool v then strip (str v) else "".

(** [dict(zip(headers, row))]: the pairs stop with the shorter list, and
    of two cells under one header the later one stays. *)
Definition dict_zip (headers : list string) (row : list cell) : gmap string cell :=
  fold_left (fun d '(h, v) => <[h := v]> d) (zip headers row) ∅.

(** Lines 104 to 119: the rows of the file. *)
Definition read_rows {B : PyBuiltins} {R : FileReaders} (HAS_OPENPYXL : bool)
    (filename : string) (file_bytes : list Byte.byte)
    : result (list (gmap string cell)) :=
  let ext := lower (after_last_dot filename) in
  if String.eqb ext "csv" then
    rows ← csv_rows file_bytes;
    Ok (map row_of_csv rows)
  else if String.eqb ext "xlsx" || String.eqb ext "xls" then
    if negb HAS_OPENPYXL then Raise ValueError
    else
      sheet ← xlsx_sheet file_bytes;
      let headers := map header_of (fst sheet) in
      Ok (map (dict_zip headers) (snd sheet))
  else Raise ValueError.

(** [parse_uploaded_file]; [HAS_OPENPYXL] is the module's flag. *)
Definition parse_uploaded_file {B : PyBuiltins} {R : FileReaders} (HAS_OPENPYXL : bool)
    (filename : string) (file_bytes : list Byte.byte) : result (list Fill) :=
  rows ← read_rows HAS_OPENPYXL filename file_bytes;
  match rows with
  | [] => Raise ValueError
  | r0 :: _ =>
      if bool_decide (REQUIRED_COLUMNS ∖ dom r0 = ∅) then
        fills ← fills_of_rows rows [];
        match fills with
        | [] => Raise ValueError
        | _ :: _ => Ok fills
        end
      else Raise ValueError
  end.

(** ** Analytics: streaks

    [_compute_streaks] of [database.py].  A row of the query of
    [get_analytics] holds the P&L and the date of a trade; the results are
    the texts ["W"], ["L"] and ["B"]. *)

Record PnlRow : Type := {
  row_pnl : num;
  row_date : string;
}.

Record Streaks : Type := {
  st_current : Z;
  st_current_type : option string;
  st_best_win : Z;
  st_worst_loss : Z;
  st_history : list string;
}.

(** ["W" if t["pnl"] > 0 else ("L" if t["pnl"] < 0 else "B")]. *)
Definition outcome_of (t : PnlRow) : string :=
  if nltb (of_int 0) (row_pnl t) then "W"
  else if nltb (row_pnl t) (of_int 0) then "L"
  else "B".

(** The loop of lines 483 to 487, which leaves at the first result that is
    not [cur_type]. *)
Fixpoint count_current (rs : list string) (cur_type : string) (cur_count : Z) : Z :=
  match rs with
  | [] => cur_count
  | r :: rs' =>
      if String.eqb r cur_type then count_current rs' cur_type (cur_count + 1)
      else cur_count
  end.

(** The four variables of the loop of lines 491 to 497. *)
Record RunState : Type := {
  best_win : Z;
  worst_loss : Z;
  run : Z;
  run_type : string;
}.

(** Lines 495 and 496, and again 498 and 499: the run that ends is counted. *)
Definition close_run (s : RunState) : RunState :=
  {| best_win := if String.eqb (run_type s) "W" then Z.max (best_win s) (run s)
                 else best_win s;
     worst_loss := if String.eqb (run_type s) "L" then Z.max (worst_loss s) (run s)
                   else worst_loss s;
     run := run s;
     run_type := run_type s |}.

Definition run_step (s : RunState) (r : string) : RunState :=
  if String.eqb r (run_type s) then
    {| best_win := best_win s; worst_loss := worst_loss s;
       run := run s + 1; run_type := run_type s |}
  else
    let s' := close_run s in
    {| best_win := best_win s'; worst_loss := worst_loss s';
       run := 1; run_type := r |}.

(** [results[-20:]]. *)
Definition last_20 {A : Type} (l : list A) : list A :=
  drop (length l - 20) l.

Definition _compute_streaks (trades : list PnlRow) : Streaks :=
  match trades with
  | [] =>
      {| st_current := 0; st_current_type := None; st_best_win := 0;
         st_worst_loss := 0; st_history := [] |}
  | t0 :: _ =>
      let results := map outcome_of trades in
      let cur_type := List.last results (outcome_of t0) in
      let cur_count := count_current (List.rev results) cur_type 0 in
      let s := close_run
                 (fold_left run_step results
                    {| best_win := 0; worst_loss := 0; run := 0;
                       run_type := outcome_of t0 |}) in
      {| st_current := if String.eqb cur_type "B" then 0 else cur_count;
         st_current_type := Some cur_type;
         st_best_win := best_win s;
         st_worst_loss := worst_loss s;
         st_history := last_20 results |}
  end.

(** ** Tag groups

    [TAG_GROUPS] and [get_tag_groups] of [app_logic.py], and the part of
    [get_tag_config] of [database.py] that follows its query. *)

Record TagGroup : Type := {
  tg_id : string;
  tg_label : string;
  tg_dot : string;
  tg_active_class : string;
  tg_tags : list string;
  tg_multi : bool;
}.

Definition TAG_GROUPS : list TagGroup :=
  [ {| tg_id := "with"; tg_label := "With"; tg_dot := "dot-with";
       tg_active_class := "active-with";
       tg_tags := ["Value"; "Market Internals"; "ADH"; "AVWAP"; "VWAP"];
       tg_multi := true |};
    {| tg_id := "against"; tg_label := "Against"; tg_dot := "dot-against";
       tg_active_class := "active-against";
       tg_tags := ["Value"; "Market Internals"; "ADH"; "AVWAP"; "VWAP"];
       tg_multi := true |};
    {| tg_id := "volume"; tg_label := "Volume"; tg_dot := "dot-vol";
       tg_active_class := "active-vol";
       tg_tags := ["Avg"; "Above Avg"; "Below Avg"];
       tg_multi := false |};
    {| tg_id := "exit"; tg_label := "Exit"; tg_dot := "dot-exit";
       tg_active_class := "active-exit";
       tg_tags := ["Planned — Monitored Continuation"; "Fear / Anxious"];
       tg_multi := false |};
    {| tg_id := "setup"; tg_label := "Setup"; tg_dot := "dot-setup";
       tg_active_class := "active-setup";
       tg_tags := ["With Value"; "Recapture of VWAP"; "Break out of Range";
                   "Initiative"; "Low Tempo fade"; "Balance Fade";
                   "Look out of balance failed"; "Gap fill failed"; "No Setup";
                   "Intuitive / Gut Feel"];
       tg_multi := false |};
    {| tg_id := "pre"; tg_label := "Pre-Trade"; tg_dot := "dot-pre";
       tg_active_class := "active-pre";
       tg_tags := ["Trade came to me"; "Intuition / Mkt Feel";
                   "Not sure about context"; "Quick Profit Attitude";
                   "Revenge Mindset"; "Boredom"; "Distracted"];
       tg_multi := true |} ].

(** [get_tag_config], from the rows of its query on: [rows] is the pairs
    [(group_id, tag)] of the enabled rows of table [tag_config], in the
    order of the query.  [None] when there is no row. *)
Definition get_tag_config (rows : list (string * string))
    : option (gmap string (list string)) :=
  match rows with
  | [] => None
  | _ :: _ =>
      Some (fold_left (fun result '(group_id, tag) =>
                         <[group_id := default [] (result !! group_id) ++ [tag]]> result)
                      rows ∅)
  end.

(** [merged = dict(g)], then [merged["tags"] = tags]. *)
Definition with_tags (g : TagGroup) (tags : list string) : TagGroup :=
  {| tg_id := tg_id g; tg_label := tg_label g; tg_dot := tg_dot g;
     tg_active_class := tg_active_class g; tg_tags := tags;
     tg_multi := tg_multi g |}.

(** [custom] is what [db.get_tag_config()] returns; [not custom] holds of
    [None] and of the empty dict. *)
Definition get_tag_groups (custom : option (gmap string (list string)))
    : list TagGroup :=
  match custom with
  | None => TAG_GROUPS
  | Some c =>
      if bool_decide (c = ∅) then TAG_GROUPS
      else
        map (fun g =>
               match c !! tg_id g with
               | Some tags => with_tags g tags
               | None => g
               end)
            TAG_GROUPS
  end.

(** ** Settings

    [set_config] of [database.py] and the two handlers of [server.py] that
    save the trade defaults and the instrument configuration.  Table
    [app_config] has its key as primary key, so [INSERT OR REPLACE] on it is
    the update of a map; [config] is the table before the call.  Every
    [set_config] commits its row: a handler that raises leaves the rows
    written before the exception.  The body of the request is a JSON
    object, a map from its keys to values; [py_str v] is [str(v)]. *)

Section Settings.
Context {V : Type} (py_str : V -> string).

Definition set_config (config : gmap string string) (key : string) (value : V)
    : gmap string string :=
  <[key := py_str value]> config.

Definition api_save_trade_defaults (body : gmap string V)
    (config : gmap string string) : gmap string string :=
  foldl (fun config '(key, _) =>
           match body !! key with
           | Some value => set_config config ("td_" +:+ key) value
           | None => config
           end)
        config DEFAULT_TRADE_DEFAULTS.
End Settings.

(** A JSON value, as [request.get_json] builds it. *)
#[warnings="-register-all"] Inductive json : Type :=
| JNull
| JBool (b : bool)
| JInt (z : Z)
| JFloat (x : num)
| JStr (s : string)
| JList (l : list json)
| JDict (d : gmap string json).

(** [p in s] for two texts: [p] is a part of [s]. *)
Fixpoint is_substring (p s : string) : bool :=
  String.prefix p s ||
  match s with
  | EmptyString => false
  | String _ s' => is_substring p s'
  end.

(** [name in v] for a text [name]: a key of a dict, an element of a list,
    a part of a text.  [None], a [bool] and a number are no containers, and
    the test raises [TypeError]. *)
Definition contains (v : json) (name : string) : result bool :=
  match v with
  | JDict d => Ok (bool_decide (is_Some (d !! name)))
  | JList l =>
      Ok (existsb (fun x => match x with JStr s => String.eqb s name | _ => false end) l)
  | JStr s => Ok (is_substring name s)
  | JNull | JBool _ | JInt _ | JFloat _ => Raise TypeError
  end.

(** [v[name]] for a text [name]: only a dict is indexed by a text. *)
Definition subscript (v : json) (name : string) : result json :=
  match v with
  | JDict d => getitem d name
  | _ => Raise TypeError
  end.

Section InstrumentSettings.
Context (py_str : json -> string).

(** A step of the handler: the table after it, and [Ok] or the exception
    that ended it. *)
Definition step : Type := gmap string string -> gmap string string * result unit.

Definition and_then (a b : step) : step := fun config =>
  match a config with
  | (config', Ok _) => b config'
  | (config', Raise e) => (config', Raise e)
  end.

(** [if name in cfg: db.set_config(key, cfg[name])]. *)
Definition save_if_present (cfg : json) (name key : string) : step := fun config =>
  match contains cfg name with
  | Ok true =>
      match subscript cfg name with
      | Ok value => (set_config py_str config key value, Ok ())
      | Raise e => (config, Raise e)
      end
  | Ok false => (config, Ok ())
  | Raise e => (config, Raise e)
  end.

(** The body of the loop, for one instrument. *)
Definition save_instrument (body : gmap string json) (inst : string) : step :=
  fun config =>
  match body !! inst with
  | Some cfg =>
      and_then (save_if_present cfg "dollars_per_point" ("inst_" +:+ inst +:+ "_dpp"))
        (and_then (save_if_present cfg "dollars_per_tick" ("inst_" +:+ inst +:+ "_dpt"))
           (save_if_present cfg "ticks_per_point" ("inst_" +:+ inst +:+ "_tpp")))
        config
  | None => (config, Ok ())
  end.

Definition api_save_instrument_config (body : gmap string json) : step :=
  foldl (fun done inst => and_then done (save_instrument body inst))
        (fun config => (config, Ok ())) ["MES"; "ES"].
End InstrumentSettings.

(** ** An instance of the builtins, for running examples

    Decimal literals (an optional sign, digits, an optional fraction, and
    the words [inf], [infinity] and [nan]), and the six formats of the
    program on dates of the years 1000 to 9999.  It stands for CPython on the
    texts of the examples below and refuses every other text, which CPython
    does not; the theorems hold for every instance. *)

Definition digit_val (c : ascii) : option Z :=
  let n := N_of_ascii c in
  if (48 <=? n)%N && (n <=? 57)%N then Some (Z.of_N n - 48) else None.

Fixpoint digits_val (l : list ascii) (acc : Z) : option Z :=
  match l with
  | [] => Some acc
  | c :: l' =>
      match digit_val c with
      | Some d => digits_val l' (10 * acc + d)
      | None => None
      end
  end.

(** [sep.join]'s inverse on one character: the pieces between separators. *)
Fixpoint split_on (sep : ascii) (l : list ascii) : list (list ascii) :=
  match l with
  | [] => [[]]
  | c :: l' =>
      match split_on sep l' with
      | piece :: pieces =>
          if Ascii.eqb c sep then [] :: piece :: pieces else (c :: piece) :: pieces
      | [] => [[c]]
      end
  end.

Definition unsigned_decimal (l : list ascii) : option Qc :=
  match split_on "."%char l with
  | [i] =>
      match i with
      | [] => None
      | _ :: _ => (fun z => Q2Qc (inject_Z z)) <$> digits_val i 0
      end
  | [i; f] =>
      match i, f with
      | [], [] => None
      | _, _ =>
          zi ← digits_val i 0;
          zf ← digits_val f 0;
          let scale := 10 ^ Z.of_nat (length f) in
          Some (Q2Qc (Qmake (zi * scale + zf) (Z.to_pos scale)))
      end
  | _ => None
  end.

Definition unsigned_float (l : list ascii) : option num :=
  let word := string_of_list_ascii (List.map lower_ascii l) in
  if String.eqb word "inf" || String.eqb word "infinity" then Some PInf
  else if String.eqb word "nan" then Some NaN
  else Fin <$> unsigned_decimal l.

Definition example_float (s : string) : option num :=
  match list_ascii_of_string (strip s) with
  | c :: l =>
      if Ascii.eqb c "-"%char then nopp <$> unsigned_float l
      else if Ascii.eqb c "+"%char then unsigned_float l
      else unsigned_float (c :: l)
  | [] => None
  end.

Definition example_int (s : string) : option Z :=
  let digits l := match l with [] => None | _ :: _ => digits_val l 0 end in
  match list_ascii_of_string (strip s) with
  | c :: l =>
      if Ascii.eqb c "-"%char then Z.opp <$> digits l
      else if Ascii.eqb c "+"%char then digits l
      else digits (c :: l)
  | [] => None
  end.

(** A field of one to [width] digits (exactly [width] when [exact]) with a
    value between [lo] and [hi]. *)
Definition field (exact : bool) (width : nat) (lo hi : Z) (l : list ascii) : option Z :=
  if (if exact then Nat.eqb (length l) width
      else Nat.leb 1 (length l) && Nat.leb (length l) width) then
    z ← digits_val l 0;
    if (lo <=? z) && (z <=? hi) then Some z else None
  else None.

Definition days_in_month (y m : Z) : Z :=
  if m =? 2 then
    if ((y mod 4 =? 0) && negb (y mod 100 =? 0)) || (y mod 400 =? 0) then 29 else 28
  else if (m =? 4) || (m =? 6) || (m =? 9) || (m =? 11) then 30
  else 31.

Definition check_date (y m d : Z) : option (Z * Z * Z) :=
  if (1000 <=? y) && (d <=? days_in_month y m) then Some (y, m, d) else None.

(** The three date formats, by their text. *)
Definition read_date (fmt : string) (l : list ascii) : option (Z * Z * Z) :=
  if String.eqb fmt "%m/%d/%Y" then
    match split_on "/"%char l with
    | [m; d; y] =>
        m ← field false 2 1 12 m; d ← field false 2 1 31 d;
        y ← field true 4 1 9999 y; check_date y m d
    | _ => None
    end
  else if String.eqb fmt "%Y-%m-%d" then
    match split_on "-"%char l with
    | [y; m; d] =>
        y ← field true 4 1 9999 y; m ← field false 2 1 12 m;
        d ← field false 2 1 31 d; check_date y m d
    | _ => None
    end
  else if String.eqb fmt "%m/%d/%y" then
    match split_on "/"%char l with
    | [m; d; y] =>
        m ← field false 2 1 12 m; d ← field false 2 1 31 d;
        y ← field true 2 0 99 y;
        check_date (if y <=? 68 then 2000 + y else 1900 + y) m d
    | _ => None
    end
  else None.

Definition read_time (l : list ascii) : option (Z * Z * Z) :=
  match split_on ":"%char l with
  | [h; m; s] =>
      h ← field false 2 0 23 h; m ← field false 2 0 59 m;
      s ← field false 2 0 59 s; Some (h, m, s)
  | _ => None
  end.

Definition digit_char (z : Z) : ascii := ascii_of_N (Z.to_N (z mod 10) + 48).

Definition pad2 (z : Z) : list ascii := [digit_char (z / 10); digit_char z].

Definition pad4 (z : Z) : list ascii :=
  [digit_char (z / 1000); digit_char (z / 100); digit_char (z / 10); digit_char z].

Definition example_strptime_strftime (raw fmt out : string) : option string :=
  if String.eqb out "%Y-%m-%d" then
    '(y, m, d) ← read_date fmt (list_ascii_of_string raw);
    Some (string_of_list_ascii (pad4 y ++ "-"%char :: pad2 m ++ "-"%char :: pad2 d))
  else if String.eqb out "%H:%M:%S" then
    match split fmt, split raw with
    | [dfmt; tfmt], [dtext; ttext] =>
        if String.eqb tfmt "%H:%M:%S" && String.eqb raw (strip raw) then
          _ ← read_date dfmt (list_ascii_of_string dtext);
          '(h, m, s) ← read_time (list_ascii_of_string ttext);
          Some (string_of_list_ascii (pad2 h ++ ":"%char :: pad2 m ++ ":"%char :: pad2 s))
        else None
    | _, _ => None
    end
  else None.

(** [str(x)] of a whole number below [10^16] and of the special values;
    the examples have no other [float] to write. *)
Definition example_repr_float (x : num) : string :=
  match x with
  | Fin q =>
      if (Qden q =? 1)%positive && (Z.abs (Qnum q) <? 10 ^ 16)
      then pretty (Qnum q) +:+ ".0" else ""
  | PInf => "inf"
  | NInf => "-inf"
  | NaN => "nan"
  end.

Definition example_builtins : PyBuiltins :=
  {| py_float := example_float;
     py_int := example_int;
     strptime_strftime := example_strptime_strftime;
     py_repr_float := example_repr_float |}.

(** [str(v)] of the JSON values that are no list and no object; the
    examples save no other value. *)
Definition example_str (v : json) : string :=
  match v with
  | JNull => "None"
  | JBool b => if b then "True" else "False"
  | JInt z => pretty z
  | JFloat x => example_repr_float x
  | JStr s => s
  | JList _ | JDict _ => ""
  end.

(** A reader for a CSV file whose rows are [rows]; it knows no Excel
    file. *)
Definition csv_file (rows : list (gmap string (option string))) : FileReaders :=
  {| csv_rows := fun _ => Ok rows;
     xlsx_sheet := fun _ => Raise (OtherError "InvalidFileException") |}.

(** A reader that finds a field of the CSV file longer than [csv] allows
    (131072 characters). *)
Definition csv_field_too_long : FileReaders :=
  {| csv_rows := fun _ => Raise (OtherError "csv.Error");
     xlsx_sheet := fun _ => Raise (OtherError "InvalidFileException") |}.

(** ** Definitions that follow the words of the specification

    They are compared below with what the code computes. *)

(** *** Round trips *)

(** The fills of a group on the buy side, and the others: the loop of
    [_compute_stats] counts every fill that is not a ["Buy"] as a sell. *)
Definition buys (l : list Fill) : list Fill :=
  filter (fun f => side f = "Buy") l.

Definition sells (l : list Fill) : list Fill :=
  filter (fun f => side f <> "Buy") l.

(** Quantity times price of a fill. *)
Definition notional (f : Fill) : num := nmul (of_int (qty f)) (price f).

(** Volume-weighted average price of a set of fills, [0] when the set has no
    quantity. *)
Definition vwap (l : list Fill) : num :=
  let q := sum_Z (map qty l) in
  if q =? 0 then of_int 0
  else ndiv_int (sum_num (map notional l)) q.

(** "(exit - entry) x qty x point-value for Long, (entry - exit) x qty x
    point-value for Short". *)
Definition documented_pnl (short : bool) (entry exit : num) (q : Z) (point_value : Z) : num :=
  nmul (nmul (if short then nsub entry exit else nsub exit entry) (of_int q))
       (of_int point_value).

(** Order of two elements by their keys. *)
Definition key_le {A : Type} (key : A -> string) (x y : A) : Prop :=
  String.leb (key x) (key y) = true.

(** The fills of each trade of each day of a reconstruction. *)
Definition trade_groups (r : result (list Day)) : result (list (list (list Fill))) :=
  days ← r; Ok (map (fun d => map fills (trades d)) days).

(** *** Live trades *)

(** Total quantity of the executions of a live trade. *)
Definition exited_total (live_trade : LiveTrade) : Z :=
  sum_Z (map ex_qty (executions live_trade)).

(** P&L already realized by the executions of a live trade. *)
Definition realized_total (live_trade : LiveTrade) : num :=
  sum_num (map ex_pnl (executions live_trade)).

Definition is_long_trade (live_trade : LiveTrade) : bool :=
  String.eqb (lt_direction live_trade) "Long".

(** The level of a given type and portion: the last one listed. *)
Definition level_of (ty : string) (lvs : list Level) (p : Z) : option Level :=
  last (filter (fun lv => level_type lv = ty /\ portion lv = p) lvs).

(** Quantity already exited from a portion. *)
Definition exited_in (exs : list Execution) (p : Z) : Z :=
  sum_Z (map ex_qty (filter (fun e => ex_portion e = p) exs)).

(** A remaining portion: it has a stop level, and quantity left. *)
Definition remaining_in (lvs : list Level) (exs : list Execution) (p : Z)
    : option (Level * Z) :=
  match level_of "stop" lvs p with
  | Some lv =>
      let rem := lv_qty lv - exited_in exs p in
      if 0 <? rem then Some (lv, rem) else None
  | None => None
  end.

(** The signed stop P&L of the remaining quantity of every remaining
    portion. *)
Definition remaining_stop_pnls (is_long : bool) (entry dpp : num)
    (lvs : list Level) (exs : list Execution) : list num :=
  omap (fun p =>
          match remaining_in lvs exs p with
          | Some (lv, rem) => Some (exit_pnl is_long entry (lv_price lv) rem dpp)
          | None => None
          end)
       [1; 2; 3].

(** Partials mode: "total_stop_risk + realized_pnl", the first being the sum
    over the remaining portions of the signed stop P&L of their remaining
    quantity. *)
Definition worst_case_partials (dpp : num) (live_trade : LiveTrade) : num :=
  nadd (sum_num (remaining_stop_pnls (is_long_trade live_trade)
                   (entry_price live_trade) dpp
                   (levels live_trade) (executions live_trade)))
       (realized_total live_trade).

(** Full mode: the stop level scaled by the full remaining quantity. *)
Definition worst_case_full (dpp : num) (live_trade : LiveTrade) (stop_lv : Level) : num :=
  nadd (exit_pnl (is_long_trade live_trade) (entry_price live_trade)
          (lv_price stop_lv)
          (total_qty live_trade - exited_total live_trade) dpp)
       (realized_total live_trade).

(** "Sum over all stop levels of |entry - stop price| x level qty x
    point-value". *)
Definition stop_risks (entry dpp : num) (lvs : list Level) : list num :=
  map (fun lv => nmul (nmul (nabs (nsub entry (lv_price lv))) (of_int (lv_qty lv))) dpp)
      (filter (fun lv => level_type lv = "stop") lvs).

(** The six rows of [app_config] that [get_instrument_config] reads. *)
Definition instrument_keys : list string :=
  [ "inst_MES_dpp"; "inst_MES_dpt"; "inst_MES_tpp";
    "inst_ES_dpp"; "inst_ES_dpt"; "inst_ES_tpp" ].

(** A trade default: the row [td_<key>] of [app_config] when there is one. *)
Definition trade_default (config : gmap string string) (key dflt : string) : string :=
  default dflt (config !! ("td_" +:+ key)).

(** Type, portion and quantity of a level. *)
Definition level_shape (lv : Level) : string * Z * Z :=
  (level_type lv, portion lv, lv_qty lv).

(** *** Upload parser *)

(** The file can be read: a CSV file, or an Excel file when openpyxl is
    installed. *)
Definition file_readable (HAS_OPENPYXL : bool) (filename : string) : bool :=
  let ext := lower (after_last_dot filename) in
  String.eqb ext "csv" ||
  ((String.eqb ext "xlsx" || String.eqb ext "xls") && HAS_OPENPYXL).

(** There is a first row, and it has every required column. *)
Definition columns_present (table : list (gmap string cell)) : bool :=
  match table with
  | [] => false
  | r0 :: _ => bool_decide (REQUIRED_COLUMNS ⊆ dom r0)
  end.

(** [int(x)] where it is defined without an exception. *)
Definition finite_int (x : num) : option Z :=
  match x with
  | Fin q => Some (Z.quot (Qnum q) (Zpos (Qden q)))
  | _ => None
  end.

(** The UTF-8 bytes of a character, and of a text given by its
    characters. *)
Definition utf8_char (n : N) : list ascii :=
  if (n <? 0x80)%N then [ascii_of_N n]
  else if (n <? 0x800)%N then
    [ascii_of_N (0xC0 + n / 64); ascii_of_N (0x80 + n mod 64)]
  else if (n <? 0x10000)%N then
    [ascii_of_N (0xE0 + n / 4096); ascii_of_N (0x80 + (n / 64) mod 64);
     ascii_of_N (0x80 + n mod 64)]
  else
    [ascii_of_N (0xF0 + n / 262144); ascii_of_N (0x80 + (n / 4096) mod 64);
     ascii_of_N (0x80 + (n / 64) mod 64); ascii_of_N (0x80 + n mod 64)].

Definition utf8 (cs : list N) : string :=
  string_of_list_ascii (flat_map utf8_char cs).

(** The characters [c] with [c.isspace()]. *)
Definition WHITE_SPACE : list N :=
  [ 0x09; 0x0A; 0x0B; 0x0C; 0x0D; 0x1C; 0x1D; 0x1E; 0x1F; 0x20; 0x85; 0xA0;
    0x1680; 0x2000; 0x2001; 0x2002; 0x2003; 0x2004; 0x2005; 0x2006; 0x2007;
    0x2008; 0x2009; 0x200A; 0x2028; 0x2029; 0x202F; 0x205F; 0x3000 ]%N.

(** A text that is empty or made of white space only. *)
Definition blank (s : string) : Prop :=
  exists cs, Forall (fun c => c ∈ WHITE_SPACE) cs /\ s = utf8 cs.

(** The number that the price of a row is, if it is one: a text that
    converts, or a number of the sheet. *)
Definition price_of {B : PyBuiltins} (v : cell) : option num :=
  match v with
  | CStr s => py_float s
  | CInt z => Some (of_int z)
  | CFloat x => Some x
  | CBool b => Some (of_int (if b then 1 else 0))
  | CNone | CDate _ _ => None
  end.

(** The fill that a row contributes, if any: the row has a fill time and a
    side, its quantity and its price convert to numbers, and it has a date
    column.  The time and the date are reformatted when they parse, and are
    kept as the text of the row when they do not. *)
Definition row_fill {B : PyBuiltins} (r : gmap string cell) : option Fill :=
  if cell_truthy (r !! "Fill Time") && cell_truthy (r !! "B/S") then
    s ← r !! "B/S";
    vq ← r !! "filledQty";
    x ← py_float (str vq);
    q ← finite_int x;
    vp ← r !! "avgPrice";
    p ← price_of vp;
    t ← r !! "Fill Time";
    vd ← r !! "Date";
    tok ← head (split (strip (str vd)));
    Some {| side := strip (str s); qty := q; price := p;
            time := _parse_fill_time (str t);
            date := default tok (first_format tok ["%m/%d/%Y"; "%Y-%m-%d"; "%m/%d/%y"]
                                   "%Y-%m-%d") |}
  else None.

(** A row whose quantity is not an infinity, whose price is not an [int]
    beyond the range of [float], and whose date is not blank. *)
Definition row_regular {B : PyBuiltins} (r : gmap string cell) : Prop :=
  (forall v, r !! "filledQty" = Some v ->
             py_float (str v) <> Some PInf /\ py_float (str v) <> Some NInf) /\
  (forall z, r !! "avgPrice" = Some (CInt z) -> Z.abs z < FLOAT_INT_BOUND) /\
  (forall v, r !! "Date" = Some v -> ~ blank (str v)).

(** ** Data of the examples *)

Definition fill_at (s : string) (q p : Z) (t : string) : Fill :=
  {| side := s; qty := q; price := of_int p; time := t; date := "2024-01-01" |}.

(** Four fills of the same second, and the same fills in another order. *)
Definition tied_fills : list Fill :=
  [ fill_at "Buy" 1 100 "09:30:00"; fill_at "Sell" 1 101 "09:30:00";
    fill_at "Sell" 1 102 "09:30:00"; fill_at "Buy" 1 103 "09:30:00" ].

Definition tied_fills_reordered : list Fill :=
  [ fill_at "Buy" 1 100 "09:30:00"; fill_at "Buy" 1 103 "09:30:00";
    fill_at "Sell" 1 101 "09:30:00"; fill_at "Sell" 1 102 "09:30:00" ].

(** The scenario of spec section 8, and a day that ends one unit long. *)
Definition scenario_fills : list Fill :=
  [ fill_at "Buy" 1 100 "09:30:00"; fill_at "Sell" 1 105 "09:35:00" ].

Definition partly_offset_fills : list Fill :=
  [ fill_at "Buy" 2 100 "09:30:00"; fill_at "Sell" 1 105 "09:35:00" ].

(** Rows of a CSV upload. *)
Definition row_of (s q p t d : string) : gmap string (option string) :=
  list_to_map [ ("B/S", Some s); ("filledQty", Some q); ("avgPrice", Some p);
                ("Fill Time", Some t); ("Date", Some d) ].

Definition good_row : gmap string (option string) :=
  row_of "Buy" "1" "100" "01/02/2024 09:30:00" "01/02/2024".

Definition blank_date_row : gmap string (option string) :=
  row_of "Sell" "1" "105" "01/02/2024 09:35:00" "".

(** A row whose date is a no-break space, U+00A0. *)
Definition no_break_space : string := utf8 [0xA0%N].

Definition no_break_date_row : gmap string (option string) :=
  row_of "Sell" "1" "105" "01/02/2024 09:35:00" no_break_space.

Definition odd_text_row : gmap string (option string) :=
  row_of "Sell" "1" "105" "soon" "n/a".

Definition no_side_row : gmap string (option string) :=
  row_of "" "1" "105" "01/02/2024 09:35:00" "01/02/2024".

Definition two_row_upload : list (gmap string (option string)) :=
  [good_row; no_side_row].

(** The bytes of an upload; the readers of the examples do not look at
    them. *)
Definition some_bytes : list Byte.byte := [].

(** A long MES trade of one unit entered at 100 with its stop at 80. *)
Definition open_trade : LiveTrade :=
  {| lt_direction := "Long"; instrument := "MES"; entry_price := of_int 100;
     total_qty := 1; mode := "full";
     levels := [ {| level_type := "stop"; portion := 1; lv_qty := 1;
                    lv_price := of_int 80; risk_dollars := of_int 100;
                    reward_dollars := of_int 0 |} ];
     executions := [] |}.

(** The same trade after its unit was sold at 110. *)
Definition exited_trade : LiveTrade :=
  {| lt_direction := "Long"; instrument := "MES"; entry_price := of_int 100;
     total_qty := 1; mode := "full";
     levels := levels open_trade;
     executions := [ {| exec_type := "manual_exit"; ex_portion := 1; ex_qty := 1;
                        ex_price := of_int 110; exec_time := "10:00";
                        ex_pnl := of_int 50 |} ] |}.

(** A long MES trade of three units in partials mode, entered at 100 with
    the plan of the defaults; the first portion left at its target, 105. *)
Definition partials_trade : LiveTrade :=
  {| lt_direction := "Long"; instrument := "MES"; entry_price := of_int 100;
     total_qty := 3; mode := "partials";
     levels :=
       [ {| level_type := "stop"; portion := 1; lv_qty := 1; lv_price := of_int 80;
            risk_dollars := of_int 100; reward_dollars := of_int 0 |};
         {| level_type := "stop"; portion := 2; lv_qty := 1; lv_price := of_int 80;
            risk_dollars := of_int 100; reward_dollars := of_int 0 |};
         {| level_type := "stop"; portion := 3; lv_qty := 1; lv_price := of_int 80;
            risk_dollars := of_int 100; reward_dollars := of_int 0 |};
         {| level_type := "tp"; portion := 1; lv_qty := 1; lv_price := of_int 105;
            risk_dollars := of_int 0; reward_dollars := of_int 25 |};
         {| level_type := "tp"; portion := 2; lv_qty := 1; lv_price := of_int 110;
            risk_dollars := of_int 0; reward_dollars := of_int 50 |};
         {| level_type := "tp"; portion := 3; lv_qty := 1; lv_price := of_int 120;
            risk_dollars := of_int 0; reward_dollars := of_int 100 |} ];
     executions := [ {| exec_type := "tp_hit"; ex_portion := 1; ex_qty := 1;
                        ex_price := of_int 105; exec_time := "10:00";
                        ex_pnl := of_int 25 |} ] |}.

(** ** Tactics *)

(** Two numbers given by fractions of the same value are equal; after
    evaluation the canonicity proofs differ, and are put in one form. *)
Ltac canon_refl :=
  vm_compute;
  repeat match goal with
    | |- context [Qcmake ?v (Qred_involutive ?q)] =>
        tryif constr_eq v q then fail
        else replace (Qcmake v (Qred_involutive q)) with (Q2Qc v)
            by (apply Qc_is_canon; reflexivity)
    end;
  reflexivity.

(** [case_bind] splits on the computation that a chain of binds runs
    first. *)

Ltac bind_head r :=
  lazymatch r with
  | mbind _ ?r' => bind_head r'
  | _ => constr:(r)
  end.

Ltac case_bind :=
  match goal with
  | |- context [mbind _ ?r] =>
      let h := bind_head r in
      let E := fresh "E" in destruct h eqn:E; simpl
  end.

(** ** Further definitions for the properties *)

(** *** Streaks *)

(** The results, in the order of the trades. *)
Definition results_of (trades : list PnlRow) : list string := map outcome_of trades.

(** The list has [n] results [c] in a row. *)
Definition has_run (c : string) (n : nat) (rs : list string) : Prop :=
  exists pre post, rs = pre ++ repeat c n ++ post.

(** The list ends with exactly [n] results [c]: the result before them, if
    any, is another one. *)
Definition ends_with_run (c : string) (n : nat) (rs : list string) : Prop :=
  exists pre, rs = pre ++ repeat c n /\ last pre <> Some c.

(** Number of results [c] that the list starts with. *)
Fixpoint leading_run (c : string) (rs : list string) : nat :=
  match rs with
  | r :: rs' => if String.eqb r c then S (leading_run c rs') else 0%nat
  | [] => 0%nat
  end.

(** Length of the longest run of [c] in the list. *)
Fixpoint longest_run (c : string) (rs : list string) : nat :=
  match rs with
  | [] => 0%nat
  | _ :: rs' => Nat.max (leading_run c rs) (longest_run c rs')
  end.

(** *** Tag groups *)

(** The tags that the rows of [tag_config] give to a group, in the order of
    the rows. *)
Definition custom_tags (rows : list (string * string)) (group_id : string) : list string :=
  map snd (filter (fun r => fst r = group_id) rows).

(** Two round trips of one day, the second given first. *)
Definition two_round_trips : list Fill :=
  [ fill_at "Buy" 1 102 "09:35:00"; fill_at "Buy" 1 100 "09:30:00";
    fill_at "Sell" 1 103 "09:36:00"; fill_at "Sell" 1 101 "09:31:00" ].

(** A number that is neither an infinity nor NaN. *)
Definition finite (x : num) : Prop :=
  match x with
  | Fin _ => True
  | _ => False
  end.

(** Money paid or received for a set of fills: the sum of quantity times
    price. *)
Definition cash_value (l : list Fill) : num := sum_num (map notional l).

(** A short position of two units that nothing has bought back. *)
Definition open_short_fills : list Fill :=
  [ fill_at "Sell" 1 100 "09:30:00"; fill_at "Sell" 1 102 "09:31:00" ].

(** A short round trip: two units sold at 102, bought back at 100 and 101. *)
Definition short_round_trip : list Fill :=
  [ fill_at "Sell" 2 102 "09:30:00"; fill_at "Buy" 1 100 "09:31:00";
    fill_at "Buy" 1 101 "09:32:00" ].

(** *** Numbers *)

(** The integer that [round_half_even] takes as the number of units of the
    last digit kept. *)
Definition rounded_units (n d : Z) : Z :=
  if 2 * (n mod d) <? d then n / d
  else if d <? 2 * (n mod d) then n / d + 1
  else if Z.even (n / d) then n / d else n / d + 1.


(** *** Instrument rows *)

(** A row of [app_config] that [float] can read, or that is absent. *)
Definition float_row_readable {B : PyBuiltins} (config : gmap string string)
    (key : string) : Prop :=
  forall s, config !! key = Some s -> py_float s <> None.

(** A row of [app_config] that [int] can read, or that is absent. *)
Definition int_row_readable {B : PyBuiltins} (config : gmap string string)
    (key : string) : Prop :=
  forall s, config !! key = Some s -> py_int s <> None.

Definition instrument_rows_readable {B : PyBuiltins} (config : gmap string string) : Prop :=
  float_row_readable config "inst_MES_dpp" /\
  float_row_readable config "inst_MES_dpt" /\
  int_row_readable config "inst_MES_tpp" /\
  float_row_readable config "inst_ES_dpp" /\
  float_row_readable config "inst_ES_dpt" /\
  int_row_readable config "inst_ES_tpp".

(** *** The body of a settings request *)

(** The fields given for an instrument, when what the body has for it is
    an object; no entry for the instrument gives no field. *)
Definition fields_of (body : gmap string json) (inst : string)
    : option (gmap string json) :=
  match body !! inst with
  | None => Some ∅
  | Some (JDict d) => Some d
  | Some _ => None
  end.

(** [None], a [bool] or a number. *)
Definition no_container (v : json) : Prop :=
  match v with
  | JNull | JBool _ | JInt _ | JFloat _ => True
  | _ => False
  end.

(** The table after the row [key] was written from the field [name], when
    the fields have it. *)
Definition write_field (py_str : json -> string) (fields : gmap string json)
    (name key : string) (config : gmap string string) : gmap string string :=
  match fields !! name with
  | Some v => <[key := py_str v]> config
  | None => config
  end.

(** The table after the three rows of an instrument were written. *)
Definition write_instrument (py_str : json -> string) (fields : gmap string json)
    (inst : string) (config : gmap string string) : gmap string string :=
  write_field py_str fields "ticks_per_point" ("inst_" +:+ inst +:+ "_tpp")
    (write_field py_str fields "dollars_per_tick" ("inst_" +:+ inst +:+ "_dpt")
       (write_field py_str fields "dollars_per_point" ("inst_" +:+ inst +:+ "_dpp")
          config)).

(** A number that is not negative: zero, positive, or NaN, which compares
    false with everything. *)
Definition not_negative (x : num) : Prop := nltb x (of_int 0) = false.

(** *** Portions of a live trade *)

(** The entry of [portion_details] for a portion that remains. *)
Definition remaining_detail (is_long : bool) (entry dpp : num)
    (lvs : list Level) (exs : list Execution) (p : Z) : option PortionDetail :=
  match remaining_in lvs exs p with
  | Some (stop_lv, rem) =>
      Some {| pd_portion := p; pd_qty := rem;
              stop_price := lv_price stop_lv;
              tp_price := lv_price <$> level_of "tp" lvs p;
              stop_pnl := round (exit_pnl is_long entry (lv_price stop_lv) rem dpp) 2;
              tp_pnl := round (match level_of "tp" lvs p with
                               | Some tp_lv => exit_pnl is_long entry (lv_price tp_lv) rem dpp
                               | None => of_int 0
                               end) 2 |}
  | None => None
  end.

(** The same trade in another mode. *)
Definition with_mode (live_trade : LiveTrade) (md : string) : LiveTrade :=
  {| lt_direction := lt_direction live_trade; instrument := instrument live_trade;
     entry_price := entry_price live_trade; total_qty := total_qty live_trade;
     mode := md; levels := levels live_trade; executions := executions live_trade |}.

(** A trade as it is when it has just been created: no execution yet. *)
Definition fresh_trade (direction inst : string) (entry : num) (total : Z)
    (md : string) (lvs : list Level) : LiveTrade :=
  {| lt_direction := direction; instrument := inst; entry_price := entry;
     total_qty := total; mode := md; levels := lvs; executions := [] |}.

(** *** Position of a group *)

(** The position is not flat inside the group: the signed quantities of
    no proper part of the group, taken from its start, sum to zero. *)
Definition flat_only_at_end (g : list Fill) : Prop :=
  forall p, p `prefix_of` g -> p <> [] -> p <> g -> signed_sum p <> 0.

(** The position is flat nowhere in the group, its end included. *)
Definition never_flat (g : list Fill) : Prop :=
  forall p, p `prefix_of` g -> p <> [] -> signed_sum p <> 0.

(** Two fills whose side is written in capitals. *)
Definition capital_side_fills : list Fill :=
  [ fill_at "BUY" 1 100 "09:30:00"; fill_at "SELL" 1 105 "09:35:00" ].

(** A fill of another day. *)
Definition fill_on (d s : string) (q p : Z) (t : string) : Fill :=
  {| side := s; qty := q; price := of_int p; time := t; date := d |}.

(** Two days of one round trip each, and the same fills with the days
    interleaved. *)
Definition two_days : list Fill :=
  [ fill_on "2024-01-02" "Buy" 1 100 "09:30:00";
    fill_on "2024-01-02" "Sell" 1 101 "09:31:00";
    fill_on "2024-01-03" "Sell" 1 103 "09:30:00";
    fill_on "2024-01-03" "Buy" 1 102 "09:31:00" ].

Definition two_days_interleaved : list Fill :=
  [ fill_on "2024-01-03" "Buy" 1 102 "09:31:00";
    fill_on "2024-01-02" "Sell" 1 101 "09:31:00";
    fill_on "2024-01-03" "Sell" 1 103 "09:30:00";
    fill_on "2024-01-02" "Buy" 1 100 "09:30:00" ].

(** The reward of a portion that remains and has a take-profit level: the
    P&L of its remaining quantity at that level, when it is a gain. *)
Definition remaining_reward (is_long : bool) (entry dpp : num)
    (lvs : list Level) (exs : list Execution) (p : Z) : option num :=
  match remaining_in lvs exs p, level_of "tp" lvs p with
  | Some (_, rem), Some tp_lv =>
      Some (nmax (exit_pnl is_long entry (lv_price tp_lv) rem dpp) (of_int 0))
  | _, _ => None
  end.

(** The statistics of a group that starts with [first], as
    [_compute_stats] returns them when no conversion overflows. *)
Definition stats_of (l : list Fill) (first : Fill) (n : Z) : Trade :=
  let t := totals l in
  let is_short := String.eqb (side first) "Sell" in
  let q := Z.max (buy_qty t) (sell_qty t) in
  let entry :=
    if is_short && truthy (sell_qty t) then ndiv_int (sell_val t) (sell_qty t)
    else if truthy (buy_qty t) then ndiv_int (buy_val t) (buy_qty t)
    else of_int 0 in
  let exit :=
    if is_short && truthy (buy_qty t) then ndiv_int (buy_val t) (buy_qty t)
    else if truthy (sell_qty t) then ndiv_int (sell_val t) (sell_qty t)
    else of_int 0 in
  let unclosed :=
    (is_short && (buy_qty t =? 0)) || (negb is_short && (sell_qty t =? 0)) in
  let p :=
    if unclosed then of_int 0
    else nmul (nmul (if is_short then nsub entry exit else nsub exit entry)
                    (of_int q))
              (of_int 5) in
  {| trade_num := n;
     direction := if is_short then "Short" else "Long";
     trade_qty := q;
     avg_entry := round entry 4;
     avg_exit := round exit 4;
     pnl := round p 2;
     entry_time := time first;
     exit_time := time (List.last l first);
     fills := l;
     open := unclosed |}.

(** The quantities of a list of fills, added up without their signs. *)
Definition abs_qty (l : list Fill) : Z := sum_Z (map (fun f => Z.abs (qty f)) l).

(** Fills whose quantities add up to an [int] that Python converts to a
    [float], whatever their signs. *)
Definition in_float_range (l : list Fill) : Prop := abs_qty l < FLOAT_INT_BOUND.

(** ** Tactics for decisions *)

(** Decides the conjunctions of two equations between closed terms that a
    filter leaves in the goal. *)
Ltac decide_pairs :=
  repeat match goal with
    | |- context [decide (?a = ?b /\ ?c = ?d)] =>
        first
          [ rewrite (decide_True (P := a = b /\ c = d)) by (split; reflexivity)
          | rewrite (decide_False (P := a = b /\ c = d))
              by (let H1 := fresh in let H2 := fresh in
                  intros [H1 H2]; first [discriminate H1 | discriminate H2]) ]
    end.

(** *** Levels of a plan *)

(** The stop level of a portion: [dist] points against the direction of
    the trade, with the loss of [q] units over that distance. *)
Definition planned_stop (is_long : bool) (entry dist : Qc) (dpp : num) (p q : Z) : Level :=
  {| level_type := "stop"; portion := p; lv_qty := q;
     lv_price := round (Fin (if is_long then entry - dist else entry + dist)%Qc) 2;
     risk_dollars := round (nmul (nmul (nabs (Fin dist)) (of_int q)) dpp) 2;
     reward_dollars := of_int 0 |}.

(** The take-profit level of a portion: [dist] points in the direction of
    the trade, with the gain of [q] units over that distance. *)
Definition planned_tp (is_long : bool) (entry dist : Qc) (dpp : num) (p q : Z) : Level :=
  {| level_type := "tp"; portion := p; lv_qty := q;
     lv_price := round (Fin (if is_long then entry + dist else entry - dist)%Qc) 2;
     risk_dollars := of_int 0;
     reward_dollars := round (nmul (nmul (nabs (Fin dist)) (of_int q)) dpp) 2 |}.

(** Evaluates the comparisons of closed texts. *)
Ltac eval_eqb :=
  repeat match goal with
    | |- context [String.eqb ?a ?b] =>
        let r := eval vm_compute in (String.eqb a b) in
        change (String.eqb a b) with r
    end.

(** * Properties *)

(** ** Sorting *)

Lemma string_leb_trans s1 s2 s3 :
  String.leb s1 s2 = true -> String.leb s2 s3 = true -> String.leb s1 s3 = true.
Proof.
  unfold String.leb. revert s2 s3.
  induction s1 as [|c1 s1 IH]; intros [|c2 s2] [|c3 s3]; simpl;
    try reflexivity; try discriminate.
  unfold Ascii.compare.
  destruct (N.compare_spec (N_of_ascii c1) (N_of_ascii c2)) as [E12 | L12 | G12];
    destruct (N.compare_spec (N_of_ascii c2) (N_of_ascii c3)) as [E23 | L23 | G23];
    destruct (N.compare_spec (N_of_ascii c1) (N_of_ascii c3)) as [E13 | L13 | G13];
    try reflexivity; try discriminate; try lia.
  apply IH.
Qed.

Lemma string_leb_refl s : String.leb s s = true.
Proof. destruct (String.leb_total s s); assumption. Qed.

Section Sorting.
Context {A : Type} (key : A -> string).

Lemma insert_by_Permutation x l : insert_by key x l ≡ₚ x :: l.
Proof.
  induction l as [|y l IH]; simpl; [reflexivity|].
  destruct (String.leb (key x) (key y)); [reflexivity|].
  rewrite IH. apply perm_swap.
Qed.

Lemma sorted_Permutation l : sorted key l ≡ₚ l.
Proof.
  induction l as [|x l IH]; simpl; [reflexivity|].
  rewrite insert_by_Permutation, IH. reflexivity.
Qed.

Lemma insert_by_StronglySorted x l :
  StronglySorted (key_le key) l -> StronglySorted (key_le key) (insert_by key x l).
Proof.
  induction 1 as [|y l Hl IH Hy]; simpl.
  - repeat constructor.
  - destruct (String.leb (key x) (key y)) eqn:Hxy.
    + constructor; [constructor; assumption|].
      constructor; [exact Hxy|].
      eapply Forall_impl; [exact Hy|].
      intros z Hyz. exact (string_leb_trans _ _ _ Hxy Hyz).
    + constructor; [exact IH|].
      rewrite insert_by_Permutation. constructor; [|exact Hy].
      destruct (String.leb_total (key x) (key y)) as [H | H]; [congruence | exact H].
Qed.

Lemma sorted_StronglySorted l : StronglySorted (key_le key) (sorted key l).
Proof.
  induction l as [|x l IH]; simpl; [constructor|].
  apply insert_by_StronglySorted, IH.
Qed.

(** Insertion keeps the elements of each key in their order: the new
    element goes before the first element whose key is not smaller, so it
    goes before every element of its own key. *)
Lemma insert_by_filter x l k :
  filter (fun y => key y = k) (insert_by key x l) =
  filter (fun y => key y = k) (x :: l).
Proof.
  induction l as [|y l IH]; simpl; [reflexivity|].
  destruct (String.leb (key x) (key y)) eqn:Hxy; [reflexivity|].
  rewrite filter_cons, IH, !filter_cons.
  destruct (decide (key y = k)) as [Hy | Hy]; [|reflexivity].
  destruct (decide (key x = k)) as [Hx | Hx]; [|reflexivity].
  rewrite Hx, Hy, string_leb_refl in Hxy. discriminate Hxy.
Qed.

(** The sort is stable. *)
Lemma sorted_filter l k :
  filter (fun y => key y = k) (sorted key l) = filter (fun y => key y = k) l.
Proof.
  induction l as [|x l IH]; simpl; [reflexivity|].
  rewrite insert_by_filter, !filter_cons, IH. reflexivity.
Qed.

(** Two sorted lists that have the same elements of each key, in the same
    order, are equal. *)
Lemma sorted_unique_by_filters l1 :
  StronglySorted (key_le key) l1 ->
  forall l2,
    StronglySorted (key_le key) l2 ->
    (forall k, filter (fun y => key y = k) l1 = filter (fun y => key y = k) l2) ->
    l1 = l2.
Proof.
  induction 1 as [|x l1 Hl1 IH Hx]; intros l2 Hl2 Hf.
  - destruct l2 as [|y l2]; [reflexivity|].
    specialize (Hf (key y)). rewrite filter_cons, decide_True in Hf by reflexivity.
    discriminate Hf.
  - destruct Hl2 as [|y l2 Hl2 Hy].
    { specialize (Hf (key x)). rewrite filter_cons, decide_True in Hf by reflexivity.
      discriminate Hf. }
    assert (Hxin : x ∈ y :: l2).
    { assert (Hin : x ∈ filter (fun z => key z = key x) (y :: l2)).
      { rewrite <- Hf, filter_cons, decide_True by reflexivity. left. }
      apply list_elem_of_filter in Hin. apply Hin. }
    assert (Hyin : y ∈ x :: l1).
    { assert (Hin : y ∈ filter (fun z => key z = key y) (x :: l1)).
      { rewrite Hf, filter_cons, decide_True by reflexivity. left. }
      apply list_elem_of_filter in Hin. apply Hin. }
    assert (Hk : key x = key y).
    { apply elem_of_cons in Hxin as [-> | Hxin]; [reflexivity|].
      apply elem_of_cons in Hyin as [-> | Hyin]; [reflexivity|].
      rewrite Forall_forall in Hx, Hy.
      apply String.leb_antisym; [apply (Hx y Hyin) | apply (Hy x Hxin)]. }
    assert (Hxy : x = y).
    { specialize (Hf (key x)).
      rewrite !filter_cons, decide_True in Hf by reflexivity.
      rewrite decide_True in Hf by (symmetry; exact Hk).
      congruence. }
    subst y. f_equal. apply IH; [exact Hl2|].
    intros k. specialize (Hf k). rewrite !filter_cons in Hf.
    destruct (decide (key x = k)); congruence.
Qed.

(** A stable sort depends on its input only through the elements of each
    key, taken in their order. *)
Lemma sorted_stable_eq l l' :
  (forall k, filter (fun y => key y = k) l' = filter (fun y => key y = k) l) ->
  sorted key l' = sorted key l.
Proof.
  intros Hf. apply sorted_unique_by_filters.
  - apply sorted_StronglySorted.
  - apply sorted_StronglySorted.
  - intros k. rewrite !sorted_filter. apply Hf.
Qed.

(** With pairwise different keys, every reordering keeps the elements of
    each key in their order: there is at most one of each. *)
Lemma NoDup_key_filters l l' :
  NoDup (map key l) -> l ≡ₚ l' ->
  forall k, filter (fun y => key y = k) l' = filter (fun y => key y = k) l.
Proof.
  intros Hnd Hp k.
  assert (Hone : forall m : list A, NoDup (map key m) ->
            forall a b rest, filter (fun y => key y = k) m = a :: b :: rest -> False).
  { intros m Hm a b rest Hab.
    assert (Hsub : NoDup (map key (filter (fun y => key y = k) m))).
    { apply (sublist_NoDup _ (map key m)); [exact Hm|].
      apply (fmap_sublist key), sublist_filter. }
    rewrite Hab in Hsub. simpl in Hsub.
    assert (Ha : a ∈ filter (fun y => key y = k) m) by (rewrite Hab; left).
    assert (Hb : b ∈ filter (fun y => key y = k) m) by (rewrite Hab; right; left).
    apply list_elem_of_filter in Ha as [Ha _]. apply list_elem_of_filter in Hb as [Hb _].
    apply NoDup_cons in Hsub as [Hnotin _]. apply Hnotin.
    rewrite Ha, <- Hb. left. }
  assert (Hnd' : NoDup (map key l')) by (rewrite <- Hp; exact Hnd).
  assert (Hpf : filter (fun y => key y = k) l' ≡ₚ filter (fun y => key y = k) l)
    by (rewrite Hp; reflexivity).
  destruct (filter (fun y => key y = k) l') as [|a [|b rest]] eqn:E';
    destruct (filter (fun y => key y = k) l) as [|c [|e rest']] eqn:E.
  - reflexivity.
  - apply Permutation_nil in Hpf. discriminate Hpf.
  - exfalso. exact (Hone l Hnd _ _ _ E).
  - symmetry in Hpf. apply Permutation_nil in Hpf. discriminate Hpf.
  - apply Permutation_singleton_l in Hpf. congruence.
  - exfalso. exact (Hone l Hnd _ _ _ E).
  - exfalso. exact (Hone l' Hnd' _ _ _ E').
  - exfalso. exact (Hone l' Hnd' _ _ _ E').
  - exfalso. exact (Hone l' Hnd' _ _ _ E').
Qed.

(** A stable sort of a list with pairwise different keys does not depend
    on the order of its input. *)
Lemma sorted_Permutation_eq l l' :
  NoDup (map key l) -> l ≡ₚ l' -> sorted key l' = sorted key l.
Proof.
  intros Hnd Hp. apply sorted_stable_eq, NoDup_key_filters; assumption.
Qed.
End Sorting.

(** ** Reconstruction of round trips *)

Lemma sum_Z_from l a : fold_left Z.add l a = a + sum_Z l.
Proof.
  unfold sum_Z. revert a. induction l as [|x l IH]; intros a; cbn [fold_left]; [lia|].
  rewrite (IH (a + x)), (IH (0 + x)). lia.
Qed.

Lemma sum_Z_cons x l : sum_Z (x :: l) = x + sum_Z l.
Proof. unfold sum_Z at 1. simpl. apply sum_Z_from. Qed.

Lemma sum_Z_app l1 l2 : sum_Z (l1 ++ l2) = sum_Z l1 + sum_Z l2.
Proof.
  induction l1 as [|x l1 IH]; simpl; [reflexivity|].
  rewrite !sum_Z_cons, IH. lia.
Qed.

Lemma signed_sum_snoc l f : signed_sum (l ++ [f]) = signed_sum l + signed_qty f.
Proof.
  unfold signed_sum. rewrite map_app, sum_Z_app. simpl.
  rewrite sum_Z_cons. unfold sum_Z. simpl. lia.
Qed.

Lemma float_of_int_Ok z x : float_of_int z = Ok x -> x = of_int z.
Proof. unfold float_of_int. destruct (_ <? _); [intros [= <-]; reflexivity | discriminate]. Qed.

Lemma float_of_int_in_range z :
  Z.abs z < FLOAT_INT_BOUND -> float_of_int z = Ok (of_int z).
Proof.
  intros H. unfold float_of_int.
  destruct (Z.ltb_spec (Z.abs z) FLOAT_INT_BOUND); [reflexivity | lia].
Qed.

Lemma div_float_int_Ok x z y : div_float_int x z = Ok y -> y = ndiv_int x z.
Proof.
  unfold div_float_int. destruct (float_of_int z); simpl; [|discriminate].
  intros [= <-]. reflexivity.
Qed.

Lemma mul_float_int_Ok x z y : mul_float_int x z = Ok y -> y = nmul x (of_int z).
Proof.
  unfold mul_float_int. destruct (float_of_int z) eqn:E; simpl; [|discriminate].
  apply float_of_int_Ok in E. subst. intros [= <-]. reflexivity.
Qed.

Lemma totals_loop_Ok l : forall a t, totals_loop l a = Ok t -> t = fold_left totals_step l a.
Proof.
  induction l as [|f l IH]; intros a t; simpl.
  - intros [= <-]. reflexivity.
  - destruct (float_of_int (qty f)); simpl; [apply IH | discriminate].
Qed.

Lemma bind_Ok {A B : Type} (r : result A) (k : A -> result B) b :
  r ≫= k = Ok b -> exists a, r = Ok a /\ k a = Ok b.
Proof. destruct r as [a|e]; [intros H; exists a; split; [reflexivity | exact H] | discriminate]. Qed.

(** What [_compute_stats] returns is [stats_of]. *)
Lemma compute_stats_Ok f l n t :
  _compute_stats (f :: l) n = Ok t -> t = stats_of (f :: l) f n.
Proof.
  unfold _compute_stats. intros H.
  apply bind_Ok in H as (a & Ea & H).
  apply totals_loop_Ok in Ea. fold (totals (f :: l)) in Ea. subst a.
  apply bind_Ok in H as (entry & Eentry & H).
  apply bind_Ok in H as (exit & Eexit & H).
  apply bind_Ok in H as (p & Ep & H).
  injection H as <-.
  set (t0 := totals (f :: l)) in *.
  assert (Hentry : entry =
    if String.eqb (side f) "Sell" && truthy (sell_qty t0)
    then ndiv_int (sell_val t0) (sell_qty t0)
    else if truthy (buy_qty t0) then ndiv_int (buy_val t0) (buy_qty t0) else of_int 0).
  { destruct (String.eqb (side f) "Sell" && truthy (sell_qty t0));
      [apply div_float_int_Ok, Eentry|].
    destruct (truthy (buy_qty t0)); [apply div_float_int_Ok, Eentry|].
    injection Eentry as <-. reflexivity. }
  assert (Hexit : exit =
    if String.eqb (side f) "Sell" && truthy (buy_qty t0)
    then ndiv_int (buy_val t0) (buy_qty t0)
    else if truthy (sell_qty t0) then ndiv_int (sell_val t0) (sell_qty t0) else of_int 0).
  { destruct (String.eqb (side f) "Sell" && truthy (buy_qty t0));
      [apply div_float_int_Ok, Eexit|].
    destruct (truthy (sell_qty t0)); [apply div_float_int_Ok, Eexit|].
    injection Eexit as <-. reflexivity. }
  assert (Hp : p =
    if (String.eqb (side f) "Sell" && (buy_qty t0 =? 0))
       || (negb (String.eqb (side f) "Sell") && (sell_qty t0 =? 0))
    then of_int 0
    else nmul (nmul (if String.eqb (side f) "Sell" then nsub entry exit
                     else nsub exit entry)
                    (of_int (Z.max (buy_qty t0) (sell_qty t0))))
              (of_int 5)).
  { destruct ((String.eqb (side f) "Sell" && (buy_qty t0 =? 0))
              || (negb (String.eqb (side f) "Sell") && (sell_qty t0 =? 0))).
    - injection Ep as <-. reflexivity.
    - apply bind_Ok in Ep as (x & Ex & Ep).
      apply mul_float_int_Ok in Ex. subst x. injection Ep as <-. reflexivity. }
  rewrite Hp, Hentry, Hexit. reflexivity.
Qed.

Lemma compute_stats_fills l n t :
  _compute_stats l n = Ok t -> fills t = l /\ trade_num t = n /\ l <> [].
Proof.
  destruct l as [|f l]; [discriminate|]. intros H.
  apply compute_stats_Ok in H. subst t. repeat split. discriminate.
Qed.

Lemma abs_qty_cons f l : abs_qty (f :: l) = Z.abs (qty f) + abs_qty l.
Proof. unfold abs_qty. cbn [map]. apply sum_Z_cons. Qed.

Lemma abs_qty_app l1 l2 : abs_qty (l1 ++ l2) = abs_qty l1 + abs_qty l2.
Proof. unfold abs_qty. rewrite map_app. apply sum_Z_app. Qed.

Lemma abs_qty_nonneg l : 0 <= abs_qty l.
Proof.
  induction l as [|f l IH]; [unfold abs_qty, sum_Z; simpl; lia|].
  rewrite abs_qty_cons. lia.
Qed.

Lemma abs_qty_Permutation l l' : l ≡ₚ l' -> abs_qty l = abs_qty l'.
Proof.
  induction 1 as [|x l l' Hp IH|x y l|l l' l'' Hp IH Hp' IH'];
    rewrite ?abs_qty_cons; lia.
Qed.

Lemma abs_qty_filter (P : Fill -> Prop) `{!forall f, Decision (P f)} l :
  abs_qty (filter P l) <= abs_qty l.
Proof.
  induction l as [|f l IH]; [reflexivity|].
  rewrite filter_cons. destruct (decide (P f)); rewrite ?abs_qty_cons; lia.
Qed.

Lemma totals_bounds l :
  forall a,
    Z.abs (buy_qty (fold_left totals_step l a)) <= Z.abs (buy_qty a) + abs_qty l /\
    Z.abs (sell_qty (fold_left totals_step l a)) <= Z.abs (sell_qty a) + abs_qty l.
Proof.
  induction l as [|f l IH]; intros a; cbn [fold_left].
  - pose proof (abs_qty_nonneg []). lia.
  - destruct (IH (totals_step a f)) as [Hb Hs]. rewrite abs_qty_cons.
    pose proof (abs_qty_nonneg l).
    set (r := fold_left totals_step l (totals_step a f)) in *. clearbody r.
    unfold totals_step in Hb, Hs.
    destruct (String.eqb (side f) "Buy"); cbn [buy_qty sell_qty] in Hb, Hs; lia.
Qed.

Lemma totals_loop_in_range l :
  in_float_range l -> forall a, totals_loop l a = Ok (fold_left totals_step l a).
Proof.
  unfold in_float_range.
  induction l as [|f l IH]; intros Hr a; cbn [totals_loop fold_left]; [reflexivity|].
  rewrite abs_qty_cons in Hr. pose proof (abs_qty_nonneg l).
  rewrite float_of_int_in_range by lia. cbn [mbind result_bind].
  apply IH. lia.
Qed.

(** On fills in range [_compute_stats] returns. *)
Lemma compute_stats_returns f l n :
  in_float_range (f :: l) -> _compute_stats (f :: l) n = Ok (stats_of (f :: l) f n).
Proof.
  intros Hr. unfold _compute_stats.
  rewrite (totals_loop_in_range _ Hr). cbn [mbind result_bind].
  fold (totals (f :: l)).
  destruct (totals_bounds (f :: l)
              {| buy_qty := 0; buy_val := of_int 0; sell_qty := 0; sell_val := of_int 0 |})
    as [Hb Hs].
  fold (totals (f :: l)) in Hb, Hs. cbn [buy_qty sell_qty] in Hb, Hs.
  unfold in_float_range in Hr.
  assert (Hfb : float_of_int (buy_qty (totals (f :: l))) =
                Ok (of_int (buy_qty (totals (f :: l)))))
    by (apply float_of_int_in_range; lia).
  assert (Hfs : float_of_int (sell_qty (totals (f :: l))) =
                Ok (of_int (sell_qty (totals (f :: l)))))
    by (apply float_of_int_in_range; lia).
  assert (Hfq : float_of_int (Z.max (buy_qty (totals (f :: l))) (sell_qty (totals (f :: l)))) =
                Ok (of_int (Z.max (buy_qty (totals (f :: l))) (sell_qty (totals (f :: l))))))
    by (apply float_of_int_in_range; lia).
  unfold stats_of, div_float_int, mul_float_int. rewrite Hfb, Hfs, Hfq.
  set (t0 := totals (f :: l)). cbn [mbind result_bind].
  destruct (String.eqb (side f) "Sell"), (truthy (sell_qty t0)), (truthy (buy_qty t0));
    cbn [andb orb negb mbind result_bind];
    destruct (buy_qty t0 =? 0), (sell_qty t0 =? 0);
    cbn [andb orb negb mbind result_bind]; reflexivity.
Qed.

(** The loop closes a group when the running position is back to zero: every
    group but the last one sums to zero, the groups are numbered from the
    number of trades already built, each trade is the statistics of its
    group, and put end to end the groups are the fills read. *)
Lemma build_loop_groups l :
  forall position current acc res,
    position = signed_sum current ->
    build_loop l position current acc = Ok res ->
    exists new,
      res = acc ++ new /\
      (forall i t, new !! i = Some t -> (i + 1 < length new)%nat ->
                   signed_sum (fills t) = 0) /\
      (forall i t, new !! i = Some t ->
                   trade_num t = Z.of_nat (length acc + i) + 1 /\
                   _compute_stats (fills t) (trade_num t) = Ok t) /\
      concat (map fills new) = current ++ l.
Proof.
  induction l as [|f l IH]; intros position current acc res Hpos; simpl.
  - destruct current as [|c current].
    + intros [= <-]. exists []. rewrite app_nil_r. split; [reflexivity|].
      split; [intros i t Hi; discriminate|].
      split; [intros i t Hi; discriminate | reflexivity].
    + intros Hres. apply bind_Ok in Hres as (t & Ht & Hres). injection Hres as <-.
      destruct (compute_stats_fills _ _ _ Ht) as (Hfills & Hnum & _).
      exists [t]. split; [reflexivity|].
      split; [|split].
      * intros [|i] t' Hi Hlen; simpl in *; [lia | discriminate].
      * intros [|i] t' [= <-]. rewrite Nat.add_0_r, Hfills, Hnum. split; [reflexivity | exact Ht].
      * simpl. rewrite Hfills, !app_nil_r. reflexivity.
  - assert (Hpos' : position + signed_qty f = signed_sum (current ++ [f]))
      by (rewrite signed_sum_snoc; lia).
    destruct (Z.eqb_spec (position + signed_qty f) 0) as [Hz | Hnz].
    + intros Hres. apply bind_Ok in Hres as (t & Ht & Hres).
      destruct (compute_stats_fills _ _ _ Ht) as (Hfills & Hnum & _).
      destruct (IH (position + signed_qty f) [] (acc ++ [t]) res) as (new & Hb & H0 & Hn & Hc).
      { rewrite Hz. reflexivity. }
      { exact Hres. }
      exists (t :: new). rewrite Hb, <- app_assoc. split; [reflexivity|].
      split; [|split].
      * intros [|i] t' Hi Hlen; simpl in *.
        -- injection Hi as <-. rewrite Hfills. congruence.
        -- apply (H0 i); [exact Hi | lia].
      * intros [|i] t' Hi; simpl in *.
        -- injection Hi as <-. rewrite Nat.add_0_r, Hfills, Hnum.
           split; [reflexivity | exact Ht].
        -- destruct (Hn i t' Hi) as [Hnum' Hstat]. split; [|exact Hstat].
           rewrite Hnum', length_app. simpl. lia.
      * simpl. rewrite Hfills, Hc, <- app_assoc. reflexivity.
    + intros Hres.
      destruct (IH (position + signed_qty f) (current ++ [f]) acc res Hpos' Hres)
        as (new & Hb & H0 & Hn & Hc).
      exists new. split; [exact Hb|].
      split; [exact H0|]. split; [exact Hn|].
      rewrite Hc, <- app_assoc. reflexivity.
Qed.

(** On fills in range the loop returns. *)
Lemma build_loop_returns l :
  forall position current acc,
    in_float_range (current ++ l) ->
    exists res, build_loop l position current acc = Ok res.
Proof.
  unfold in_float_range.
  induction l as [|f l IH]; intros position current acc Hr; simpl.
  - destruct current as [|c current]; [eexists; reflexivity|].
    rewrite app_nil_r in Hr.
    rewrite (compute_stats_returns c current _ Hr). eexists. reflexivity.
  - destruct (position + signed_qty f =? 0).
    + assert (Hcur : in_float_range (current ++ [f])).
      { unfold in_float_range. rewrite abs_qty_app in Hr |- *.
        rewrite abs_qty_cons in Hr. pose proof (abs_qty_nonneg l).
        rewrite abs_qty_cons. pose proof (abs_qty_nonneg []).
        change (abs_qty []) with 0 in *. lia. }
      destruct (current ++ [f]) as [|c cur] eqn:E; [destruct current; discriminate|].
      rewrite (compute_stats_returns c cur _ Hcur). cbn [mbind result_bind].
      apply IH. rewrite app_nil_l.
      rewrite abs_qty_app, abs_qty_cons in Hr. pose proof (abs_qty_nonneg current). lia.
    + apply IH. rewrite <- app_assoc. exact Hr.
Qed.

Lemma float_of_int_raises z e : float_of_int z = Raise e -> e = OverflowError.
Proof. unfold float_of_int. destruct (_ <? _); [discriminate | intros [= <-]; reflexivity]. Qed.

Lemma bind_Raise {A B : Type} (r : result A) (k : A -> result B) e :
  r ≫= k = Raise e -> r = Raise e \/ exists a, r = Ok a /\ k a = Raise e.
Proof. destruct r as [a|e']; [intros H; right; exists a; tauto | intros [= <-]; left; reflexivity]. Qed.

Lemma totals_loop_raises l : forall a e, totals_loop l a = Raise e -> e = OverflowError.
Proof.
  induction l as [|f l IH]; intros a e; cbn [totals_loop]; [discriminate|].
  intros H. apply bind_Raise in H as [H | (x & _ & H)].
  - apply float_of_int_raises in H. exact H.
  - apply IH in H. exact H.
Qed.

Lemma div_float_int_raises x z e : div_float_int x z = Raise e -> e = OverflowError.
Proof.
  unfold div_float_int. intros H. apply bind_Raise in H as [H | (y & _ & H)];
    [apply float_of_int_raises in H; exact H | discriminate H].
Qed.

(** The statistics of a group that is not empty raise nothing but
    [OverflowError]. *)
Lemma compute_stats_raises f l n e :
  _compute_stats (f :: l) n = Raise e -> e = OverflowError.
Proof.
  unfold _compute_stats. intros H.
  apply bind_Raise in H as [H | (t & _ & H)]; [apply totals_loop_raises in H; exact H|].
  apply bind_Raise in H as [H | (entry & _ & H)].
  { destruct (_ && _); [apply div_float_int_raises in H; exact H|].
    destruct (truthy _); [apply div_float_int_raises in H; exact H | discriminate H]. }
  apply bind_Raise in H as [H | (exit & _ & H)].
  { destruct (_ && _); [apply div_float_int_raises in H; exact H|].
    destruct (truthy _); [apply div_float_int_raises in H; exact H | discriminate H]. }
  apply bind_Raise in H as [H | (p & _ & H)]; [|discriminate H].
  destruct (_ || _); [discriminate H|].
  apply bind_Raise in H as [H | (x & _ & H)]; [|discriminate H].
  unfold mul_float_int in H.
  apply bind_Raise in H as [H | (y & _ & H)];
    [apply float_of_int_raises in H; exact H | discriminate H].
Qed.

Lemma build_loop_raises l :
  forall position current acc e,
    build_loop l position current acc = Raise e -> e = OverflowError.
Proof.
  induction l as [|f l IH]; intros position current acc e; simpl.
  - destruct current as [|c current]; [discriminate|].
    intros H. apply bind_Raise in H as [H | (t & _ & H)]; [|discriminate H].
    apply compute_stats_raises in H. exact H.
  - destruct (position + signed_qty f =? 0); [|apply IH].
    intros H. apply bind_Raise in H as [H | (t & _ & H)]; [|apply IH in H; exact H].
    destruct (current ++ [f]) as [|c cur] eqn:E; [destruct current; discriminate E|].
    apply compute_stats_raises in H. exact H.
Qed.

Lemma group_by_date_step d (l : list Fill) :
  Forall (fun f => date f = d) l ->
  forall f (m : gmap string (list Fill)),
    date f = d ->
    fold_left (fun m f => <[date f := default [] (m !! date f) ++ [f]]> m) (f :: l) m =
    <[d := default [] (m !! d) ++ f :: l]> m.
Proof.
  induction 1 as [|g l Hg Hl IH]; intros f m Hf.
  - simpl. rewrite Hf. reflexivity.
  - change (fold_left ?step (f :: g :: l) m)
      with (fold_left step (g :: l) (step m f)).
    rewrite (IH g _ Hg). simpl. rewrite Hf, lookup_insert_eq, insert_insert_eq. simpl.
    rewrite <- app_assoc. reflexivity.
Qed.

(** The reconstruction of the fills of one day is the round trips of these
    fills sorted by time. *)
Lemma reconstruct_single_day d l :
  l <> [] -> Forall (fun f => date f = d) l ->
  reconstruct_trades l =
  (ts ← _build_round_trips (sorted time l); Ok [ {| day_date := d; trades := ts |} ]).
Proof.
  destruct l as [|f l]; [congruence|]. intros _ Hd.
  apply Forall_cons_1 in Hd as [Hf Hl].
  unfold reconstruct_trades, group_by_date.
  rewrite (group_by_date_step d l Hl f ∅ Hf). rewrite lookup_empty. simpl.
  rewrite insert_empty, map_to_list_singleton. simpl.
  destruct (_build_round_trips _); reflexivity.
Qed.

(** The reconstruction of the fills of one day depends on them only through
    their list sorted by time. *)
Lemma reconstruct_of_sorted_eq d (l l' : list Fill) :
  Forall (fun f => date f = d) l ->
  l ≡ₚ l' ->
  sorted time l' = sorted time l ->
  reconstruct_trades l' = reconstruct_trades l.
Proof.
  intros Hd Hp Hs.
  destruct l as [|f l].
  - apply Permutation_nil in Hp. subst l'. reflexivity.
  - assert (Hd' : Forall (fun f => date f = d) l') by (rewrite <- Hp; exact Hd).
    assert (Hne' : l' <> []).
    { intros ->. symmetry in Hp. apply Permutation_nil in Hp. discriminate. }
    rewrite (reconstruct_single_day d l' Hne' Hd').
    rewrite (reconstruct_single_day d (f :: l)) by (discriminate || exact Hd).
    rewrite Hs. reflexivity.
Qed.

(** C7, amended.  For the fills of one day, the reconstruction of any
    permutation of the fills that keeps the fills of each time in their
    order is the reconstruction of the fills. *)
Theorem reconstruction_ignores_input_order d (l l' : list Fill) :
  Forall (fun f => date f = d) l ->
  l ≡ₚ l' ->
  (forall t, filter (fun f => time f = t) l' = filter (fun f => time f = t) l) ->
  reconstruct_trades l' = reconstruct_trades l.
Proof.
  intros Hd Hp Hties.
  apply (reconstruct_of_sorted_eq d); [exact Hd | exact Hp |].
  apply sorted_stable_eq, Hties.
Qed.

(** When the times of the fills of one day are pairwise different, the
    reconstruction of any permutation of the fills is the reconstruction of
    the fills. *)
Theorem reconstruction_of_distinct_times d (l l' : list Fill) :
  Forall (fun f => date f = d) l ->
  NoDup (map time l) ->
  l ≡ₚ l' ->
  reconstruct_trades l' = reconstruct_trades l.
Proof.
  intros Hd Hnd Hp.
  apply (reconstruct_of_sorted_eq d); [exact Hd | exact Hp |].
  apply sorted_Permutation_eq; assumption.
Qed.

(** ** Statistics of a group *)

Lemma totals_step_fold l :
  forall a,
    buy_qty (fold_left totals_step l a) =
      fold_left Z.add (map qty (buys l)) (buy_qty a) /\
    buy_val (fold_left totals_step l a) =
      fold_left nadd (map notional (buys l)) (buy_val a) /\
    sell_qty (fold_left totals_step l a) =
      fold_left Z.add (map qty (sells l)) (sell_qty a) /\
    sell_val (fold_left totals_step l a) =
      fold_left nadd (map notional (sells l)) (sell_val a).
Proof.
  unfold buys, sells.
  induction l as [|f l IH]; intros a; simpl; [repeat split|].
  rewrite !filter_cons.
  destruct (IH (totals_step a f)) as (H1 & H2 & H3 & H4).
  rewrite H1, H2, H3, H4. unfold totals_step.
  destruct (String.eqb_spec (side f) "Buy") as [Hb | Hb].
  - rewrite decide_True by assumption.
    rewrite (decide_False (P := side f <> "Buy")) by (intros H; apply H; assumption).
    repeat split.
  - rewrite decide_False by assumption.
    rewrite (decide_True (P := side f <> "Buy")) by assumption.
    repeat split.
Qed.

Lemma totals_spec l :
  buy_qty (totals l) = sum_Z (map qty (buys l)) /\
  buy_val (totals l) = sum_num (map notional (buys l)) /\
  sell_qty (totals l) = sum_Z (map qty (sells l)) /\
  sell_val (totals l) = sum_num (map notional (sells l)).
Proof. apply totals_step_fold. Qed.

Lemma sum_qty_nonneg (l : list Fill) :
  Forall (fun f => 0 < qty f) l -> 0 <= sum_Z (map qty l).
Proof.
  induction 1 as [|f l Hf Hl IH]; simpl; [unfold sum_Z; simpl; lia|].
  rewrite sum_Z_cons. lia.
Qed.

Lemma sum_qty_pos (l : list Fill) :
  Forall (fun f => 0 < qty f) l -> l <> [] -> 0 < sum_Z (map qty l).
Proof.
  intros H Hne. destruct H as [|f l Hf Hl]; [congruence|].
  simpl. rewrite sum_Z_cons. pose proof (sum_qty_nonneg l Hl). lia.
Qed.

Lemma signed_sum_split l :
  signed_sum l = sum_Z (map qty (buys l)) - sum_Z (map qty (sells l)).
Proof.
  unfold signed_sum, buys, sells.
  induction l as [|f l IH]; simpl; [reflexivity|].
  rewrite sum_Z_cons, IH, !filter_cons. unfold signed_qty.
  destruct (String.eqb_spec (side f) "Buy") as [Hb | Hb].
  - rewrite decide_True by assumption.
    rewrite (decide_False (P := side f <> "Buy")) by (intros H; apply H; assumption).
    simpl. rewrite sum_Z_cons. lia.
  - rewrite decide_False by assumption.
    rewrite (decide_True (P := side f <> "Buy")) by assumption.
    simpl. rewrite sum_Z_cons. lia.
Qed.

Lemma vwap_unfold l :
  vwap l =
  if truthy (sum_Z (map qty l)) then ndiv_int (sum_num (map notional l)) (sum_Z (map qty l))
  else of_int 0.
Proof. unfold vwap, truthy. destruct (_ =? 0); reflexivity. Qed.

Lemma sells_of_sell f l : side f = "Sell" -> sells (f :: l) = f :: sells l.
Proof.
  intros Hs. unfold sells. rewrite filter_cons.
  rewrite decide_True by (rewrite Hs; discriminate). reflexivity.
Qed.

Lemma Forall_filter_pos (P : Fill -> Prop) `{!forall f, Decision (P f)} (l : list Fill) :
  Forall (fun f => 0 < qty f) l -> Forall (fun f => 0 < qty f) (filter P l).
Proof.
  intros Hall. apply Forall_forall. intros f Hf.
  apply list_elem_of_filter in Hf as [_ Hf].
  rewrite Forall_forall in Hall. apply Hall, Hf.
Qed.

(** C5.  For a group of fills of positive quantity that [_compute_stats]
    does not flag as open, the averages are the volume-weighted prices of
    the two sides rounded to 4 decimals, and the P&L is
    (exit - entry) x qty x 5 for a long trade and (entry - exit) x qty x 5
    for a short one, computed from the averages before they are rounded
    and rounded to 2 decimals.  The scenario of the specification: a buy of 1
    at 100 and a sell of 1 at 105 make one closed long trade of quantity 1,
    average entry 100, average exit 105 and P&L 25. *)
Theorem closed_trade_pnl_formula :
  (forall l n t,
      Forall (fun f => 0 < qty f) l ->
      _compute_stats l n = Ok t ->
      open t = false ->
      trade_qty t = Z.max (sum_Z (map qty (buys l))) (sum_Z (map qty (sells l))) /\
      ((side <$> head l <> Some "Sell" /\
        direction t = "Long" /\
        avg_entry t = round (vwap (buys l)) 4 /\
        avg_exit t = round (vwap (sells l)) 4 /\
        pnl t = round (documented_pnl false (vwap (buys l)) (vwap (sells l))
                         (trade_qty t) 5) 2) \/
       (side <$> head l = Some "Sell" /\
        direction t = "Short" /\
        avg_entry t = round (vwap (sells l)) 4 /\
        avg_exit t = round (vwap (buys l)) 4 /\
        pnl t = round (documented_pnl true (vwap (sells l)) (vwap (buys l))
                         (trade_qty t) 5) 2))) /\
  reconstruct_trades scenario_fills =
  Ok [ {| day_date := "2024-01-01";
          trades := [ {| trade_num := 1; direction := "Long"; trade_qty := 1;
                         avg_entry := of_int 100; avg_exit := of_int 105;
                         pnl := of_int 25;
                         entry_time := "09:30:00"; exit_time := "09:35:00";
                         fills := scenario_fills; open := false |} ] |} ].
Proof.
  split; [|canon_refl].
  intros [|f0 l] n t Hpos; [discriminate|].
  intros Hstat. apply compute_stats_Ok in Hstat as ->. unfold stats_of. simpl.
  destruct (totals_spec (f0 :: l)) as (Hbq & Hbv & Hsq & Hsv).
  rewrite Hbq, Hbv, Hsq, Hsv. clear Hbq Hbv Hsq Hsv.
  rewrite !vwap_unfold. unfold documented_pnl.
  intros Hopen. split; [reflexivity|].
  destruct (String.eqb_spec (side f0) "Sell") as [Hs | Hs]; simpl in *.
  - right. rewrite orb_false_r in Hopen.
    assert (Hsq : 0 < sum_Z (map qty (sells (f0 :: l)))).
    { apply sum_qty_pos; [apply Forall_filter_pos, Hpos|].
      rewrite sells_of_sell by assumption. discriminate. }
    assert (Hts : truthy (sum_Z (map qty (sells (f0 :: l)))) = true).
    { unfold truthy. apply negb_true_iff, Z.eqb_neq. lia. }
    assert (Htb : truthy (sum_Z (map qty (buys (f0 :: l)))) = true).
    { unfold truthy. rewrite Hopen. reflexivity. }
    rewrite Hts, Htb, Hopen, Hs. repeat split.
  - left. unfold truthy in *.
    rewrite Hopen. simpl.
    repeat split. intros [= H]. congruence.
Qed.

(** The scenario, as an instance of the general statement. *)
Lemma closed_trade_pnl_witness :
  exists t,
    _compute_stats scenario_fills 1 = Ok t /\
    trade_qty t = Z.max (sum_Z (map qty (buys scenario_fills)))
                        (sum_Z (map qty (sells scenario_fills))) /\
    direction t = "Long" /\
    pnl t = round (documented_pnl false (vwap (buys scenario_fills))
                     (vwap (sells scenario_fills)) (trade_qty t) 5) 2.
Proof.
  eexists. split; [reflexivity|].
  destruct (proj1 closed_trade_pnl_formula scenario_fills 1 _
              ltac:(repeat constructor) eq_refl eq_refl)
    as (Hq & [(_ & Hd & _ & _ & Hp) | (Hs & _)]).
  - split; [exact Hq|]. split; [exact Hd | exact Hp].
  - discriminate Hs.
Defined.

(** The flag [open] of a group says that the side opposite to its first
    fill has no quantity; with positive quantities such a group does not sum
    to zero. *)
Lemma open_flag_spec l n t :
  Forall (fun f => 0 < qty f) l ->
  _compute_stats l n = Ok t ->
  (open t = true <->
   (if bool_decide (side <$> head l = Some "Sell")
    then sum_Z (map qty (buys l)) = 0
    else sum_Z (map qty (sells l)) = 0)) /\
  (open t = true -> signed_sum l <> 0).
Proof.
  destruct l as [|f0 l]; [discriminate|]. intros Hpos.
  intros Hstat. apply compute_stats_Ok in Hstat as ->. unfold stats_of. simpl.
  destruct (totals_spec (f0 :: l)) as (Hbq & _ & Hsq & _).
  rewrite Hbq, Hsq. clear Hbq Hsq.
  rewrite signed_sum_split.
  pose proof (sum_qty_nonneg _ (Forall_filter_pos (fun f => side f = "Buy") _ Hpos)) as Hb0.
  pose proof (sum_qty_nonneg _ (Forall_filter_pos (fun f => side f <> "Buy") _ Hpos)) as Hs0.
  fold (buys (f0 :: l)) in Hb0. fold (sells (f0 :: l)) in Hs0.
  destruct (String.eqb_spec (side f0) "Sell") as [Hs | Hs]; simpl.
  - rewrite bool_decide_eq_true_2 by (rewrite Hs; reflexivity).
    rewrite orb_false_r, Z.eqb_eq.
    assert (0 < sum_Z (map qty (sells (f0 :: l)))).
    { apply sum_qty_pos; [apply Forall_filter_pos, Hpos|].
      rewrite sells_of_sell by assumption. discriminate. }
    split; [reflexivity | lia].
  - rewrite bool_decide_eq_false_2 by (intros [= H]; congruence).
    rewrite Z.eqb_eq. split; [reflexivity|].
    intros Hz.
    assert (Hne : buys (f0 :: l) <> []).
    { destruct (decide (side f0 = "Buy")) as [Hb | Hb].
      - unfold buys. rewrite filter_cons, decide_True by assumption. discriminate.
      - exfalso.
        assert (0 < sum_Z (map qty (sells (f0 :: l)))); [|lia].
        apply sum_qty_pos; [apply Forall_filter_pos, Hpos|].
        unfold sells. rewrite filter_cons, decide_True by assumption. discriminate. }
    assert (0 < sum_Z (map qty (buys (f0 :: l))))
      by (apply sum_qty_pos; [apply Forall_filter_pos, Hpos | exact Hne]).
    lia.
Qed.

(** The part of C1 that holds of the code, for the fills of one day whose
    quantities are in the range of [float]: [reconstruct_trades] returns one
    day, of that date; its trades are consecutive groups of the fills sorted
    by time, numbered from 1, and every group but the last one sums to zero;
    a trade flagged open does not sum to zero when quantities are
    positive. *)
Theorem round_trips_sum_to_zero d l :
  l <> [] ->
  Forall (fun f => date f = d) l ->
  in_float_range l ->
  exists ts,
    reconstruct_trades l = Ok [ {| day_date := d; trades := ts |} ] /\
    concat (map fills ts) = sorted time l /\
    forall i t, ts !! i = Some t ->
      trade_num t = Z.of_nat i + 1 /\
      ((i + 1 < length ts)%nat -> signed_sum (fills t) = 0) /\
      (Forall (fun f => 0 < qty f) l -> open t = true -> signed_sum (fills t) <> 0).
Proof.
  intros Hne Hd Hr.
  rewrite (reconstruct_single_day d l Hne Hd).
  unfold _build_round_trips.
  destruct (build_loop_returns (sorted time l) 0 [] []) as (ts & Hts).
  { unfold in_float_range. rewrite app_nil_l.
    rewrite (abs_qty_Permutation _ _ (sorted_Permutation time l)). exact Hr. }
  destruct (build_loop_groups (sorted time l) 0 [] [] ts eq_refl Hts)
    as (new & -> & H0 & Hn & Hc).
  cbn [app] in Hts, Hc. rename new into ts.
  rewrite Hts. simpl. exists ts. split; [reflexivity|].
  split; [exact Hc|].
  intros i t Hi. destruct (Hn i t Hi) as [Hnum Hstat].
  split; [exact Hnum|]. split; [apply (H0 i t Hi)|].
  intros Hpos Hopen.
  assert (Hpos' : Forall (fun g => 0 < qty g) (fills t)).
  { apply Forall_forall. intros g Hg.
    assert (Hg' : g ∈ sorted time l).
    { rewrite <- Hc. apply list_elem_of_In, in_concat.
      exists (fills t). split; [|apply list_elem_of_In, Hg].
      apply in_map, list_elem_of_In, list_elem_of_lookup. eauto. }
    rewrite sorted_Permutation in Hg'. rewrite Forall_forall in Hpos. apply Hpos, Hg'. }
  exact (proj2 (open_flag_spec _ _ _ Hpos' Hstat) Hopen).
Qed.

(** C1, at the failing input.  A day with a buy of 2 and a sell of 1 ends
    one unit long: its only trade, the last one, sums to 1, and its flag
    [open] is false. *)
Theorem partly_offset_last_trade_is_not_open :
  exists t,
    reconstruct_trades partly_offset_fills =
      Ok [ {| day_date := "2024-01-01"; trades := [t] |} ] /\
    fills t = partly_offset_fills /\
    signed_sum (fills t) = 1 /\
    open t = false.
Proof. eexists. split; [vm_compute; reflexivity|]. repeat split. Qed.

(** The day that ends one unit long. *)
Lemma round_trips_witness :
  exists ts,
    reconstruct_trades partly_offset_fills =
      Ok [ {| day_date := "2024-01-01"; trades := ts |} ] /\
    concat (map fills ts) = sorted time partly_offset_fills /\
    forall i t, ts !! i = Some t ->
      trade_num t = Z.of_nat i + 1 /\
      ((i + 1 < length ts)%nat -> signed_sum (fills t) = 0) /\
      (Forall (fun f => 0 < qty f) partly_offset_fills ->
       open t = true -> signed_sum (fills t) <> 0).
Proof.
  apply (round_trips_sum_to_zero "2024-01-01" partly_offset_fills).
  - discriminate.
  - repeat constructor.
  - vm_compute. reflexivity.
Defined.

(** C7, as stated, fails on fills of the same second: the list is sorted by
    time as it stands, and reordering it changes the trades from two round
    trips to one. *)
Lemma tied_fills_regroup :
  sorted time tied_fills = tied_fills /\
  tied_fills ≡ₚ tied_fills_reordered /\
  trade_groups (reconstruct_trades tied_fills) =
    Ok [ [ [ fill_at "Buy" 1 100 "09:30:00"; fill_at "Sell" 1 101 "09:30:00" ];
           [ fill_at "Sell" 1 102 "09:30:00"; fill_at "Buy" 1 103 "09:30:00" ] ] ] /\
  trade_groups (reconstruct_trades tied_fills_reordered) =
    Ok [ [ tied_fills_reordered ] ].
Proof.
  split; [reflexivity|]. split; [|split; vm_compute; reflexivity].
  unfold tied_fills, tied_fills_reordered.
  apply perm_skip. symmetry.
  apply (Permutation_cons_append [fill_at "Sell" 1 101 "09:30:00"; fill_at "Sell" 1 102 "09:30:00"]).
Qed.

(** Two round trips whose fills share their times: the second round trip
    is given first, the fills of each time in their order. *)
Lemma reconstruction_order_witness :
  reconstruct_trades
    [ fill_at "Buy" 1 102 "09:35:00"; fill_at "Buy" 1 100 "09:30:00";
      fill_at "Sell" 1 103 "09:35:00"; fill_at "Sell" 1 101 "09:30:00" ] =
  reconstruct_trades
    [ fill_at "Buy" 1 100 "09:30:00"; fill_at "Sell" 1 101 "09:30:00";
      fill_at "Buy" 1 102 "09:35:00"; fill_at "Sell" 1 103 "09:35:00" ].
Proof.
  apply (reconstruction_ignores_input_order "2024-01-01").
  - repeat constructor.
  - symmetry. etransitivity; [apply perm_swap|]. apply perm_skip.
    etransitivity; [apply perm_skip, perm_swap|]. apply perm_swap.
  - intros t. rewrite !filter_cons, !filter_nil. simpl.
    destruct (decide ("09:35:00" = t)) as [H35 | H35];
      destruct (decide ("09:30:00" = t)) as [H30 | H30];
      try reflexivity.
    rewrite <- H35 in H30. discriminate H30.
Defined.

(** The two fills of the scenario, given in reverse order. *)
Lemma distinct_times_witness :
  reconstruct_trades [ fill_at "Sell" 1 105 "09:35:00"; fill_at "Buy" 1 100 "09:30:00" ] =
  reconstruct_trades scenario_fills.
Proof.
  apply (reconstruction_of_distinct_times "2024-01-01" scenario_fills).
  - repeat constructor.
  - apply NoDup_cons. split; [|apply NoDup_singleton].
    intros H. apply list_elem_of_singleton in H. discriminate H.
  - apply perm_swap.
Defined.

(** ** Live trades *)

Section LiveTradeFacts.
Context {B : PyBuiltins}.

Lemma get_instrument_config_keys config ic k :
  get_instrument_config config = Ok ic -> k <> "MES" -> k <> "ES" -> ic !! k = None.
Proof.
  unfold get_instrument_config. simpl.
  repeat (case_bind; [|discriminate]).
  intros [= <-] H1 H2.
  rewrite lookup_insert_ne by done. rewrite lookup_insert_ne by done.
  apply lookup_empty.
Qed.

Lemma instrument_dpp_absent config ic k :
  get_instrument_config config = Ok ic -> k <> "MES" -> k <> "ES" ->
  instrument_dpp config k = Ok (of_int 5).
Proof.
  intros Hic H1 H2. unfold instrument_dpp. rewrite Hic. simpl.
  rewrite (get_instrument_config_keys _ _ _ Hic H1 H2). reflexivity.
Qed.

(** C10.  An instrument that is not a key of the instrument configuration
    (the keys are ["MES"] and ["ES"]) makes the plan generator, the
    execution P&L and the risk recalculator compute with 5 dollars per
    point, the hardcoded entry of MES, whatever rows [app_config] holds,
    those that override MES included.  The configuration has to be
    readable: a malformed instrument row makes the three functions raise
    before they look the instrument up. *)
Theorem absent_instrument_falls_back_to_MES config inst ic :
  inst <> "MES" -> inst <> "ES" ->
  get_instrument_config config = Ok ic ->
  (forall direction entry q md,
      compute_live_trade_plan config direction inst entry q md =
      plan_levels (of_int 5) (get_trade_defaults config) direction entry q md) /\
  (forall direction entry exec_price q,
      compute_execution_pnl config direction inst entry exec_price q =
      Ok (execution_pnl (of_int 5) direction entry exec_price q)) /\
  (forall live_trade,
      instrument live_trade = inst ->
      recalculate_live_trade config live_trade = risk_snapshot (of_int 5) live_trade).
Proof.
  intros H1 H2 Hic.
  pose proof (instrument_dpp_absent _ _ _ Hic H1 H2) as Hdpp.
  repeat split; intros.
  - unfold compute_live_trade_plan. rewrite Hdpp. reflexivity.
  - unfold compute_execution_pnl. rewrite Hdpp. reflexivity.
  - unfold recalculate_live_trade. subst inst. rewrite Hdpp. reflexivity.
Qed.

Lemma config_float_agree c1 c2 key d :
  c1 !! key = c2 !! key -> config_float c1 key d = config_float c2 key d.
Proof. unfold config_float. intros ->. reflexivity. Qed.

Lemma config_int_agree c1 c2 key d :
  c1 !! key = c2 !! key -> config_int c1 key d = config_int c2 key d.
Proof. unfold config_int. intros ->. reflexivity. Qed.

Lemma get_instrument_config_agree c1 c2 :
  Forall (fun key => c1 !! key = c2 !! key) instrument_keys ->
  get_instrument_config c1 = get_instrument_config c2.
Proof.
  unfold instrument_keys. intros H.
  repeat (apply Forall_cons_1 in H; destruct H as [? H]).
  unfold get_instrument_config. simpl.
  rewrite (config_float_agree c1 c2 "inst_MES_dpp") by assumption.
  rewrite (config_float_agree c1 c2 "inst_MES_dpt") by assumption.
  rewrite (config_int_agree c1 c2 "inst_MES_tpp") by assumption.
  rewrite (config_float_agree c1 c2 "inst_ES_dpp") by assumption.
  rewrite (config_float_agree c1 c2 "inst_ES_dpt") by assumption.
  rewrite (config_int_agree c1 c2 "inst_ES_tpp") by assumption.
  reflexivity.
Qed.

(** C4, amended.  The recalculator reads [app_config]: its result is a
    function of the live trade and of the six instrument rows of that
    table, and of nothing else of the table. *)
Theorem recalculation_depends_on_instrument_rows c1 c2 live_trade :
  Forall (fun key => c1 !! key = c2 !! key) instrument_keys ->
  recalculate_live_trade c1 live_trade = recalculate_live_trade c2 live_trade.
Proof.
  intros H. unfold recalculate_live_trade, instrument_dpp.
  rewrite (get_instrument_config_agree c1 c2 H). reflexivity.
Qed.

(** C9.  Whenever the instrument configuration is readable the
    recalculator returns a snapshot; its [remaining_qty] is never negative,
    it is [0] when the executions reach or exceed the total quantity, and
    [is_closed] is true exactly in that case. *)
Theorem remaining_qty_is_never_negative config live_trade dpp :
  instrument_dpp config (instrument live_trade) = Ok dpp ->
  exists snap r,
    recalculate_live_trade config live_trade = Ok snap /\
    snap !! "remaining_qty" = Some (VInt r) /\
    0 <= r /\
    (total_qty live_trade <= exited_total live_trade -> r = 0) /\
    snap !! "is_closed" =
      Some (VBool (bool_decide (total_qty live_trade <= exited_total live_trade))).
Proof.
  intros Hdpp. unfold recalculate_live_trade. rewrite Hdpp. simpl.
  unfold risk_snapshot. fold (exited_total live_trade).
  destruct (Z.leb_spec (total_qty live_trade - exited_total live_trade) 0) as [Hle | Hgt].
  - eexists _, 0. split; [reflexivity|]. split; [reflexivity|].
    split; [lia|]. split; [reflexivity|].
    rewrite bool_decide_eq_true_2 by lia. reflexivity.
  - assert (Hpos : (0 <? total_qty live_trade - exited_total live_trade) = true)
      by (apply Z.ltb_lt; lia).
    destruct (String.eqb (mode live_trade) "partials") eqn:Hm; simpl;
      [| unfold full_outcome; rewrite Hpos; simpl;
         destruct (first_level "stop" (levels live_trade)); simpl ].
    all: eexists _, _; split; [reflexivity|]; split; [reflexivity|];
      split; [lia|]; split; [lia|];
      rewrite bool_decide_eq_false_2 by lia; reflexivity.
Qed.
End LiveTradeFacts.

Section PlanFacts.
Context {B : PyBuiltins}.

Lemma split_qty_spec total :
  split_qty total =
  Ok [ total / 3 + (if 0 <? total mod 3 then 1 else 0);
       total / 3 + (if 1 <? total mod 3 then 1 else 0);
       total / 3 ].
Proof.
  unfold split_qty.
  assert (Hr : total mod 3 = 0 \/ total mod 3 = 1 \/ total mod 3 = 2)
    by (pose proof (Z.mod_pos_bound total 3); lia).
  destruct Hr as [-> | [-> | ->]]; simpl; unfold incr_at; simpl;
    repeat f_equal; lia.
Qed.

Lemma get_trade_defaults_lookup config key dflt :
  In (key, dflt) DEFAULT_TRADE_DEFAULTS ->
  getitem (get_trade_defaults config) key = Ok (trade_default config key dflt).
Proof.
  unfold DEFAULT_TRADE_DEFAULTS. simpl. intros H.
  repeat (destruct H as [[= <- <-] | H]; [reflexivity|]).
  destruct H.
Qed.

Lemma partials_levels dpp defaults direction entry total md s t1 t2 t3 :
  md <> "full" ->
  getitem defaults "partial_stop_points" ≫= float_of_str = Ok s ->
  getitem defaults "partial_tp1_points" ≫= float_of_str = Ok t1 ->
  getitem defaults "partial_tp2_points" ≫= float_of_str = Ok t2 ->
  getitem defaults "partial_tp3_points" ≫= float_of_str = Ok t3 ->
  exists lvls,
    plan_levels dpp defaults direction entry total md = Ok lvls /\
    map level_shape lvls =
    [ ("stop", 1, total / 3 + (if 0 <? total mod 3 then 1 else 0));
      ("tp", 1, total / 3 + (if 0 <? total mod 3 then 1 else 0));
      ("stop", 2, total / 3 + (if 1 <? total mod 3 then 1 else 0));
      ("tp", 2, total / 3 + (if 1 <? total mod 3 then 1 else 0));
      ("stop", 3, total / 3);
      ("tp", 3, total / 3) ].
Proof.
  intros Hmd Hs H1 H2 H3. unfold plan_levels.
  apply String.eqb_neq in Hmd. rewrite Hmd.
  rewrite Hs, H1, H2, H3. simpl. rewrite split_qty_spec. simpl.
  eexists. split; reflexivity.
Qed.

Lemma plan_levels_partials_inv dpp defaults direction entry total md lvls :
  md <> "full" ->
  plan_levels dpp defaults direction entry total md = Ok lvls ->
  exists s t1 t2 t3,
    getitem defaults "partial_stop_points" ≫= float_of_str = Ok s /\
    getitem defaults "partial_tp1_points" ≫= float_of_str = Ok t1 /\
    getitem defaults "partial_tp2_points" ≫= float_of_str = Ok t2 /\
    getitem defaults "partial_tp3_points" ≫= float_of_str = Ok t3.
Proof.
  intros Hmd. unfold plan_levels.
  apply String.eqb_neq in Hmd. rewrite Hmd.
  destruct (getitem defaults "partial_stop_points" ≫= float_of_str); [|discriminate].
  destruct (getitem defaults "partial_tp1_points" ≫= float_of_str); [|discriminate].
  destruct (getitem defaults "partial_tp2_points" ≫= float_of_str); [|discriminate].
  destruct (getitem defaults "partial_tp3_points" ≫= float_of_str); [|discriminate].
  intros _. eauto 10.
Qed.

(** C6.  For a total quantity that is not negative, the plan of partials
    mode splits it into three quantities that sum to the total and differ
    pairwise by at most 1; each of the first [total mod 3] portions gets
    one unit more than [total // 3].  The six levels of the plan, a stop
    and a take-profit for each of the portions 1 to 3, carry these
    quantities; and the plan is returned whenever the instrument
    configuration is readable and the four distances of partials mode
    are numbers. *)
Theorem partials_plan_splits_quantity config direction inst entry total md :
  0 <= total -> md <> "full" ->
  exists q1 q2 q3,
    split_qty total = Ok [q1; q2; q3] /\
    q1 + q2 + q3 = total /\
    Z.abs (q1 - q2) <= 1 /\ Z.abs (q1 - q3) <= 1 /\ Z.abs (q2 - q3) <= 1 /\
    q1 = total / 3 + (if 0 <? total mod 3 then 1 else 0) /\
    q2 = total / 3 + (if 1 <? total mod 3 then 1 else 0) /\
    q3 = total / 3 /\
    (forall lvls,
        compute_live_trade_plan config direction inst entry total md = Ok lvls ->
        map level_shape lvls =
        [ ("stop", 1, q1); ("tp", 1, q1); ("stop", 2, q2); ("tp", 2, q2);
          ("stop", 3, q3); ("tp", 3, q3) ]) /\
    (forall dpp s t1 t2 t3,
        instrument_dpp config inst = Ok dpp ->
        py_float (trade_default config "partial_stop_points" "20") = Some s ->
        py_float (trade_default config "partial_tp1_points" "5") = Some t1 ->
        py_float (trade_default config "partial_tp2_points" "10") = Some t2 ->
        py_float (trade_default config "partial_tp3_points" "20") = Some t3 ->
        exists lvls,
          compute_live_trade_plan config direction inst entry total md = Ok lvls).
Proof.
  intros Hpos Hmd.
  exists (total / 3 + (if 0 <? total mod 3 then 1 else 0)),
         (total / 3 + (if 1 <? total mod 3 then 1 else 0)),
         (total / 3).
  split; [apply split_qty_spec|].
  assert (Hr : total mod 3 = 0 \/ total mod 3 = 1 \/ total mod 3 = 2)
    by (pose proof (Z.mod_pos_bound total 3); lia).
  pose proof (Z.div_mod total 3) as Hdm.
  split; [destruct Hr as [Hr | [Hr | Hr]]; rewrite Hr in *; simpl; lia|].
  split; [destruct Hr as [Hr | [Hr | Hr]]; rewrite Hr; simpl; lia|].
  split; [destruct Hr as [Hr | [Hr | Hr]]; rewrite Hr; simpl; lia|].
  split; [destruct Hr as [Hr | [Hr | Hr]]; rewrite Hr; simpl; lia|].
  do 3 (split; [reflexivity|]).
  split.
  - intros lvls. unfold compute_live_trade_plan.
    destruct (instrument_dpp config inst) as [dpp|]; [|discriminate]. simpl.
    intros Hplan.
    destruct (plan_levels_partials_inv _ _ _ _ _ _ _ Hmd Hplan)
      as (s & t1 & t2 & t3 & Hs & H1 & H2 & H3).
    destruct (partials_levels dpp _ direction entry total md _ _ _ _ Hmd Hs H1 H2 H3)
      as (lvls' & Hplan' & Hshape).
    congruence.
  - intros dpp s t1 t2 t3 Hdpp Hs H1 H2 H3.
    unfold compute_live_trade_plan. rewrite Hdpp. simpl.
    destruct (partials_levels dpp (get_trade_defaults config) direction entry total md
                s t1 t2 t3 Hmd) as (lvls & Hplan & _).
    + rewrite (get_trade_defaults_lookup config _ "20") by (simpl; tauto).
      simpl. unfold float_of_str. rewrite Hs. reflexivity.
    + rewrite (get_trade_defaults_lookup config _ "5") by (simpl; tauto).
      simpl. unfold float_of_str. rewrite H1. reflexivity.
    + rewrite (get_trade_defaults_lookup config _ "10") by (simpl; tauto).
      simpl. unfold float_of_str. rewrite H2. reflexivity.
    + rewrite (get_trade_defaults_lookup config _ "20") by (simpl; tauto).
      simpl. unfold float_of_str. rewrite H3. reflexivity.
    + eauto.
Qed.
End PlanFacts.

Section RiskFacts.
Context {B : PyBuiltins}.

Lemma portion_levels_fold (lvs : list Level) (m : gmap (string * Z) Level) ty p :
  fold_left (fun m lv => <[(level_type lv, portion lv) := lv]> m) lvs m !! (ty, p) =
  match level_of ty lvs p with
  | Some lv => Some lv
  | None => m !! (ty, p)
  end.
Proof.
  unfold level_of. revert m. induction lvs as [|lv lvs IH]; intros m; simpl.
  - reflexivity.
  - rewrite IH. rewrite filter_cons. case_decide as Hk.
    + destruct Hk as [<- <-]. rewrite last_cons.
      destruct (last _); [reflexivity|]. apply lookup_insert_eq.
    + destruct (last _); [reflexivity|]. apply lookup_insert_ne.
      intros [= H1 H2]. apply Hk. split; assumption.
Qed.

Lemma portion_levels_lookup lvs ty p :
  portion_levels_of lvs !! (ty, p) = level_of ty lvs p.
Proof.
  unfold portion_levels_of. rewrite portion_levels_fold.
  destruct (level_of ty lvs p); [reflexivity | apply lookup_empty].
Qed.

Lemma portion_exited_fold (exs : list Execution) (m : gmap Z Z) p :
  default 0 (fold_left (fun m e =>
                          <[ex_portion e := default 0 (m !! ex_portion e) + ex_qty e]> m)
                       exs m !! p) =
  fold_left Z.add (map ex_qty (filter (fun e => ex_portion e = p) exs))
            (default 0 (m !! p)).
Proof.
  revert m. induction exs as [|e exs IH]; intros m; simpl.
  - reflexivity.
  - rewrite IH. rewrite filter_cons. case_decide as Hk.
    + rewrite Hk. rewrite lookup_insert_eq. reflexivity.
    + rewrite lookup_insert_ne by assumption. reflexivity.
Qed.

Lemma portion_exited_lookup exs p :
  default 0 (portion_exited_of exs !! p) = exited_in exs p.
Proof.
  unfold portion_exited_of, exited_in, sum_Z. rewrite portion_exited_fold.
  f_equal.
  destruct (decide (p = 1)) as [-> | H1]; [reflexivity|].
  destruct (decide (p = 2)) as [-> | H2]; [reflexivity|].
  destruct (decide (p = 3)) as [-> | H3]; [reflexivity|].
  rewrite !lookup_insert_ne by congruence. reflexivity.
Qed.

Lemma portion_step_risk is_long entry dpp exs lvs st p :
  total_stop_risk
    (portion_step is_long entry dpp (portion_exited_of exs) (portion_levels_of lvs) st p) =
  match remaining_in lvs exs p with
  | Some (lv, rem) => nadd (total_stop_risk st) (exit_pnl is_long entry (lv_price lv) rem dpp)
  | None => total_stop_risk st
  end.
Proof.
  unfold portion_step, remaining_in.
  rewrite portion_levels_lookup, portion_exited_lookup.
  destruct (level_of "stop" lvs p) as [lv|]; [|reflexivity].
  destruct (Z.leb_spec (lv_qty lv - exited_in exs p) 0) as [Hle | Hgt];
    destruct (Z.ltb_spec 0 (lv_qty lv - exited_in exs p)) as [Hlt | Hge];
    try lia; reflexivity.
Qed.

Lemma fold_left_omap_nadd {A : Type} (g : A -> option num) (f : PortionsState -> A -> PortionsState) l st :
  (forall st a, total_stop_risk (f st a) =
                match g a with
                | Some x => nadd (total_stop_risk st) x
                | None => total_stop_risk st
                end) ->
  total_stop_risk (fold_left f l st) = fold_left nadd (omap g l) (total_stop_risk st).
Proof.
  intros Hf. revert st. induction l as [|a l IH]; intros st; simpl.
  - reflexivity.
  - rewrite IH, Hf. destruct (g a); reflexivity.
Qed.

Lemma portions_loop_risk is_long entry dpp exs lvs :
  total_stop_risk (portions_loop is_long entry dpp exs lvs) =
  sum_num (remaining_stop_pnls is_long entry dpp lvs exs).
Proof.
  unfold portions_loop, remaining_stop_pnls, sum_num.
  rewrite (fold_left_omap_nadd
             (fun p => match remaining_in lvs exs p with
                       | Some (lv, rem) => Some (exit_pnl is_long entry (lv_price lv) rem dpp)
                       | None => None
                       end)).
  - reflexivity.
  - intros st p. rewrite portion_step_risk.
    destruct (remaining_in lvs exs p) as [[lv rem]|]; reflexivity.
Qed.

(** C2.  For a live trade with remaining quantity, in partials mode the
    worst-case P&L is the sum, over the portions that still have quantity,
    of the signed stop P&L of that quantity, plus the realized P&L; in full
    mode it is the signed stop P&L of the whole remaining quantity at the
    stop level, plus the realized P&L.  In both modes the risk is the
    absolute value of the worst case when the worst case is negative, and
    0 otherwise.  The snapshot holds both rounded to 2 decimals, as
    [net_stop_exposure] and [current_risk].  A trade in full mode that has
    no stop level gets 0 for both. *)
Theorem worst_case_and_current_risk config live_trade dpp :
  instrument_dpp config (instrument live_trade) = Ok dpp ->
  exited_total live_trade < total_qty live_trade ->
  exists snap,
    recalculate_live_trade config live_trade = Ok snap /\
    (mode live_trade = "partials" ->
     snap !! "net_stop_exposure" =
       Some (VNum (round (worst_case_partials dpp live_trade) 2)) /\
     snap !! "current_risk" =
       Some (VNum (round (if nltb (worst_case_partials dpp live_trade) (of_int 0)
                          then nabs (worst_case_partials dpp live_trade)
                          else of_int 0) 2))) /\
    (mode live_trade <> "partials" ->
     forall stop_lv,
       first_level "stop" (levels live_trade) = Some stop_lv ->
       snap !! "net_stop_exposure" =
         Some (VNum (round (worst_case_full dpp live_trade stop_lv) 2)) /\
       snap !! "current_risk" =
         Some (VNum (round (if nltb (worst_case_full dpp live_trade stop_lv) (of_int 0)
                            then nabs (worst_case_full dpp live_trade stop_lv)
                            else of_int 0) 2))) /\
    (mode live_trade <> "partials" ->
     first_level "stop" (levels live_trade) = None ->
     snap !! "net_stop_exposure" = Some (VNum (of_int 0)) /\
     snap !! "current_risk" = Some (VNum (of_int 0))).
Proof.
  intros Hdpp Hrem. unfold recalculate_live_trade. rewrite Hdpp. simpl.
  unfold risk_snapshot. fold (exited_total live_trade).
  fold (realized_total live_trade). fold (is_long_trade live_trade).
  destruct (Z.leb_spec (total_qty live_trade - exited_total live_trade) 0) as [Hle | Hgt];
    [lia|].
  destruct (String.eqb_spec (mode live_trade) "partials") as [Hm | Hm]; simpl.
  - eexists. split; [reflexivity|]. split; [|split; congruence].
    intros _. unfold partials_outcome. simpl.
    rewrite portions_loop_risk. fold (worst_case_partials dpp live_trade).
    split; reflexivity.
  - unfold full_outcome.
    assert (Hpos : (0 <? total_qty live_trade - exited_total live_trade) = true)
      by (apply Z.ltb_lt; lia).
    rewrite Hpos.
    destruct (first_level "stop" (levels live_trade)) as [lv|]; simpl;
      (eexists; split; [reflexivity|]; split; [congruence|]).
    + split; [|intros _ [=]].
      intros _ stop_lv [= <-]. fold (worst_case_full dpp live_trade lv).
      split; reflexivity.
    + split; [intros _ stop_lv [=]|].
      intros _ _. split; [reflexivity|].
      change (Some (VNum (round (of_int 0) 2)) = Some (VNum (of_int 0))).
      unfold of_int, round. do 3 f_equal. apply Qc_is_canon. reflexivity.
Qed.
End RiskFacts.

(** ** Live trades: examples *)

(** An instrument that is not configured, under a table that overrides the
    dollars per point of MES. *)
Lemma absent_instrument_witness :
  compute_execution_pnl (B := example_builtins) {["inst_MES_dpp" := "7"]}
    "Long" "NQ" (of_int 100) (of_int 110) 1 =
  Ok (execution_pnl (of_int 5) "Long" (of_int 100) (of_int 110) 1).
Proof.
  eapply (absent_instrument_falls_back_to_MES (B := example_builtins)
            {["inst_MES_dpp" := "7"]} "NQ").
  - discriminate.
  - discriminate.
  - vm_compute. reflexivity.
Defined.

(** C4, as stated, fails: the same live trade gets a risk of 100 dollars
    under an empty [app_config] and of 1000 dollars once the row
    [inst_MES_dpp] holds 50. *)
Lemma recalculation_reads_app_config :
  (snap ← recalculate_live_trade (B := example_builtins) ∅ open_trade;
   Ok (snap !! "current_risk")) = Ok (Some (VNum (of_int 100))) /\
  (snap ← recalculate_live_trade (B := example_builtins)
            {["inst_MES_dpp" := "50"]} open_trade;
   Ok (snap !! "current_risk")) = Ok (Some (VNum (of_int 1000))).
Proof. split; canon_refl. Qed.

(** Two tables that differ in a row that is not an instrument row. *)
Lemma recalculation_witness :
  recalculate_live_trade (B := example_builtins) ∅ open_trade =
  recalculate_live_trade (B := example_builtins)
    {["td_full_stop_points" := "30"]} open_trade.
Proof.
  apply (recalculation_depends_on_instrument_rows (B := example_builtins)).
  unfold instrument_keys. repeat constructor.
Defined.

(** A trade whose only unit is exited. *)
Lemma remaining_qty_witness :
  exists snap r,
    recalculate_live_trade (B := example_builtins) ∅ exited_trade = Ok snap /\
    snap !! "remaining_qty" = Some (VInt r) /\
    0 <= r /\
    (total_qty exited_trade <= exited_total exited_trade -> r = 0) /\
    snap !! "is_closed" =
      Some (VBool (bool_decide (total_qty exited_trade <= exited_total exited_trade))).
Proof.
  apply (remaining_qty_is_never_negative (B := example_builtins) ∅ exited_trade (of_int 5)).
  reflexivity.
Defined.

(** C3, at the failing input.  The snapshot of a trade whose only unit is
    exited is closed, with a remaining quantity of 0, and has no field
    [net_stop_exposure]. *)
Theorem exited_trade_snapshot_lacks_net_stop_exposure :
  exists snap,
    recalculate_live_trade (B := example_builtins) ∅ exited_trade = Ok snap /\
    snap !! "remaining_qty" = Some (VInt 0) /\
    snap !! "is_closed" = Some (VBool true) /\
    snap !! "net_stop_exposure" = None.
Proof. eexists. split; [reflexivity|]. repeat split. Qed.

(** A total quantity of 7 under an empty [app_config]. *)
Lemma partials_plan_witness :
  exists q1 q2 q3,
    split_qty 7 = Ok [q1; q2; q3] /\
    q1 + q2 + q3 = 7 /\
    Z.abs (q1 - q2) <= 1 /\ Z.abs (q1 - q3) <= 1 /\ Z.abs (q2 - q3) <= 1 /\
    q1 = 7 / 3 + (if 0 <? 7 mod 3 then 1 else 0) /\
    q2 = 7 / 3 + (if 1 <? 7 mod 3 then 1 else 0) /\
    q3 = 7 / 3 /\
    (forall lvls,
        compute_live_trade_plan (B := example_builtins) ∅ "Long" "MES" (of_int 100) 7
          "partials" = Ok lvls ->
        map level_shape lvls =
        [ ("stop", 1, q1); ("tp", 1, q1); ("stop", 2, q2); ("tp", 2, q2);
          ("stop", 3, q3); ("tp", 3, q3) ]) /\
    (forall dpp s t1 t2 t3,
        instrument_dpp (B := example_builtins) ∅ "MES" = Ok dpp ->
        example_float (trade_default ∅ "partial_stop_points" "20") = Some s ->
        example_float (trade_default ∅ "partial_tp1_points" "5") = Some t1 ->
        example_float (trade_default ∅ "partial_tp2_points" "10") = Some t2 ->
        example_float (trade_default ∅ "partial_tp3_points" "20") = Some t3 ->
        exists lvls,
          compute_live_trade_plan (B := example_builtins) ∅ "Long" "MES" (of_int 100) 7
            "partials" = Ok lvls).
Proof.
  apply (partials_plan_splits_quantity (B := example_builtins) ∅ "Long" "MES"
           (of_int 100) 7 "partials").
  - lia.
  - discriminate.
Defined.

(** ** Text: white space *)

Lemma lstrip_from_drop l : forall k, lstrip_from k l = lstrip (drop k l).
Proof.
  induction l as [|a l IH]; intros [|k]; try reflexivity.
  cbn [lstrip_from drop]. apply IH.
Qed.

Lemma lstrip_unfold l :
  lstrip l = match space_width l with
             | O => l
             | S k => lstrip (drop (S k) l)
             end.
Proof.
  destruct l as [|a l]; [reflexivity|].
  unfold lstrip at 1. cbn [lstrip_from].
  destruct (space_width (a :: l)) as [|k]; [reflexivity|].
  cbn [drop]. apply lstrip_from_drop.
Qed.

Lemma split_loop_drop l : forall k cur, split_loop k l cur = split_loop 0 (drop k l) cur.
Proof.
  induction l as [|a l IH]; intros [|k] cur; try reflexivity.
  cbn [split_loop drop]. apply IH.
Qed.

Lemma split_loop_unfold a l cur :
  split_loop 0 (a :: l) cur =
  match space_width (a :: l) with
  | O => split_loop 0 l (a :: cur)
  | S k => flush cur (split_loop 0 (drop k l) [])
  end.
Proof.
  cbn [split_loop]. destruct (space_width (a :: l)) as [|k]; [reflexivity|].
  rewrite split_loop_drop. reflexivity.
Qed.

(** A text splits into no word exactly when stripping it on the left
    leaves nothing. *)
Lemma split_loop_nil n :
  forall l cur, (length l <= n)%nat ->
    (split_loop 0 l cur = [] <-> cur = [] /\ lstrip l = []).
Proof.
  induction n as [|n IH]; intros l cur Hlen.
  - destruct l; [|simpl in Hlen; lia].
    cbn [split_loop]. unfold flush. destruct cur; split; try tauto; try discriminate.
    intros [[=] _].
  - destruct l as [|a l].
    + cbn [split_loop]. unfold flush. destruct cur; split; try tauto; try discriminate.
      intros [[=] _].
    + rewrite split_loop_unfold, (lstrip_unfold (a :: l)).
      destruct (space_width (a :: l)) as [|k].
      * rewrite IH by (simpl in Hlen; lia).
        split; [intros [[=] _] | intros [_ [=]]].
      * cbn [drop].
        assert (Hd : (length (drop k l) <= n)%nat)
          by (rewrite length_drop; simpl in Hlen; lia).
        pose proof (IH (drop k l) [] Hd) as Hrec.
        unfold flush. destruct cur as [|c cur].
        -- rewrite Hrec. tauto.
        -- split; [discriminate | intros [[=] _]].
Qed.

Lemma split_nil s : split s = [] <-> lstrip (list_ascii_of_string s) = [].
Proof.
  unfold split. rewrite (split_loop_nil _ _ [] (Nat.le_refl _)). tauto.
Qed.

(** What stripping on the left leaves starts with no white space. *)
Lemma lstrip_head n :
  forall l, (length l <= n)%nat -> space_width (lstrip l) = 0%nat.
Proof.
  induction n as [|n IH]; intros l Hlen.
  - destruct l; [reflexivity | simpl in Hlen; lia].
  - rewrite lstrip_unfold. destruct (space_width l) as [|k] eqn:E; [exact E|].
    apply IH. rewrite length_drop. destruct l; simpl in *; lia.
Qed.

Lemma space_width_prefix p l :
  p `prefix_of` l -> space_width l = 0%nat -> space_width p = 0%nat.
Proof.
  intros [k ->].
  destruct p as [|a [|b [|c p]]]; cbn [app space_width]; try reflexivity.
  - destruct (space1 a); [|reflexivity].
    destruct k as [|b k]; intros H; exact H.
  - destruct (space1 a); [intros H; exact H|].
    destruct (space2 a b); [intros H; exact H|].
    destruct k; reflexivity.
  - intros H; exact H.
Qed.

Lemma rstrip_prefix l : rstrip l `prefix_of` l.
Proof.
  induction l as [|a l IH]; [reflexivity|].
  cbn [rstrip]. destruct (lstrip (a :: l)); [apply prefix_nil|].
  apply prefix_cons, IH.
Qed.

(** Stripping a text leaves nothing exactly when stripping it on the left
    does. *)
Lemma strip_nil l : lstrip (rstrip (lstrip l)) = [] <-> lstrip l = [].
Proof.
  split.
  - intros H. destruct (lstrip l) as [|a m] eqn:E; [reflexivity|]. exfalso.
    assert (Hw : space_width (a :: m) = 0%nat)
      by (rewrite <- E; apply (lstrip_head (length l)); reflexivity).
    assert (Hl : lstrip (a :: m) = a :: m) by (rewrite lstrip_unfold, Hw; reflexivity).
    cbn [rstrip] in H. rewrite Hl in H.
    rewrite lstrip_unfold in H.
    rewrite (space_width_prefix (a :: rstrip m) (a :: m)) in H;
      [discriminate | apply prefix_cons, rstrip_prefix | exact Hw].
  - intros ->. reflexivity.
Qed.

Lemma split_strip_nil s :
  split (strip s) = [] <-> lstrip (list_ascii_of_string s) = [].
Proof.
  rewrite split_nil. unfold strip. rewrite list_ascii_of_string_of_list_ascii.
  apply strip_nil.
Qed.

(** A white-space character in front of a text is stripped. *)
Lemma lstrip_white_space c rest :
  c ∈ WHITE_SPACE -> lstrip (utf8_char c ++ rest) = lstrip rest.
Proof.
  intros Hc. unfold WHITE_SPACE in Hc.
  repeat (apply elem_of_cons in Hc as [-> | Hc]; [reflexivity|]).
  apply elem_of_nil in Hc. destruct Hc.
Qed.

Lemma ascii_of_code a n : N_of_ascii a = n -> a = ascii_of_N n.
Proof. intros <-. symmetry. apply ascii_N_embedding. Qed.

(** The bytes that [space_width] counts are those of a white-space
    character. *)
Lemma space_width_char l k :
  space_width l = S k ->
  exists c, c ∈ WHITE_SPACE /\ l = utf8_char c ++ drop (S k) l.
Proof.
  assert (Hin : forall c : N, bool_decide (c ∈ WHITE_SPACE) = true -> c ∈ WHITE_SPACE)
    by (intros c; apply bool_decide_eq_true_1).
  destruct l as [|a l1]; [discriminate|]. cbn [space_width].
  destruct (space1 a) eqn:E1.
  { intros [= <-]. unfold space1 in E1.
    exists (N_of_ascii a). split.
    - apply orb_true_iff in E1 as [E1 | E1]; apply andb_true_iff in E1 as [Hlo Hhi];
        apply N.leb_le in Hlo, Hhi; set (x := N_of_ascii a) in *; clearbody x;
        assert (Hx : (x = 9 \/ x = 10 \/ x = 11 \/ x = 12 \/ x = 13 \/
                      x = 28 \/ x = 29 \/ x = 30 \/ x = 31 \/ x = 32)%N) by lia;
        repeat (destruct Hx as [-> | Hx]; [apply Hin; reflexivity|]);
        subst x; apply Hin; reflexivity.
    - assert (Hlt : (N_of_ascii a <? 0x80)%N = true).
      { apply N.ltb_lt.
        apply orb_true_iff in E1 as [E1 | E1]; apply andb_true_iff in E1 as [_ Hhi];
          apply N.leb_le in Hhi; lia. }
      unfold utf8_char. rewrite Hlt, ascii_N_embedding. reflexivity. }
  destruct l1 as [|b l2]; [discriminate|].
  destruct (space2 a b) eqn:E2.
  { intros [= <-]. unfold space2 in E2.
    apply andb_true_iff in E2 as [Ha Hb]. apply N.eqb_eq, ascii_of_code in Ha. subst a.
    apply orb_true_iff in Hb as [Hb | Hb]; apply N.eqb_eq, ascii_of_code in Hb; subst b.
    - exists 0x85%N. split; [apply Hin; reflexivity | reflexivity].
    - exists 0xA0%N. split; [apply Hin; reflexivity | reflexivity]. }
  destruct l2 as [|c l3]; [discriminate|].
  destruct (space3 a b c) eqn:E3; [|discriminate].
  intros [= <-]. unfold space3 in E3.
  repeat (apply orb_true_iff in E3 as [E3 | E3]);
    repeat match goal with
           | H : _ && _ = true |- _ => apply andb_true_iff in H as [? ?]
           | H : _ || _ = true |- _ => apply orb_true_iff in H as [? | ?]
           | H : (N_of_ascii ?a =? _)%N = true |- _ =>
               apply N.eqb_eq, ascii_of_code in H; subst a
           end.
  - exists 0x1680%N. split; [apply Hin; reflexivity | reflexivity].
  - match goal with
    | Hlo : (_ <=? N_of_ascii c)%N = true, Hhi : (N_of_ascii c <=? _)%N = true |- _ =>
        apply N.leb_le in Hlo, Hhi;
        assert (Hz : exists z, N_of_ascii c = z /\
                   (z = 128 \/ z = 129 \/ z = 130 \/ z = 131 \/ z = 132 \/ z = 133 \/
                    z = 134 \/ z = 135 \/ z = 136 \/ z = 137 \/ z = 138)%N)
          by (exists (N_of_ascii c); split; [reflexivity | lia])
    end.
    destruct Hz as (z & Hc & Hz). apply ascii_of_code in Hc. subst c.
    exists (0x2000 + (z - 128))%N.
    repeat (destruct Hz as [Hz' | Hz];
            [subst z; split; [apply Hin; reflexivity | reflexivity]|]).
    subst z. split; [apply Hin; reflexivity | reflexivity].
  - exists 0x2028%N. split; [apply Hin; reflexivity | reflexivity].
  - exists 0x2029%N. split; [apply Hin; reflexivity | reflexivity].
  - exists 0x202F%N. split; [apply Hin; reflexivity | reflexivity].
  - exists 0x205F%N. split; [apply Hin; reflexivity | reflexivity].
  - exists 0x3000%N. split; [apply Hin; reflexivity | reflexivity].
Qed.

(** Stripping on the left leaves nothing of a text that is white space,
    and of no other. *)
Lemma lstrip_nil_blank n :
  forall l, (length l <= n)%nat -> lstrip l = [] ->
    exists cs, Forall (fun c => c ∈ WHITE_SPACE) cs /\ l = flat_map utf8_char cs.
Proof.
  induction n as [|n IH]; intros l Hlen Hl.
  - destruct l; [|simpl in Hlen; lia]. exists []. split; [constructor | reflexivity].
  - destruct l as [|a l']; [exists []; split; [constructor | reflexivity]|].
    rewrite lstrip_unfold in Hl.
    destruct (space_width (a :: l')) as [|k] eqn:E; [discriminate|].
    destruct (space_width_char _ _ E) as (c & Hc & Heq).
    destruct (IH (drop (S k) (a :: l'))) as (cs & Hcs & Hrest).
    { rewrite length_drop. simpl in *. lia. }
    { exact Hl. }
    exists (c :: cs). split; [constructor; assumption|].
    cbn [flat_map]. rewrite <- Hrest. exact Heq.
Qed.

Lemma blank_lstrip s : blank s <-> lstrip (list_ascii_of_string s) = [].
Proof.
  split.
  - intros (cs & Hcs & ->). unfold utf8. rewrite list_ascii_of_string_of_list_ascii.
    induction Hcs as [|c cs Hc Hcs IH]; [reflexivity|].
    cbn [flat_map]. rewrite lstrip_white_space by exact Hc. exact IH.
  - intros H. destruct (lstrip_nil_blank _ _ (Nat.le_refl _) H) as (cs & Hcs & Heq).
    exists cs. split; [exact Hcs|].
    unfold utf8. rewrite <- Heq. symmetry. apply string_of_list_ascii_of_string.
Qed.

(** A text has no word exactly when it is blank. *)
Lemma split_strip_blank s : split (strip s) = [] <-> blank s.
Proof. rewrite blank_lstrip. apply split_strip_nil. Qed.

(** ** The upload parser *)

Section ParserFacts.
Context {B : PyBuiltins} {R : FileReaders}.

(** On a regular row that has a fill time and a side, the dict display
    either gives the fill of the row or raises an exception that the loop
    catches. *)
Lemma fill_of_row_regular r :
  row_regular r ->
  cell_truthy (r !! "Fill Time") && cell_truthy (r !! "B/S") = true ->
  match fill_of_row r with
  | Ok f => row_fill r = Some f
  | Raise e => caught e = true /\ row_fill r = None
  end.
Proof.
  intros (Hq & Hp & Hd) Ht. unfold row_fill, fill_of_row, getitem. rewrite Ht.
  destruct (r !! "B/S") as [s|]; simpl; [|split; reflexivity].
  destruct (r !! "filledQty") as [vq|] eqn:Evq; simpl; [|split; reflexivity].
  unfold float_of_str.
  destruct (py_float (str vq)) as [x|] eqn:Ex; simpl; [|split; reflexivity].
  destruct (Hq vq eq_refl) as [Hp1 Hp2].
  destruct x as [q| | |]; simpl; [| congruence | congruence | split; reflexivity].
  destruct (r !! "avgPrice") as [vp|] eqn:Evp; simpl; [|split; reflexivity].
  assert (Hprice : match float_of_cell vp with
                   | Ok p => price_of vp = Some p
                   | Raise e => caught e = true /\ price_of vp = None
                   end).
  { destruct vp as [|sp|z|x|b|tr tx]; simpl; try (split; reflexivity); try reflexivity.
    - unfold float_of_str. destruct (py_float sp); [reflexivity | split; reflexivity].
    - rewrite float_of_int_in_range by (apply Hp; reflexivity). reflexivity. }
  destruct (float_of_cell vp) as [p|e]; simpl;
    [rewrite Hprice | destruct Hprice as [-> ->]; split; reflexivity].
  simpl.
  destruct (r !! "Fill Time") as [t|]; simpl; [|split; reflexivity].
  destruct (r !! "Date") as [vd|] eqn:Evd; simpl; [|split; reflexivity].
  unfold _parse_date, nth_item.
  specialize (Hd vd eq_refl). rewrite <- split_strip_blank in Hd.
  destruct (split (strip (str vd))) as [|tok toks]; [congruence|]. simpl.
  repeat match goal with
         | |- context [strptime_strftime ?a ?b ?c] =>
             destruct (strptime_strftime a b c); simpl
         end;
    reflexivity.
Qed.

Lemma fills_of_rows_regular rows :
  Forall row_regular rows ->
  forall acc, fills_of_rows rows acc = Ok (acc ++ omap row_fill rows).
Proof.
  induction 1 as [|r rows Hr Hrows IH]; intros acc; simpl.
  - rewrite app_nil_r. reflexivity.
  - destruct (cell_truthy (r !! "Fill Time") && cell_truthy (r !! "B/S")) eqn:Hp.
    + apply andb_true_iff in Hp as Hp'. destruct Hp' as [-> ->]. simpl.
      pose proof (fill_of_row_regular r Hr Hp) as Hf.
      destruct (fill_of_row r) as [f | e].
      * rewrite Hf, IH, <- app_assoc. reflexivity.
      * destruct Hf as [-> ->]. apply IH.
    + assert (Hnone : row_fill r = None) by (unfold row_fill; rewrite Hp; reflexivity).
      rewrite Hnone.
      apply andb_false_iff in Hp as [-> | ->]; simpl; [|rewrite orb_true_r]; apply IH.
Qed.

Lemma required_columns_subseteq (r0 : gmap string cell) :
  bool_decide (REQUIRED_COLUMNS ∖ dom r0 = ∅) = bool_decide (REQUIRED_COLUMNS ⊆ dom r0).
Proof.
  apply bool_decide_ext. split.
  - apply empty_difference_subseteq_L.
  - apply subseteq_empty_difference_L.
Qed.

(** What reading the rows raises is [ValueError] for a file that cannot be
    read, and the exception of the library otherwise. *)
Lemma read_rows_raises HAS_OPENPYXL filename file_bytes e :
  read_rows HAS_OPENPYXL filename file_bytes = Raise e ->
  if file_readable HAS_OPENPYXL filename
  then csv_rows file_bytes = Raise e \/ xlsx_sheet file_bytes = Raise e
  else e = ValueError.
Proof.
  unfold read_rows, file_readable.
  destruct (String.eqb (lower (after_last_dot filename)) "csv"); cbn [orb].
  - destruct (csv_rows file_bytes); [discriminate | intros [= <-]; left; reflexivity].
  - destruct (String.eqb (lower (after_last_dot filename)) "xlsx"
              || String.eqb (lower (after_last_dot filename)) "xls"); cbn [andb].
    + destruct HAS_OPENPYXL; cbn [negb].
      * destruct (xlsx_sheet file_bytes); [discriminate | intros [= <-]; right; reflexivity].
      * intros [= <-]. reflexivity.
    + intros [= <-]. reflexivity.
Qed.

Lemma read_rows_readable HAS_OPENPYXL filename file_bytes table :
  read_rows HAS_OPENPYXL filename file_bytes = Ok table ->
  file_readable HAS_OPENPYXL filename = true.
Proof.
  unfold read_rows, file_readable.
  destruct (String.eqb (lower (after_last_dot filename)) "csv"); cbn [orb];
    [reflexivity|].
  destruct (String.eqb (lower (after_last_dot filename)) "xlsx"
            || String.eqb (lower (after_last_dot filename)) "xls"); cbn [andb];
    [|discriminate].
  destruct HAS_OPENPYXL; [reflexivity | discriminate].
Qed.

(** C8, amended.  [parse_uploaded_file] raises [ValueError] when the
    extension is not supported and when the file is an Excel file and
    openpyxl is not installed.  Otherwise the library reads the file, and
    an exception that it raises escapes as it is.  When it gives the rows,
    and these have no infinite quantity, no price that is an [int] beyond
    the range of [float] and no blank date, [parse_uploaded_file] raises
    [ValueError] when there is no row, when a required column is missing
    from the first row, or when no row gives a fill; otherwise it returns
    the fills of the rows that give one, in order.  A row gives a fill when
    it has a fill time and a side and its quantity and price convert; a
    time or a date that does not parse is kept as text, it does not make
    the row skipped. *)
Theorem parse_uploaded_file_outcome HAS_OPENPYXL filename file_bytes :
  (file_readable HAS_OPENPYXL filename = false ->
   parse_uploaded_file HAS_OPENPYXL filename file_bytes = Raise ValueError) /\
  (forall e,
     file_readable HAS_OPENPYXL filename = true ->
     read_rows HAS_OPENPYXL filename file_bytes = Raise e ->
     parse_uploaded_file HAS_OPENPYXL filename file_bytes = Raise e /\
     (csv_rows file_bytes = Raise e \/ xlsx_sheet file_bytes = Raise e)) /\
  (forall table,
     read_rows HAS_OPENPYXL filename file_bytes = Ok table ->
     Forall row_regular table ->
     parse_uploaded_file HAS_OPENPYXL filename file_bytes =
     if columns_present table then
       match omap row_fill table with
       | [] => Raise ValueError
       | f :: fs => Ok (f :: fs)
       end
     else Raise ValueError).
Proof.
  split; [|split].
  - intros Hno. unfold parse_uploaded_file.
    destruct (read_rows HAS_OPENPYXL filename file_bytes) as [table|e] eqn:E.
    + apply read_rows_readable in E. congruence.
    + apply read_rows_raises in E. rewrite Hno in E. subst e. reflexivity.
  - intros e Hyes E. split.
    + unfold parse_uploaded_file. rewrite E. reflexivity.
    + apply read_rows_raises in E. rewrite Hyes in E. exact E.
  - intros table E Hreg. unfold parse_uploaded_file, columns_present.
    rewrite E. cbn [mbind result_bind].
    rewrite (fills_of_rows_regular table Hreg), app_nil_l.
    generalize (omap row_fill table). intros fills.
    destruct table as [|r0 table']; [reflexivity|].
    rewrite required_columns_subseteq.
    destruct (bool_decide (REQUIRED_COLUMNS ⊆ dom r0)); [|reflexivity].
    destruct fills; reflexivity.
Qed.
End ParserFacts.

(** C8, as stated, fails: a row with a blank date makes [IndexError]
    escape, a row whose time and date do not parse is kept, with the text
    of the row, not skipped, and the exception of the reader escapes. *)
Lemma parse_uploaded_file_escape_and_keep :
  parse_uploaded_file (B := example_builtins) (R := csv_file [good_row; blank_date_row])
    true "fills.csv" some_bytes = Raise IndexError /\
  parse_uploaded_file (B := example_builtins) (R := csv_file [odd_text_row])
    true "fills.csv" some_bytes =
    Ok [ {| side := "Sell"; qty := 1; price := of_int 105; time := "soon";
            date := "n/a" |} ] /\
  parse_uploaded_file (B := example_builtins) (R := csv_field_too_long)
    true "fills.csv" some_bytes = Raise (OtherError "csv.Error").
Proof. repeat split; vm_compute; reflexivity. Qed.

(** A date that is a no-break space is blank too. *)
Lemma no_break_space_date_escapes :
  blank no_break_space /\
  parse_uploaded_file (B := example_builtins)
    (R := csv_file [good_row; no_break_date_row])
    true "fills.csv" some_bytes = Raise IndexError.
Proof.
  split; [|vm_compute; reflexivity].
  exists [0xA0%N]. split; [|reflexivity].
  constructor; [|constructor].
  apply (bool_decide_eq_true_1 (0xA0%N ∈ WHITE_SPACE)). reflexivity.
Qed.

(** A CSV upload of two rows, the second one without a side. *)
Lemma parse_uploaded_file_witness :
  read_rows (B := example_builtins) (R := csv_file two_row_upload)
    true "fills.csv" some_bytes = Ok (map row_of_csv two_row_upload) /\
  Forall (row_regular (B := example_builtins)) (map row_of_csv two_row_upload) /\
  parse_uploaded_file (B := example_builtins) (R := csv_file two_row_upload)
    true "fills.csv" some_bytes =
  if columns_present (map row_of_csv two_row_upload) then
    match omap (row_fill (B := example_builtins)) (map row_of_csv two_row_upload) with
    | [] => Raise ValueError
    | f :: fs => Ok (f :: fs)
    end
  else Raise ValueError.
Proof.
  assert (Hread : read_rows (B := example_builtins) (R := csv_file two_row_upload)
                    true "fills.csv" some_bytes = Ok (map row_of_csv two_row_upload))
    by reflexivity.
  assert (Hreg : Forall (row_regular (B := example_builtins))
                   (map row_of_csv two_row_upload)).
  { constructor; [|constructor; [|constructor]];
      (split; [|split]);
      try (intros v Hv; vm_compute in Hv; injection Hv as <-);
      try (intros z Hz; vm_compute in Hz; discriminate Hz);
      try (split; vm_compute; discriminate);
      rewrite blank_lstrip; vm_compute; discriminate. }
  split; [exact Hread|]. split; [exact Hreg|].
  exact (proj2 (proj2 (parse_uploaded_file_outcome (B := example_builtins)
                         (R := csv_file two_row_upload)
                         true "fills.csv" some_bytes)) _ Hread Hreg).
Defined.

(** ** Live trades: the fields of the snapshot *)

(** The part of C3 that holds of the code: the snapshot has every field of
    spec section 4.5 except, for a trade that is fully exited,
    [net_stop_exposure]; such a trade has zero risk and reward and is
    closed. *)
Theorem snapshot_fields_present dpp live_trade snap :
  risk_snapshot dpp live_trade = Ok snap ->
  Forall (fun k => k = "net_stop_exposure" \/ is_Some (snap !! k)) snapshot_fields /\
  (is_Some (snap !! "net_stop_exposure") <->
   exited_total live_trade < total_qty live_trade) /\
  (total_qty live_trade <= exited_total live_trade ->
   snap !! "current_risk" = Some (VNum (of_int 0)) /\
   snap !! "potential_reward" = Some (VNum (of_int 0)) /\
   snap !! "is_closed" = Some (VBool true)).
Proof.
  unfold risk_snapshot. fold (exited_total live_trade).
  destruct (Z.leb_spec (total_qty live_trade - exited_total live_trade) 0) as [Hle | Hgt].
  - intros [= <-]. split; [|split].
    + unfold snapshot_fields.
      repeat (constructor; [first [left; reflexivity | right; eexists; reflexivity]|]).
      constructor.
    + split; [intros [v Hv]; discriminate Hv | lia].
    + intros _. repeat split.
  - destruct (if String.eqb (mode live_trade) "partials" then _ else _) as [o|];
      simpl; [|discriminate].
    intros [= <-]. split; [|split].
    + unfold snapshot_fields.
      repeat (constructor; [right; eexists; reflexivity|]).
      constructor.
    + split; [lia | intros _; eexists; reflexivity].
    + lia.
Qed.

(** The snapshot of the trade whose only unit is exited. *)
Lemma snapshot_fields_witness :
  exists snap,
    risk_snapshot (of_int 5) exited_trade = Ok snap /\
    Forall (fun k => k = "net_stop_exposure" \/ is_Some (snap !! k)) snapshot_fields /\
    ~ is_Some (snap !! "net_stop_exposure").
Proof.
  eexists. split; [reflexivity|].
  destruct (snapshot_fields_present (of_int 5) exited_trade _ eq_refl) as (Hall & Hnet & _).
  split; [exact Hall|].
  intros Hsome. apply Hnet in Hsome. vm_compute in Hsome. discriminate Hsome.
Defined.

(** The trade in partials mode whose first portion is exited. *)
Lemma worst_case_witness :
  exists snap,
    recalculate_live_trade (B := example_builtins) ∅ partials_trade = Ok snap /\
    snap !! "net_stop_exposure" =
      Some (VNum (round (worst_case_partials (of_int 5) partials_trade) 2)) /\
    snap !! "current_risk" =
      Some (VNum (round (if nltb (worst_case_partials (of_int 5) partials_trade) (of_int 0)
                         then nabs (worst_case_partials (of_int 5) partials_trade)
                         else of_int 0) 2)).
Proof.
  destruct (worst_case_and_current_risk (B := example_builtins) ∅ partials_trade (of_int 5))
    as (snap & Hsnap & Hpartials & _ & _).
  - reflexivity.
  - vm_compute. reflexivity.
  - exists snap. split; [exact Hsnap|]. apply Hpartials. reflexivity.
Defined.

(** The numbers of the example: two portions of one unit remain with their
    stops 20 points under the entry, and 25 dollars are realized. *)
Lemma partials_trade_snapshot :
  (snap ← recalculate_live_trade (B := example_builtins) ∅ partials_trade;
   Ok (snap !! "net_stop_exposure", snap !! "current_risk", snap !! "potential_reward")) =
  Ok (Some (VNum (of_int (-175))), Some (VNum (of_int 175)), Some (VNum (of_int 150))).
Proof. canon_refl. Qed.

(** The flag [open] of a group of fills of positive quantity is true exactly
    when the side opposite to the first fill has no quantity, and an open
    group does not sum to zero. *)
Theorem open_means_no_opposite_side l n t :
  Forall (fun f => 0 < qty f) l ->
  _compute_stats l n = Ok t ->
  (open t = true <->
   (if bool_decide (side <$> head l = Some "Sell")
    then sum_Z (map qty (buys l)) = 0
    else sum_Z (map qty (sells l)) = 0)) /\
  (open t = true -> signed_sum l <> 0).
Proof. exact (open_flag_spec l n t). Qed.

(** The group of the day that ends one unit long. *)
Lemma open_flag_witness :
  exists t,
    _compute_stats partly_offset_fills 1 = Ok t /\
    (open t = true <->
     (if bool_decide (side <$> head partly_offset_fills = Some "Sell")
      then sum_Z (map qty (buys partly_offset_fills)) = 0
      else sum_Z (map qty (sells partly_offset_fills)) = 0)).
Proof.
  eexists. split; [reflexivity|].
  apply (open_means_no_opposite_side partly_offset_fills 1);
    [repeat constructor | reflexivity].
Defined.

(** ** Live trades: further properties *)

Lemma initial_risk_of_sum entry dpp lvs :
  initial_risk_of entry dpp lvs = sum_num (stop_risks entry dpp lvs).
Proof.
  unfold initial_risk_of, sum_num, stop_risks. generalize (of_int 0).
  induction lvs as [|lv lvs IH]; intros a; simpl; [reflexivity|].
  rewrite IH, filter_cons.
  destruct (String.eqb_spec (level_type lv) "stop") as [Hs | Hs].
  - rewrite decide_True by assumption. reflexivity.
  - rewrite decide_False by assumption. reflexivity.
Qed.

(** The initial risk of the snapshot is the sum over the stop levels of
    |entry - stop price| x quantity x dollars per point, rounded to 2
    decimals: it does not depend on the executions. *)
Theorem initial_risk_is_static dpp live_trade snap :
  risk_snapshot dpp live_trade = Ok snap ->
  snap !! "initial_risk" =
  Some (VNum (round (sum_num (stop_risks (entry_price live_trade) dpp
                                (levels live_trade))) 2)).
Proof.
  unfold risk_snapshot. rewrite initial_risk_of_sum.
  destruct (_ <=? 0).
  - intros [= <-]. reflexivity.
  - destruct (if String.eqb (mode live_trade) "partials" then _ else _) as [o|];
      simpl; [|discriminate].
    intros [= <-]. reflexivity.
Qed.

(** The trade whose only unit is exited keeps its initial risk. *)
Lemma initial_risk_witness :
  exists snap,
    risk_snapshot (of_int 5) exited_trade = Ok snap /\
    snap !! "initial_risk" =
    Some (VNum (round (sum_num (stop_risks (entry_price exited_trade) (of_int 5)
                                  (levels exited_trade))) 2)).
Proof.
  eexists. split; [reflexivity|].
  apply (initial_risk_is_static (of_int 5) exited_trade). reflexivity.
Defined.

(** The scenario of spec section 8 for the plan: a long entry at 100 in full
    mode, the default distances of 20 points, MES at 5 dollars per point and
    a quantity of 2 give a stop at 80 with a risk of 200 dollars and a
    take-profit at 120 with a reward of 200 dollars. *)
Theorem full_plan_scenario {B : PyBuiltins} :
  py_float "20" = Some (of_int 20) ->
  compute_live_trade_plan ∅ "Long" "MES" (of_int 100) 2 "full" =
  Ok [ {| level_type := "stop"; portion := 1; lv_qty := 2; lv_price := of_int 80;
          risk_dollars := of_int 200; reward_dollars := of_int 0 |};
       {| level_type := "tp"; portion := 1; lv_qty := 2; lv_price := of_int 120;
          risk_dollars := of_int 0; reward_dollars := of_int 200 |} ].
Proof.
  intros H20. unfold compute_live_trade_plan.
  change (instrument_dpp ∅ "MES") with (Ok (of_int 5)). simpl.
  unfold plan_levels. simpl.
  rewrite (get_trade_defaults_lookup ∅ "full_stop_points" "20") by (simpl; tauto).
  rewrite (get_trade_defaults_lookup ∅ "full_tp_points" "20") by (simpl; tauto).
  unfold trade_default. rewrite !lookup_empty. simpl.
  unfold float_of_str. rewrite H20. simpl.
  canon_refl.
Qed.

(** The scenario with the builtins of the examples. *)
Lemma full_plan_witness :
  compute_live_trade_plan (B := example_builtins) ∅ "Long" "MES" (of_int 100) 2 "full" =
  Ok [ {| level_type := "stop"; portion := 1; lv_qty := 2; lv_price := of_int 80;
          risk_dollars := of_int 200; reward_dollars := of_int 0 |};
       {| level_type := "tp"; portion := 1; lv_qty := 2; lv_price := of_int 120;
          risk_dollars := of_int 0; reward_dollars := of_int 200 |} ].
Proof.
  apply (full_plan_scenario (B := example_builtins)). reflexivity.
Defined.

(** ** Analytics: streaks *)

Lemma repeat_middle {A : Type} (c : A) n rs :
  repeat c n ++ c :: rs = repeat c (S n) ++ rs.
Proof. induction n as [|n IH]; simpl; [reflexivity|]. f_equal. exact IH. Qed.

Lemma leading_run_repeat c n rs :
  (n <= leading_run c (repeat c n ++ rs))%nat.
Proof.
  induction n as [|n IH]; simpl; [lia|].
  rewrite String.eqb_refl. lia.
Qed.

Lemma leading_run_take c rs :
  rs = repeat c (leading_run c rs) ++ drop (leading_run c rs) rs.
Proof.
  induction rs as [|r rs IH]; simpl; [reflexivity|].
  destruct (String.eqb_spec r c) as [-> | Hne]; simpl; [|reflexivity].
  f_equal. exact IH.
Qed.

Lemma longest_run_ge_leading c rs : (leading_run c rs <= longest_run c rs)%nat.
Proof. destruct rs; simpl; lia. Qed.

Lemma longest_run_app_r c pre rs :
  (longest_run c rs <= longest_run c (pre ++ rs))%nat.
Proof.
  induction pre as [|p pre IH]; simpl; [lia|].
  destruct (String.eqb p c); lia.
Qed.

Lemma has_run_shorter c n m rs : (m <= n)%nat -> has_run c n rs -> has_run c m rs.
Proof.
  intros Hmn (pre & post & ->).
  exists pre, (repeat c (n - m) ++ post).
  f_equal. rewrite app_assoc, <- repeat_app. do 2 f_equal. lia.
Qed.

(** The longest run is a run, and no run is longer. *)
Lemma longest_run_spec c rs n :
  has_run c n rs <-> (n <= longest_run c rs)%nat.
Proof.
  split.
  - intros (pre & post & ->).
    etransitivity; [|apply longest_run_app_r].
    etransitivity; [|apply longest_run_ge_leading].
    apply leading_run_repeat.
  - revert n. induction rs as [|r rs IH]; intros n Hn.
    + simpl in Hn. assert (n = 0%nat) as -> by lia. exists [], []. reflexivity.
    + change (longest_run c (r :: rs))
        with (Nat.max (leading_run c (r :: rs)) (longest_run c rs)) in Hn.
      destruct (Nat.le_gt_cases n (leading_run c (r :: rs))) as [Hle | Hgt].
      * apply (has_run_shorter c (leading_run c (r :: rs))); [exact Hle|].
        exists [], (drop (leading_run c (r :: rs)) (r :: rs)).
        apply leading_run_take.
      * destruct (IH n ltac:(lia)) as (pre & post & ->).
        exists (r :: pre), post. reflexivity.
Qed.

Lemma longest_run_pending c rt n r rs :
  r <> rt ->
  longest_run c (repeat rt n ++ r :: rs) =
  Nat.max (if String.eqb rt c then n else 0%nat) (longest_run c (r :: rs)).
Proof.
  intros Hne. induction n as [|n IH].
  - simpl. destruct (String.eqb rt c); lia.
  - change (repeat rt (S n) ++ r :: rs) with (rt :: (repeat rt n ++ r :: rs)).
    change (longest_run c (rt :: ?l)) with (Nat.max (leading_run c (rt :: l)) (longest_run c l)).
    rewrite IH. simpl leading_run.
    destruct (String.eqb_spec rt c) as [-> | Hrc].
    + assert (Hlead : leading_run c (repeat c n ++ r :: rs) = n).
      { clear IH. induction n as [|n IHn]; simpl.
        - destruct (String.eqb_spec r c); [congruence | reflexivity].
        - rewrite String.eqb_refl, IHn. reflexivity. }
      rewrite Hlead. lia.
    + lia.
Qed.

Lemma longest_run_repeat c rt n :
  longest_run c (repeat rt n) = if String.eqb rt c then n else 0%nat.
Proof.
  induction n as [|n IH].
  - simpl. destruct (String.eqb rt c); reflexivity.
  - change (repeat rt (S n)) with (rt :: repeat rt n).
    change (longest_run c (rt :: ?l)) with (Nat.max (leading_run c (rt :: l)) (longest_run c l)).
    rewrite IH. simpl leading_run.
    destruct (String.eqb_spec rt c) as [-> | Hrc]; [|lia].
    assert (Hlead : leading_run c (repeat c n) = n).
    { clear IH. induction n as [|n IHn]; simpl; [reflexivity|].
      rewrite String.eqb_refl, IHn. reflexivity. }
    rewrite Hlead. lia.
Qed.

(** The loop over the results, from any state: the run in progress counts
    as if its results were still to be read. *)
Lemma run_loop_spec rs :
  forall s n,
    run s = Z.of_nat n -> 0 <= best_win s -> 0 <= worst_loss s ->
    best_win (close_run (fold_left run_step rs s)) =
      Z.max (best_win s) (Z.of_nat (longest_run "W" (repeat (run_type s) n ++ rs))) /\
    worst_loss (close_run (fold_left run_step rs s)) =
      Z.max (worst_loss s) (Z.of_nat (longest_run "L" (repeat (run_type s) n ++ rs))).
Proof.
  induction rs as [|r rs IH]; intros s n Hrun Hb Hw.
  - simpl. rewrite app_nil_r, !longest_run_repeat, Hrun.
    destruct (String.eqb (run_type s) "W"), (String.eqb (run_type s) "L"); split; lia.
  - cbn [fold_left].
    destruct (String.eqb_spec r (run_type s)) as [-> | Hne].
    + replace (run_step s (run_type s))
        with {| best_win := best_win s; worst_loss := worst_loss s;
                run := run s + 1; run_type := run_type s |}
        by (unfold run_step; rewrite String.eqb_refl; reflexivity).
      specialize (IH {| best_win := best_win s; worst_loss := worst_loss s;
                        run := run s + 1; run_type := run_type s |} (S n)).
      cbn [best_win worst_loss run run_type] in IH.
      replace (repeat (run_type s) n ++ run_type s :: rs)
        with (repeat (run_type s) (S n) ++ rs)
        by (symmetry; apply repeat_middle).
      apply IH; [lia | exact Hb | exact Hw].
    + replace (run_step s r)
        with {| best_win := best_win (close_run s);
                worst_loss := worst_loss (close_run s);
                run := 1; run_type := r |}
        by (unfold run_step; destruct (String.eqb_spec r (run_type s));
            [contradiction | reflexivity]).
      assert (Hcb : best_win (close_run s) =
                    if String.eqb (run_type s) "W" then Z.max (best_win s) (run s)
                    else best_win s) by reflexivity.
      assert (Hcw : worst_loss (close_run s) =
                    if String.eqb (run_type s) "L" then Z.max (worst_loss s) (run s)
                    else worst_loss s) by reflexivity.
      specialize (IH {| best_win := best_win (close_run s);
                        worst_loss := worst_loss (close_run s);
                        run := 1; run_type := r |} 1%nat).
      cbn [best_win worst_loss run run_type] in IH.
      rewrite !(longest_run_pending _ _ _ _ _ Hne).
      change (repeat r 1 ++ rs) with (r :: rs) in IH.
      destruct IH as [IHb IHw]; [reflexivity | | |].
      * rewrite Hcb. destruct (String.eqb (run_type s) "W"); lia.
      * rewrite Hcw. destruct (String.eqb (run_type s) "L"); lia.
      * rewrite IHb, IHw, Hcb, Hcw, Hrun.
        destruct (String.eqb (run_type s) "W"), (String.eqb (run_type s) "L"); split; lia.
Qed.

Lemma compute_streaks_longest trades :
  st_best_win (_compute_streaks trades) = Z.of_nat (longest_run "W" (results_of trades)) /\
  st_worst_loss (_compute_streaks trades) = Z.of_nat (longest_run "L" (results_of trades)).
Proof.
  destruct trades as [|t0 trades]; [split; reflexivity|].
  unfold _compute_streaks. cbn [st_best_win st_worst_loss].
  pose proof (run_loop_spec (map outcome_of (t0 :: trades))
                {| best_win := 0; worst_loss := 0; run := 0;
                   run_type := outcome_of t0 |} 0%nat) as H.
  cbn [best_win worst_loss run run_type repeat app] in H.
  destruct H as [Hb Hw]; [reflexivity | lia | lia |].
  rewrite Hb, Hw. unfold results_of. split; lia.
Qed.

(** [best_win] is the length of the longest run of winning trades and
    [worst_loss] the length of the longest run of losing trades: there is
    such a run, and no run is longer. *)
Theorem streaks_are_longest_runs trades :
  exists b w : nat,
    st_best_win (_compute_streaks trades) = Z.of_nat b /\
    st_worst_loss (_compute_streaks trades) = Z.of_nat w /\
    has_run "W" b (results_of trades) /\
    (forall n, has_run "W" n (results_of trades) -> (n <= b)%nat) /\
    has_run "L" w (results_of trades) /\
    (forall n, has_run "L" n (results_of trades) -> (n <= w)%nat).
Proof.
  destruct (compute_streaks_longest trades) as [Hb Hw].
  exists (longest_run "W" (results_of trades)), (longest_run "L" (results_of trades)).
  split; [exact Hb|]. split; [exact Hw|].
  split; [apply longest_run_spec; lia|].
  split; [intros n; apply longest_run_spec|].
  split; [apply longest_run_spec; lia|].
  intros n; apply longest_run_spec.
Qed.

Lemma count_current_spec rs c a :
  count_current rs c a = a + Z.of_nat (leading_run c rs).
Proof.
  revert a. induction rs as [|r rs IH]; intros a; simpl; [lia|].
  destruct (String.eqb r c); [rewrite IH|]; lia.
Qed.

Lemma leading_run_stop c rs : head (drop (leading_run c rs) rs) <> Some c.
Proof.
  induction rs as [|r rs IH]; simpl; [discriminate|].
  destruct (String.eqb_spec r c) as [-> | Hne]; simpl; [exact IH|].
  intros [= H]. contradiction.
Qed.

Lemma rev_repeat {A : Type} (c : A) n : List.rev (repeat c n) = repeat c n.
Proof.
  induction n as [|n IH]; [reflexivity|].
  simpl. rewrite IH. symmetry. apply repeat_cons.
Qed.

Lemma last_rev_head {A : Type} (l : list A) : last (List.rev l) = head l.
Proof.
  destruct l as [|x l]; [reflexivity|].
  simpl. rewrite last_snoc. reflexivity.
Qed.

Lemma last_List_last {A : Type} (l : list A) d x :
  last l = Some x -> List.last l d = x.
Proof.
  induction l as [|y l IH]; [discriminate|].
  destruct l as [|z l]; simpl in *; [congruence|]. apply IH.
Qed.

(** The run that the list ends with. *)
Lemma ends_with_leading_run c rs :
  ends_with_run c (leading_run c (List.rev rs)) rs.
Proof.
  exists (List.rev (drop (leading_run c (List.rev rs)) (List.rev rs))). split.
  - rewrite <- (rev_repeat c (leading_run c (List.rev rs))), <- rev_app_distr.
    rewrite <- leading_run_take, rev_involutive. reflexivity.
  - rewrite last_rev_head. apply leading_run_stop.
Qed.

(** The current streak: [current_type] is the result of the last trade, and
    [current] the number of trades of that result that the list ends with,
    or 0 when the last trade broke even; a current streak of wins is no
    longer than [best_win], and one of losses no longer than [worst_loss].
    [history] is the results of the last 20 trades, or of all of them when
    they are fewer.  Without trades the streak is 0 and has no type. *)
Theorem current_streak_ends_the_results trades :
  let s := _compute_streaks trades in
  st_current_type s = last (results_of trades) /\
  (forall c, last (results_of trades) = Some c ->
     exists k : nat,
       (1 <= k)%nat /\
       ends_with_run c k (results_of trades) /\
       st_current s = (if String.eqb c "B" then 0 else Z.of_nat k) /\
       (c = "W" -> Z.of_nat k <= st_best_win s) /\
       (c = "L" -> Z.of_nat k <= st_worst_loss s)) /\
  (last (results_of trades) = None -> st_current s = 0) /\
  (exists older, results_of trades = older ++ st_history s) /\
  length (st_history s) = Nat.min 20 (length trades).
Proof.
  cbv zeta.
  destruct (compute_streaks_longest trades) as [Hbest Hworst].
  destruct trades as [|t0 trades].
  { split; [reflexivity|]. split; [discriminate|]. split; [reflexivity|].
    split; [exists []; reflexivity | reflexivity]. }
  set (ts := t0 :: trades) in *.
  assert (Hlast : exists c, last (results_of ts) = Some c).
  { destruct (last (results_of ts)) as [c|] eqn:E; [eauto|].
    apply last_None in E. discriminate E. }
  destruct Hlast as [c Hc].
  assert (Hcur : List.last (map outcome_of ts) (outcome_of t0) = c)
    by (apply last_List_last, Hc).
  split; [|split; [|split; [|split]]].
  - unfold _compute_streaks, ts. cbn [st_current_type]. fold ts.
    rewrite Hcur, Hc. reflexivity.
  - intros c' Hc'. rewrite Hc in Hc'. injection Hc' as <-.
    exists (leading_run c (List.rev (results_of ts))).
    pose proof (ends_with_leading_run c (results_of ts)) as Hends.
    assert (Hrun : has_run c (leading_run c (List.rev (results_of ts))) (results_of ts)).
    { destruct Hends as (pre & Hpre & _). exists pre, []. rewrite app_nil_r. exact Hpre. }
    apply longest_run_spec in Hrun.
    split; [|split; [exact Hends|split; [|split]]].
    + assert (Hh : head (List.rev (results_of ts)) = Some c)
        by (rewrite <- last_rev_head, rev_involutive; exact Hc).
      destruct (List.rev (results_of ts)) as [|r rr]; [discriminate|].
      injection Hh as ->. simpl. rewrite String.eqb_refl. lia.
    + unfold _compute_streaks, ts. cbn [st_current]. fold ts.
      rewrite Hcur, count_current_spec. unfold results_of.
      destruct (String.eqb c "B"); [reflexivity | lia].
    + intros ->. rewrite Hbest. lia.
    + intros ->. rewrite Hworst. lia.
  - rewrite Hc. discriminate.
  - exists (take (length (results_of ts) - 20) (results_of ts)).
    unfold _compute_streaks, ts. cbn [st_history]. fold ts.
    unfold last_20, results_of. rewrite take_drop. reflexivity.
  - unfold _compute_streaks, ts. cbn [st_history]. fold ts.
    unfold last_20. rewrite length_drop, length_map. lia.
Qed.

(** ** Grouping by a key *)

(** [d.setdefault(key, []).append(v)] for every element: a key holds the
    values of its elements, in their order. *)
Lemma group_fold_lookup {A V : Type} (key : A -> string) (val : A -> V) (l : list A) :
  forall (m : gmap string (list V)) k,
    fold_left (fun m x => <[key x := default [] (m !! key x) ++ [val x]]> m) l m !! k =
    match filter (fun x => key x = k) l with
    | [] => m !! k
    | _ :: _ => Some (default [] (m !! k) ++ map val (filter (fun x => key x = k) l))
    end.
Proof.
  induction l as [|x l IH]; intros m k; [reflexivity|].
  cbn [fold_left]. rewrite IH, filter_cons.
  destruct (decide (key x = k)) as [<- | Hne].
  - rewrite lookup_insert_eq.
    destruct (filter (fun y => key y = key x) l) as [|y ys]; simpl.
    + reflexivity.
    + rewrite <- app_assoc. reflexivity.
  - rewrite lookup_insert_ne by exact Hne. reflexivity.
Qed.

(** ** Tag groups *)

Lemma get_tag_config_lookup r rows :
  get_tag_config (r :: rows) =
  Some (fold_left (fun m x => <[fst x := default [] (m !! fst x) ++ [snd x]]> m)
                  (r :: rows) ∅).
Proof.
  unfold get_tag_config. f_equal.
  generalize (∅ : gmap string (list string)).
  generalize (r :: rows). clear.
  intros l. induction l as [|[g t] l IH]; intros m; [reflexivity|].
  cbn [fold_left]. apply IH.
Qed.

(** The groups shown are the six groups of [TAG_GROUPS], in their order and
    with their other fields; a group has the enabled tags of table
    [tag_config] when it has some, in the order of the query, and its
    hardcoded tags otherwise.  Rows of other groups change nothing. *)
Theorem tag_groups_follow_tag_config rows :
  get_tag_groups (get_tag_config rows) =
  map (fun g =>
         match custom_tags rows (tg_id g) with
         | [] => g
         | tags => with_tags g tags
         end)
      TAG_GROUPS.
Proof.
  destruct rows as [|r rows]; [reflexivity|].
  rewrite (get_tag_config_lookup r rows). unfold get_tag_groups.
  set (c := fold_left _ (r :: rows) ∅).
  assert (Hc : forall k, c !! k = match custom_tags (r :: rows) k with
                                  | [] => None
                                  | tags => Some tags
                                  end).
  { intros k. unfold c. rewrite group_fold_lookup, lookup_empty. unfold custom_tags.
    destruct (filter (fun x => x.1 = k) (r :: rows)); reflexivity. }
  rewrite bool_decide_eq_false_2.
  - apply map_ext. intros g. rewrite Hc.
    destruct (custom_tags (r :: rows) (tg_id g)); reflexivity.
  - intros Hempty. specialize (Hc (fst r)). rewrite Hempty, lookup_empty in Hc.
    unfold custom_tags in Hc. rewrite filter_cons, decide_True in Hc by reflexivity.
    discriminate Hc.
Qed.

(** ** Reconstruction over several days *)

Lemma mapM_result_Forall2 {A B : Type} (f : A -> result B) (l : list A) :
  (forall x, x ∈ l -> exists y, f x = Ok y) ->
  exists k, mapM f l = Ok k /\ Forall2 (fun x y => f x = Ok y) l k.
Proof.
  induction l as [|x l IH]; intros Hl.
  - exists []. split; [reflexivity | constructor].
  - destruct (Hl x) as [y Hy]; [left|].
    destruct IH as (k & Hk & Hall); [intros z Hz; apply Hl; right; exact Hz|].
    exists (y :: k). split.
    + simpl. rewrite Hy. simpl. rewrite Hk. reflexivity.
    + constructor; assumption.
Qed.

Lemma mapM_result_Ok {A B : Type} (f : A -> result B) (l : list A) :
  forall k, mapM f l = Ok k -> Forall2 (fun x y => f x = Ok y) l k.
Proof.
  induction l as [|x l IH]; intros k; simpl.
  - intros [= <-]. constructor.
  - intros H. apply bind_Ok in H as (y & Hy & H).
    apply bind_Ok in H as (k' & Hk & H). injection H as <-.
    constructor; [exact Hy | apply IH, Hk].
Qed.

(** A date of the dict holds the fills of that date, in their order. *)
Lemma group_by_date_lookup l d :
  group_by_date l !! d =
  match filter (fun f => date f = d) l with
  | [] => None
  | fs => Some fs
  end.
Proof.
  unfold group_by_date.
  rewrite (group_fold_lookup date (fun f => f) l ∅ d), lookup_empty.
  destruct (filter (fun f => date f = d) l) as [|f fs]; [reflexivity|].
  simpl. rewrite map_id. reflexivity.
Qed.

Lemma group_by_date_items l d fs :
  (d, fs) ∈ map_to_list (group_by_date l) <->
  fs = filter (fun f => date f = d) l /\ fs <> [].
Proof.
  rewrite elem_of_map_to_list, group_by_date_lookup.
  destruct (filter (fun f => date f = d) l) as [|f fs'] eqn:E.
  - split; [discriminate | intros [-> H]; contradiction].
  - split; [intros [= <-]; split; [reflexivity | discriminate] | intros [-> _]; reflexivity].
Qed.

(** The trades built from a list of fills have the properties of
    [build_loop_groups]. *)
Lemma build_round_trips_groups l ts :
  _build_round_trips l = Ok ts ->
  concat (map fills ts) = l /\
  (forall i t, ts !! i = Some t ->
     trade_num t = Z.of_nat i + 1 /\
     _compute_stats (fills t) (trade_num t) = Ok t /\
     ((i + 1 < length ts)%nat -> signed_sum (fills t) = 0)).
Proof.
  intros Hts.
  destruct (build_loop_groups l 0 [] [] ts eq_refl Hts) as (new & -> & H0 & Hn & Hc).
  cbn [app] in *. split; [exact Hc|].
  intros i t Hi. destruct (Hn i t Hi) as [Hnum Hstat].
  split; [exact Hnum|]. split; [exact Hstat|]. apply (H0 i t Hi).
Qed.

Lemma build_round_trips_returns l :
  in_float_range l -> exists ts, _build_round_trips l = Ok ts.
Proof. intros Hr. apply build_loop_returns. exact Hr. Qed.

Lemma compute_stats_nonempty l n t : _compute_stats l n = Ok t -> fills t = l /\ l <> [].
Proof.
  intros H. destruct (compute_stats_fills _ _ _ H) as (Hf & _ & Hne). split; assumption.
Qed.

(** What [reconstruct_trades] returns: one day for each date of the dict,
    in the order of the dates, with the round trips of its fills. *)
Lemma reconstruct_trades_days l days :
  reconstruct_trades l = Ok days ->
  map day_date days = map fst (sorted fst (map_to_list (group_by_date l))) /\
  forall day, day ∈ days ->
    _build_round_trips (sorted time (filter (fun f => date f = day_date day) l)) =
      Ok (trades day) /\
    filter (fun f => date f = day_date day) l <> [].
Proof.
  unfold reconstruct_trades.
  set (items := sorted fst (map_to_list (group_by_date l))).
  assert (Hitems : forall d fs, (d, fs) ∈ items ->
            fs = filter (fun f => date f = d) l /\ fs <> []).
  { intros d fs Hin. apply group_by_date_items.
    unfold items in Hin. rewrite sorted_Permutation in Hin. exact Hin. }
  clearbody items. intros Hdays.
  apply mapM_result_Ok in Hdays.
  induction Hdays as [|[d fs] day items days Hday Hall IH].
  - split; [reflexivity|]. intros day Hday. apply elem_of_nil in Hday. destruct Hday.
  - destruct IH as [IHd IHt]; [intros d' fs' Hin; apply Hitems; right; exact Hin|].
    destruct (Hitems d fs) as [Hfs Hne]; [left|].
    destruct (_build_round_trips (sorted time fs)) as [ts|e] eqn:Hts; [|discriminate].
    simpl in Hday. injection Hday as <-.
    split; [simpl; f_equal; exact IHd|].
    intros day Hin. apply elem_of_cons in Hin as [-> | Hin]; [|apply IHt, Hin].
    simpl. rewrite <- Hfs. split; [exact Hts | exact Hne].
Qed.

Lemma mapM_result_Raise {A B : Type} (f : A -> result B) (l : list A) e :
  mapM f l = Raise e -> exists x, x ∈ l /\ f x = Raise e.
Proof.
  induction l as [|x l IH]; simpl; [discriminate|].
  intros H. apply bind_Raise in H as [H | (y & _ & H)].
  - exists x. split; [left | exact H].
  - apply bind_Raise in H as [H | (k & _ & H)]; [|discriminate H].
    destruct (IH H) as (z & Hz & Hf). exists z. split; [right; exact Hz | exact Hf].
Qed.

(** [reconstruct_trades] raises nothing but [OverflowError]. *)
Lemma reconstruct_trades_raises l e :
  reconstruct_trades l = Raise e -> e = OverflowError.
Proof.
  unfold reconstruct_trades. intros H.
  apply mapM_result_Raise in H as ([d fs] & _ & H).
  apply bind_Raise in H as [H | (ts & _ & H)]; [|discriminate H].
  unfold _build_round_trips in H. apply build_loop_raises in H. exact H.
Qed.

(** On fills in range [reconstruct_trades] returns. *)
Lemma reconstruct_trades_returns l :
  in_float_range l -> exists days, reconstruct_trades l = Ok days.
Proof.
  intros Hr. unfold reconstruct_trades.
  destruct (mapM_result_Forall2
              (fun '(d, day_fills) =>
                 ts ← _build_round_trips (sorted time day_fills);
                 Ok {| day_date := d; trades := ts |})
              (sorted fst (map_to_list (group_by_date l)))) as (days & Hdays & _).
  { intros [d fs] Hin. rewrite sorted_Permutation in Hin.
    apply group_by_date_items in Hin as [-> _].
    destruct (build_round_trips_returns
                (sorted time (filter (fun f => date f = d) l))) as (ts & Hts).
    { unfold in_float_range.
      rewrite (abs_qty_Permutation _ _ (sorted_Permutation time _)).
      pose proof (abs_qty_filter (fun f => date f = d) l).
      unfold in_float_range in Hr. lia. }
    eexists. rewrite Hts. reflexivity. }
  exists days. exact Hdays.
Qed.

Lemma concat_filter_by_key {A : Type} (key : A -> string) (ds : list string) :
  NoDup ds ->
  forall l : list A,
    (forall x, x ∈ l -> key x ∈ ds) ->
    concat (map (fun d => filter (fun x => key x = d) l) ds) ≡ₚ l.
Proof.
  induction 1 as [|d0 ds Hd0 Hnd IH]; intros l Hl.
  - destruct l as [|x l]; [reflexivity|].
    specialize (Hl x ltac:(left)). apply elem_of_nil in Hl. destruct Hl.
  - cbn [map concat].
    etransitivity; [|apply (filter_app_complement (fun x => key x = d0) l)].
    apply Permutation_app_head.
    rewrite <- (IH (filter (fun x => ~ key x = d0) l)).
    + apply Permutation_refl'. f_equal. apply map_ext_in. intros d Hd.
      symmetry. apply list_filter_filter_l.
      intros x <- Heq. apply Hd0. rewrite <- Heq. apply list_elem_of_In, Hd.
    + intros x Hx. apply list_elem_of_filter in Hx as [Hne Hx].
      specialize (Hl x Hx). apply elem_of_cons in Hl as [Heq | Hin]; [contradiction | exact Hin].
Qed.

Lemma concat_map_Permutation {A B : Type} (f g : A -> list B) (l : list A) :
  (forall x, x ∈ l -> f x ≡ₚ g x) -> concat (map f l) ≡ₚ concat (map g l).
Proof.
  induction l as [|x l IH]; intros Hl; [reflexivity|].
  cbn [map concat]. apply Permutation_app.
  - apply Hl. left.
  - apply IH. intros y Hy. apply Hl. right. exact Hy.
Qed.

Lemma StronglySorted_map_key {A : Type} (key : A -> string) (l : list A) :
  StronglySorted (key_le key) l ->
  StronglySorted (fun a b => String.leb a b = true) (map key l).
Proof.
  induction 1 as [|x l Hl IH Hx]; simpl; constructor; [exact IH|].
  apply Forall_map. exact Hx.
Qed.

(** [reconstruct_trades] raises nothing but [OverflowError], and it
    returns on fills whose quantities are in the range of [float].  It
    returns one day for each date of the fills, the dates in ascending
    order; the trades of a day are consecutive groups of the fills of its
    date sorted by time, none of them empty, numbered from 1; and every fill
    of the input is in exactly one trade. *)
Theorem reconstruct_trades_partitions_the_fills l :
  (forall e, reconstruct_trades l = Raise e -> e = OverflowError /\ ~ in_float_range l) /\
  (in_float_range l -> exists days, reconstruct_trades l = Ok days) /\
  (forall days,
    reconstruct_trades l = Ok days ->
    StronglySorted (fun a b => String.leb a b = true) (map day_date days) /\
    NoDup (map day_date days) /\
    (forall d, d ∈ map day_date days <-> d ∈ map date l) /\
    (forall day, day ∈ days ->
       concat (map fills (trades day)) =
         sorted time (filter (fun f => date f = day_date day) l) /\
       trades day <> [] /\
       forall i t, trades day !! i = Some t ->
         trade_num t = Z.of_nat i + 1 /\ fills t <> []) /\
    concat (map (fun day => concat (map fills (trades day))) days) ≡ₚ l).
Proof.
  split; [|split].
  { intros e He. split; [apply reconstruct_trades_raises in He; exact He|].
    intros Hr. destruct (reconstruct_trades_returns l Hr) as (days & Hdays).
    congruence. }
  { apply reconstruct_trades_returns. }
  intros days Hdays.
  destruct (reconstruct_trades_days l days Hdays) as (Hdates & Htrades).
  assert (Hsorted : StronglySorted (fun a b => String.leb a b = true) (map day_date days)).
  { rewrite Hdates. apply StronglySorted_map_key, sorted_StronglySorted. }
  assert (Hnd : NoDup (map day_date days)).
  { rewrite Hdates, sorted_Permutation. apply NoDup_fst_map_to_list. }
  assert (Hdom : forall d, d ∈ map day_date days <-> d ∈ map date l).
  { intros d. rewrite Hdates, sorted_Permutation.
    rewrite list_elem_of_fmap. split.
    - intros ([d' fs] & -> & Hin). apply group_by_date_items in Hin as [Hfs Hne].
      simpl. destruct fs as [|f fs]; [contradiction|].
      assert (Hf : f ∈ filter (fun f => date f = d') l) by (rewrite <- Hfs; left).
      apply list_elem_of_filter in Hf as [<- Hf]. apply list_elem_of_fmap_2, Hf.
    - intros Hd. apply list_elem_of_fmap in Hd as (f & -> & Hf).
      exists (date f, filter (fun g => date g = date f) l). split; [reflexivity|].
      apply group_by_date_items. split; [reflexivity|].
      intros Hnil.
      assert (Hin : f ∈ filter (fun g => date g = date f) l)
        by (apply list_elem_of_filter; split; [reflexivity | exact Hf]).
      rewrite Hnil in Hin. apply elem_of_nil in Hin. exact Hin. }
  assert (Hday : forall day, day ∈ days ->
            concat (map fills (trades day)) =
              sorted time (filter (fun f => date f = day_date day) l) /\
            trades day <> [] /\
            forall i t, trades day !! i = Some t ->
              trade_num t = Z.of_nat i + 1 /\ fills t <> []).
  { intros day Hin. destruct (Htrades day Hin) as [Hts Hne].
    destruct (build_round_trips_groups _ _ Hts) as (Hc & Hn).
    split; [exact Hc|]. split.
    - intros Hnil. rewrite Hnil in Hc. simpl in Hc.
      apply Hne. apply Permutation_nil. rewrite Hc. apply sorted_Permutation.
    - intros i t Hi. destruct (Hn i t Hi) as (Hnum & Hstat & _).
      split; [exact Hnum|]. apply compute_stats_nonempty in Hstat as [_ H]. exact H. }
  split; [exact Hsorted|]. split; [exact Hnd|]. split; [exact Hdom|].
  split; [exact Hday|].
  etransitivity; [|apply (concat_filter_by_key date (map day_date days) Hnd l)].
  - rewrite map_map. apply concat_map_Permutation. intros day Hd.
    rewrite (proj1 (Hday day Hd)). apply sorted_Permutation.
  - intros f Hf. apply Hdom, list_elem_of_fmap_2, Hf.
Qed.

(** Two days of one round trip each. *)
Lemma reconstruct_trades_partition_witness :
  in_float_range two_days /\
  exists days,
    reconstruct_trades two_days = Ok days /\
    map day_date days = ["2024-01-02"; "2024-01-03"] /\
    concat (map (fun day => concat (map fills (trades day))) days) ≡ₚ two_days.
Proof.
  assert (Hr : in_float_range two_days) by (vm_compute; reflexivity).
  split; [exact Hr|].
  destruct (proj1 (proj2 (reconstruct_trades_partitions_the_fills two_days)) Hr)
    as (days & Hdays).
  exists days. split; [exact Hdays|].
  split; [|apply (proj2 (proj2 (reconstruct_trades_partitions_the_fills two_days))
                    days Hdays)].
  assert (Heq : reconstruct_trades two_days = Ok days) by exact Hdays.
  vm_compute in Heq. injection Heq as <-. reflexivity.
Defined.

(** Beyond the range the conversion fails: two buys of [10^308] units add
    up to a quantity that is no [float], and the division by it raises. *)
Lemma quantities_out_of_range_overflow :
  in_float_range [ fill_at "Buy" (10 ^ 308) 100 "09:30:00" ] /\
  reconstruct_trades
    [ fill_at "Buy" (10 ^ 308) 100 "09:30:00";
      fill_at "Buy" (10 ^ 308) 100 "09:31:00" ] = Raise OverflowError.
Proof. split; vm_compute; reflexivity. Qed.

Lemma compute_stats_times l n t :
  _compute_stats l n = Ok t ->
  exists f g,
    head l = Some f /\ last l = Some g /\
    entry_time t = time f /\ exit_time t = time g.
Proof.
  destruct l as [|f l]; [discriminate|].
  intros Hstat. apply compute_stats_Ok in Hstat as ->. unfold stats_of. cbn [entry_time exit_time].
  exists f, (List.last (f :: l) f). split; [reflexivity|]. split; [|split; reflexivity].
  destruct (last (f :: l)) as [g|] eqn:Hg; [|apply last_None in Hg; discriminate Hg].
  f_equal. symmetry. apply last_List_last, Hg.
Qed.

Lemma StronglySorted_concat_inner {A : Type} (R : relation A) (ls : list (list A)) a :
  StronglySorted R (concat ls) -> a ∈ ls -> StronglySorted R a.
Proof.
  intros Hs Ha. apply list_elem_of_split in Ha as (pre & post & ->).
  rewrite concat_app in Hs. apply StronglySorted_app_1_r in Hs.
  cbn [concat] in Hs. apply StronglySorted_app_1_l in Hs. exact Hs.
Qed.

Lemma StronglySorted_concat_cross {A : Type} (R : relation A) (ls : list (list A))
    i j a b x y :
  StronglySorted R (concat ls) -> (i < j)%nat ->
  ls !! i = Some a -> ls !! j = Some b -> x ∈ a -> y ∈ b -> R x y.
Proof.
  intros Hs Hij Ha Hb Hx Hy.
  rewrite <- (take_drop_middle ls i a Ha), concat_app in Hs.
  apply StronglySorted_app_1_r in Hs. cbn [concat] in Hs.
  apply (StronglySorted_app_1_elem_of R _ _ x y Hs Hx).
  apply list_elem_of_In, in_concat. exists b. split; [|apply list_elem_of_In, Hy].
  apply list_elem_of_In, list_elem_of_lookup. exists (j - S i)%nat.
  rewrite lookup_drop. rewrite <- Hb. f_equal. lia.
Qed.

(** The trades of a day follow each other in time: a trade is entered at
    the time of its first fill and left at the time of its last one, not
    before it was entered, and the next trades are not entered before it was
    left. *)
Theorem trades_of_a_day_are_in_time_order l days :
  reconstruct_trades l = Ok days ->
  forall day, day ∈ days ->
  forall i t, trades day !! i = Some t ->
    (exists f g, head (fills t) = Some f /\ last (fills t) = Some g /\
                 entry_time t = time f /\ exit_time t = time g) /\
    String.leb (entry_time t) (exit_time t) = true /\
    forall j t', (i < j)%nat -> trades day !! j = Some t' ->
      String.leb (exit_time t) (entry_time t') = true.
Proof.
  intros Hrec day Hday i t Hi.
  destruct (reconstruct_trades_days l days Hrec) as (_ & Htrades).
  destruct (Htrades day Hday) as [Hts _].
  destruct (build_round_trips_groups _ _ Hts) as (Hc & Hn).
  assert (Hs : StronglySorted (key_le time) (concat (map fills (trades day))))
    by (rewrite Hc; apply sorted_StronglySorted).
  assert (Htimes : forall k u, trades day !! k = Some u ->
            exists f g, head (fills u) = Some f /\ last (fills u) = Some g /\
                        entry_time u = time f /\ exit_time u = time g).
  { intros k u Hk. destruct (Hn k u Hk) as (_ & Hstat & _).
    apply compute_stats_times in Hstat. exact Hstat. }
  destruct (Htimes i t Hi) as (f & g & Hf & Hg & Hentry & Hexit).
  split; [exists f, g; repeat split; assumption|].
  assert (Hgin : g ∈ fills t).
  { destruct (fills t) as [|x xs] eqn:E; [discriminate|].
    apply last_Some in Hg as [pre Hpre]. rewrite Hpre. apply elem_of_app. right. left. }
  assert (Hlook : map fills (trades day) !! i = Some (fills t))
    by (rewrite list_lookup_fmap, Hi; reflexivity).
  split.
  - rewrite Hentry, Hexit.
    assert (Hin : StronglySorted (key_le time) (fills t)).
    { apply (StronglySorted_concat_inner _ (map fills (trades day))); [exact Hs|].
      apply list_elem_of_lookup. eauto. }
    destruct (fills t) as [|x xs]; [discriminate|].
    injection Hf as ->.
    apply elem_of_cons in Hgin as [-> | Hgin]; [apply string_leb_refl|].
    apply StronglySorted_inv in Hin as [_ Hall].
    rewrite Forall_forall in Hall. apply (Hall g Hgin).
  - intros j t' Hij Hj.
    destruct (Htimes j t' Hj) as (f' & g' & Hf' & _ & Hentry' & _).
    rewrite Hexit, Hentry'.
    apply (StronglySorted_concat_cross (key_le time) (map fills (trades day))
             i j (fills t) (fills t') g f' Hs Hij Hlook).
    + rewrite list_lookup_fmap, Hj. reflexivity.
    + exact Hgin.
    + destruct (fills t') as [|x xs]; [discriminate|]. injection Hf' as ->. left.
Qed.

(** Two round trips of one day, given out of order. *)
Lemma trades_time_order_witness :
  exists days,
    reconstruct_trades two_round_trips = Ok days /\
    forall day, day ∈ days ->
    forall i t, trades day !! i = Some t ->
      (exists f g, head (fills t) = Some f /\ last (fills t) = Some g /\
                   entry_time t = time f /\ exit_time t = time g) /\
      String.leb (entry_time t) (exit_time t) = true /\
      forall j t', (i < j)%nat -> trades day !! j = Some t' ->
        String.leb (exit_time t) (entry_time t') = true.
Proof.
  eexists. split; [vm_compute; reflexivity|].
  apply (trades_of_a_day_are_in_time_order two_round_trips).
  vm_compute. reflexivity.
Defined.

(** ** Statistics of a group: round trips and unclosed positions *)

Lemma round_zero n : round (of_int 0) n = of_int 0.
Proof.
  unfold of_int, round. f_equal. apply Qc_is_canon.
  unfold round_half_even. cbn [this Q2Qc].
  rewrite !Qred_correct. reflexivity.
Qed.

Lemma filter_nil_Forall {A : Type} (P : A -> Prop) `{!forall x, Decision (P x)} (l : list A) :
  filter P l = [] -> Forall (fun x => ~ P x) l.
Proof.
  induction l as [|x l IH]; [constructor|].
  rewrite filter_cons. destruct (decide (P x)); [discriminate|].
  intros Hnil. constructor; [assumption | apply IH, Hnil].
Qed.

Lemma filter_all {A : Type} (P : A -> Prop) `{!forall x, Decision (P x)} (l : list A) :
  Forall P l -> filter P l = l.
Proof.
  induction 1 as [|x l Hx Hl IH]; [reflexivity|].
  rewrite filter_cons, decide_True by assumption. f_equal. exact IH.
Qed.

Lemma sum_qty_zero_nil (l : list Fill) :
  Forall (fun f => 0 < qty f) l -> sum_Z (map qty l) = 0 -> l = [].
Proof.
  intros Hpos Hz. destruct l as [|f l]; [reflexivity|].
  pose proof (sum_qty_pos (f :: l) Hpos ltac:(discriminate)). lia.
Qed.

(** A group that [_compute_stats] flags as open, its quantities positive,
    has fills of one side only.  Its P&L is 0, its quantity the total of its
    fills and its average entry their volume-weighted price; the average
    exit is 0 for a long group, and for a short group it is the average
    entry again. *)
Theorem open_trade_statistics l n t :
  Forall (fun f => 0 < qty f) l ->
  _compute_stats l n = Ok t ->
  open t = true ->
  pnl t = of_int 0 /\
  trade_qty t = sum_Z (map qty l) /\
  avg_entry t = round (vwap l) 4 /\
  ((direction t = "Long" /\ Forall (fun f => side f = "Buy") l /\
    avg_exit t = of_int 0) \/
   (direction t = "Short" /\ Forall (fun f => side f <> "Buy") l /\
    avg_exit t = avg_entry t)).
Proof.
  intros Hpos Hstat Hopen.
  destruct (open_flag_spec l n t Hpos Hstat) as [Hflag _].
  apply Hflag in Hopen. clear Hflag.
  destruct l as [|f0 l]; [discriminate|].
  apply compute_stats_Ok in Hstat. subst t. unfold stats_of.
  cbn [pnl trade_qty avg_entry avg_exit direction].
  destruct (totals_spec (f0 :: l)) as (Hbq & Hbv & Hsq & Hsv).
  rewrite Hbq, Hbv, Hsq, Hsv. clear Hbq Hbv Hsq Hsv.
  cbn [head fmap option_fmap option_map] in Hopen.
  destruct (String.eqb_spec (side f0) "Sell") as [Hs | Hs].
  - rewrite bool_decide_eq_true_2 in Hopen by (rewrite Hs; reflexivity).
    assert (Hb : buys (f0 :: l) = [])
      by (apply sum_qty_zero_nil; [apply Forall_filter_pos, Hpos | exact Hopen]).
    assert (Hall : Forall (fun f => side f <> "Buy") (f0 :: l))
      by exact (filter_nil_Forall (fun f => side f = "Buy") _ Hb).
    assert (Hsl : sells (f0 :: l) = f0 :: l)
      by exact (filter_all (fun f => side f <> "Buy") _ Hall).
    rewrite Hb, Hsl. clear Hb Hsl.
    assert (Hq : 0 < sum_Z (map qty (f0 :: l))) by (apply sum_qty_pos; [exact Hpos | discriminate]).
    change (sum_Z (map qty [])) with 0.
    rewrite vwap_unfold.
    assert (Ht : truthy (sum_Z (map qty (f0 :: l))) = true)
      by (unfold truthy; apply negb_true_iff, Z.eqb_neq; lia).
    rewrite Ht. change (truthy 0) with false.
    cbn [andb orb negb Z.eqb]. rewrite round_zero.
    split; [reflexivity|]. split; [lia|]. split; [reflexivity|].
    right. split; [reflexivity|]. split; [exact Hall | reflexivity].
  - rewrite bool_decide_eq_false_2 in Hopen by (intros [= H]; contradiction).
    assert (Hsl : sells (f0 :: l) = [])
      by (apply sum_qty_zero_nil; [apply Forall_filter_pos, Hpos | exact Hopen]).
    assert (Hall : Forall (fun f => side f = "Buy") (f0 :: l)).
    { apply (filter_nil_Forall (fun f => side f <> "Buy")) in Hsl.
      eapply Forall_impl; [exact Hsl|].
      intros f Hf. simpl in Hf. destruct (decide (side f = "Buy")); [assumption|].
      exfalso. apply Hf. assumption. }
    assert (Hb : buys (f0 :: l) = f0 :: l)
      by exact (filter_all (fun f => side f = "Buy") _ Hall).
    rewrite Hb, Hsl. clear Hb Hsl.
    assert (Hq : 0 < sum_Z (map qty (f0 :: l))) by (apply sum_qty_pos; [exact Hpos | discriminate]).
    change (sum_Z (map qty [])) with 0.
    rewrite vwap_unfold.
    assert (Ht : truthy (sum_Z (map qty (f0 :: l))) = true)
      by (unfold truthy; apply negb_true_iff, Z.eqb_neq; lia).
    rewrite Ht. change (truthy 0) with false.
    cbn [andb orb negb Z.eqb]. rewrite !round_zero.
    split; [reflexivity|]. split; [lia|]. split; [reflexivity|].
    left. split; [reflexivity|]. split; [exact Hall | reflexivity].
Qed.

(** A short position that is still open. *)
Lemma open_trade_statistics_witness :
  exists t,
    _compute_stats open_short_fills 1 = Ok t /\
    pnl t = of_int 0 /\
    trade_qty t = sum_Z (map qty open_short_fills) /\
    avg_entry t = round (vwap open_short_fills) 4 /\
    ((direction t = "Long" /\ Forall (fun f => side f = "Buy") open_short_fills /\
      avg_exit t = of_int 0) \/
     (direction t = "Short" /\ Forall (fun f => side f <> "Buy") open_short_fills /\
      avg_exit t = avg_entry t)).
Proof.
  eexists. split; [reflexivity|].
  apply (open_trade_statistics open_short_fills 1).
  - repeat constructor.
  - reflexivity.
  - reflexivity.
Defined.

Lemma nadd_Fin a b : nadd (Fin a) (Fin b) = Fin (a + b)%Qc.
Proof. reflexivity. Qed.

(** A sum of finite numbers is finite. *)
Lemma fold_nadd_finite (l : list num) :
  Forall finite l -> forall a, exists q, fold_left nadd l (Fin a) = Fin q.
Proof.
  induction 1 as [|x l Hx Hl IH]; intros a; simpl.
  - eauto.
  - destruct x as [b| | |]; try contradiction. simpl. apply IH.
Qed.

Lemma cash_value_finite (l : list Fill) :
  Forall (fun f => finite (price f)) l -> exists q, cash_value l = Fin q.
Proof.
  intros Hl. unfold cash_value, sum_num, of_int. apply fold_nadd_finite.
  apply Forall_map. eapply Forall_impl; [exact Hl|].
  intros f Hf. cbv beta in Hf. unfold notional, of_int.
  destruct (price f); try contradiction. exact I.
Qed.

Lemma Forall_filter_finite (P : Fill -> Prop) `{!forall f, Decision (P f)} (l : list Fill) :
  Forall (fun f => finite (price f)) l -> Forall (fun f => finite (price f)) (filter P l).
Proof.
  intros Hall. apply Forall_forall. intros f Hf.
  apply list_elem_of_filter in Hf as [_ Hf].
  rewrite Forall_forall in Hall. apply Hall, Hf.
Qed.

Lemma Q2Qc_inject_Z_neq_0 z : z <> 0 -> Q2Qc (inject_Z z) <> Q2Qc 0.
Proof.
  intros Hz Heq. apply Hz.
  apply Q2Qc_eq_iff in Heq. unfold Qeq, inject_Z in Heq. simpl in Heq. lia.
Qed.

(** The arithmetic of a round trip: averaging over the quantity and
    multiplying by it again gives the difference of the two values. *)
Lemma averages_times_quantity (s b : Qc) (q : Z) :
  q <> 0 ->
  ((s / Q2Qc (inject_Z q) - b / Q2Qc (inject_Z q)) * Q2Qc (inject_Z q) * Q2Qc (inject_Z 5)
   = (s - b) * Q2Qc (inject_Z 5))%Qc.
Proof.
  intros Hq. pose proof (Q2Qc_inject_Z_neq_0 q Hq) as Hne.
  field. exact Hne.
Qed.

(** A round trip, that is a group of fills of positive quantity and finite
    price whose signed quantities sum to zero, is not flagged open; its
    quantity is the quantity bought, which is the quantity sold, and its
    P&L is 5 times what the sells brought less what the buys cost, rounded
    to 2 decimals, whichever side came first. *)
Theorem round_trip_pnl_is_net_cash_flow l n t :
  Forall (fun f => 0 < qty f) l ->
  Forall (fun f => finite (price f)) l ->
  signed_sum l = 0 ->
  _compute_stats l n = Ok t ->
  open t = false /\
  trade_qty t = sum_Z (map qty (buys l)) /\
  trade_qty t = sum_Z (map qty (sells l)) /\
  pnl t = round (nmul (nsub (cash_value (sells l)) (cash_value (buys l))) (of_int 5)) 2.
Proof.
  intros Hpos Hfin Hsum Hstat.
  rewrite signed_sum_split in Hsum.
  destruct l as [|f0 l]; [discriminate|].
  apply compute_stats_Ok in Hstat. subst t. unfold stats_of.
  cbn [pnl trade_qty open].
  destruct (totals_spec (f0 :: l)) as (Hbq & Hbv & Hsq & Hsv).
  rewrite Hbq, Hbv, Hsq, Hsv. clear Hbq Hbv Hsq Hsv.
  fold (cash_value (buys (f0 :: l))). fold (cash_value (sells (f0 :: l))).
  destruct (cash_value_finite (buys (f0 :: l))) as [b Hb];
    [apply Forall_filter_finite, Hfin|].
  destruct (cash_value_finite (sells (f0 :: l))) as [s Hs];
    [apply Forall_filter_finite, Hfin|].
  rewrite Hb, Hs. clear Hb Hs.
  pose proof (sum_qty_nonneg _ (Forall_filter_pos (fun f => side f = "Buy") _ Hpos)) as Hb0.
  pose proof (sum_qty_nonneg _ (Forall_filter_pos (fun f => side f <> "Buy") _ Hpos)) as Hs0.
  fold (buys (f0 :: l)) in Hb0. fold (sells (f0 :: l)) in Hs0.
  assert (Hq : 0 < sum_Z (map qty (buys (f0 :: l)))).
  { destruct (decide (side f0 = "Buy")) as [Hside | Hside].
    - apply sum_qty_pos; [apply Forall_filter_pos, Hpos|].
      unfold buys. rewrite filter_cons, decide_True by assumption. discriminate.
    - assert (0 < sum_Z (map qty (sells (f0 :: l)))); [|lia].
      apply sum_qty_pos; [apply Forall_filter_pos, Hpos|].
      unfold sells. rewrite filter_cons, decide_True by assumption. discriminate. }
  replace (sum_Z (map qty (sells (f0 :: l)))) with (sum_Z (map qty (buys (f0 :: l)))) by lia.
  set (q := sum_Z (map qty (buys (f0 :: l)))) in *.
  assert (Ht : truthy q = true) by (unfold truthy; apply negb_true_iff, Z.eqb_neq; lia).
  assert (Hz : (q =? 0) = false) by (apply Z.eqb_neq; lia).
  rewrite Ht, Hz, Z.max_id, !andb_false_r, !andb_true_r. cbn [orb].
  split; [reflexivity|]. split; [reflexivity|]. split; [reflexivity|].
  unfold nsub, of_int.
  destruct (String.eqb (side f0) "Sell"); cbn [negb ndiv_int nopp nadd nmul];
    do 2 f_equal; apply averages_times_quantity; lia.
Qed.

(** Two units sold at 102 and bought back at 100 and 101: the P&L is
    5 x (204 - 201) = 15. *)
Lemma round_trip_pnl_witness :
  exists t,
    _compute_stats short_round_trip 1 = Ok t /\
    open t = false /\
    trade_qty t = sum_Z (map qty (buys short_round_trip)) /\
    trade_qty t = sum_Z (map qty (sells short_round_trip)) /\
    pnl t = round (nmul (nsub (cash_value (sells short_round_trip))
                              (cash_value (buys short_round_trip))) (of_int 5)) 2.
Proof.
  eexists. split; [reflexivity|].
  apply (round_trip_pnl_is_net_cash_flow short_round_trip 1).
  - repeat constructor.
  - repeat constructor.
  - reflexivity.
  - reflexivity.
Defined.

(** ** Numbers: rounding and signs *)

Lemma Qc_opp_this (q : Qc) : this (- q)%Qc = Qopp (this q).
Proof.
  unfold Qcopp, Q2Qc. cbn [this]. rewrite Qred_opp, canon. reflexivity.
Qed.

Lemma Qc_ltb_0_r (q : Qc) : Qc_ltb q (Q2Qc 0) = (Qnum q <? 0).
Proof.
  unfold Qc_ltb, Qccompare, Qcompare. cbn [this Q2Qc Qred Qnum Qden].
  change (Qnum (Qred 0)) with 0. change (Qden (Qred 0)) with 1%positive.
  rewrite Z.mul_1_r. cbn [Z.mul].
  unfold Z.ltb. reflexivity.
Qed.

Lemma Qc_ltb_0_l (q : Qc) : Qc_ltb (Q2Qc 0) q = (0 <? Qnum q).
Proof.
  unfold Qc_ltb, Qccompare, Qcompare. cbn [this Q2Qc Qred Qnum Qden].
  change (Qnum (Qred 0)) with 0. change (Qden (Qred 0)) with 1%positive.
  rewrite Z.mul_1_r. cbn [Z.mul].
  unfold Z.ltb. reflexivity.
Qed.

(** Sign of the numerator of a fraction put in lowest terms. *)
Lemma Qred_num_sign (k : Z) (s : positive) :
  (0 <= k -> 0 <= Qnum (Qred (k # s))) /\ (k <= 0 -> Qnum (Qred (k # s)) <= 0).
Proof.
  pose proof (Qred_correct (k # s)) as H. unfold Qeq in H. cbn [Qnum Qden] in H.
  split; intros Hk; nia.
Qed.

Lemma rounded_units_opp n d : 0 < d -> rounded_units (- n) d = - rounded_units n d.
Proof.
  intros Hd. unfold rounded_units.
  pose proof (Z.div_mod n d ltac:(lia)) as Hdm.
  pose proof (Z.mod_pos_bound n d Hd) as Hr.
  destruct (Z.eq_dec (n mod d) 0) as [Hz | Hnz].
  - rewrite (Z.div_opp_l_z n d ltac:(lia) Hz), (Z.mod_opp_l_z n d ltac:(lia) Hz), Hz.
    destruct (Z.ltb_spec (2 * 0) d); [reflexivity | lia].
  - rewrite (Z.div_opp_l_nz n d ltac:(lia) Hnz), (Z.mod_opp_l_nz n d ltac:(lia) Hnz).
    destruct (Z.ltb_spec (2 * (d - n mod d)) d),
             (Z.ltb_spec (2 * (n mod d)) d),
             (Z.ltb_spec d (2 * (d - n mod d))),
             (Z.ltb_spec d (2 * (n mod d))); try lia.
    replace (- (n / d) - 1) with (- (n / d + 1)) by lia.
    rewrite Z.even_opp, Z.even_add. cbn [Z.even].
    destruct (Z.even (n / d)); cbn [Bool.eqb]; lia.
Qed.

Lemma rounded_units_sign n d :
  0 < d -> (0 <= n -> 0 <= rounded_units n d) /\ (n <= 0 -> rounded_units n d <= 0).
Proof.
  intros Hd.
  assert (Hpos : forall m, 0 <= m -> 0 <= rounded_units m d).
  { intros m Hm. unfold rounded_units.
    pose proof (Z.div_pos m d Hm Hd).
    destruct (_ <? _); [lia|]. destruct (_ <? _); [lia|]. destruct (Z.even _); lia. }
  split; [apply Hpos|].
  intros Hn. pose proof (Hpos (- n) ltac:(lia)) as H.
  rewrite rounded_units_opp in H by exact Hd. lia.
Qed.

Lemma round_half_even_units (q : Qc) (n : nat) :
  round_half_even q n =
  Q2Qc (rounded_units (Qnum q * 10 ^ Z.of_nat n) (Zpos (Qden q)) # Z.to_pos (10 ^ Z.of_nat n)).
Proof. reflexivity. Qed.

(** Rounding to the nearest, ties to even, commutes with the change of
    sign. *)
Lemma round_half_even_opp (q : Qc) (n : nat) :
  round_half_even (- q)%Qc n = (- round_half_even q n)%Qc.
Proof.
  rewrite !round_half_even_units, Qc_opp_this. cbn [Qnum Qden Qopp].
  rewrite Z.mul_opp_l, rounded_units_opp by lia.
  apply Qc_is_canon. rewrite Qc_opp_this. cbn [this Q2Qc].
  rewrite !Qred_correct. reflexivity.
Qed.

Lemma round_half_even_sign (q : Qc) (n : nat) :
  (0 <= Qnum q -> 0 <= Qnum (round_half_even q n)) /\
  (Qnum q <= 0 -> Qnum (round_half_even q n) <= 0).
Proof.
  rewrite round_half_even_units. cbn [this Q2Qc].
  assert (Hs : 0 < 10 ^ Z.of_nat n) by (apply Z.pow_pos_nonneg; lia).
  destruct (rounded_units_sign (Qnum q * 10 ^ Z.of_nat n) (Zpos (Qden q)) ltac:(lia))
    as [Hp Hn].
  destruct (Qred_num_sign (rounded_units (Qnum q * 10 ^ Z.of_nat n) (Zpos (Qden q)))
              (Z.to_pos (10 ^ Z.of_nat n))) as [Hp' Hn'].
  split; intros Hq; [apply Hp', Hp | apply Hn', Hn]; nia.
Qed.

Lemma round_opp x n : round (nopp x) n = nopp (round x n).
Proof.
  destruct x as [q| | |]; try reflexivity.
  cbn [nopp round]. rewrite round_half_even_opp. reflexivity.
Qed.

(** ** Live trades: the instrument rows *)

Section InstrumentRows.
Context {B : PyBuiltins}.

Lemma config_float_cases config key d :
  (float_row_readable config key /\ exists x, config_float config key d = Ok x) \/
  (~ float_row_readable config key /\ config_float config key d = Raise ValueError).
Proof.
  unfold float_row_readable, config_float.
  destruct (config !! key) as [s|].
  - destruct (py_float s) as [x|] eqn:E.
    + left. split; [intros s' [= <-]; congruence | eauto].
    + right. split; [intros H; apply (H s eq_refl E) | reflexivity].
  - left. split; [intros s [=] | eauto].
Qed.

Lemma config_int_cases config key d :
  (int_row_readable config key /\ exists x, config_int config key d = Ok x) \/
  (~ int_row_readable config key /\ config_int config key d = Raise ValueError).
Proof.
  unfold int_row_readable, config_int.
  destruct (config !! key) as [s|].
  - destruct (py_int s) as [x|] eqn:E.
    + left. split; [intros s' [= <-]; congruence | eauto].
    + right. split; [intros H; apply (H s eq_refl E) | reflexivity].
  - left. split; [intros s [=] | eauto].
Qed.

Lemma get_instrument_config_cases config :
  (instrument_rows_readable config /\ exists ic, get_instrument_config config = Ok ic) \/
  (~ instrument_rows_readable config /\ get_instrument_config config = Raise ValueError).
Proof.
  unfold get_instrument_config, instrument_rows_readable. simpl.
  repeat
    match goal with
    | |- context [mbind _ (config_float config ?key ?d)] =>
        let R := fresh "R" in
        destruct (config_float_cases config key d) as [[R [? ->]] | [R ->]];
          [simpl | right; split; [tauto | reflexivity]]
    | |- context [mbind _ (config_int config ?key ?d)] =>
        let R := fresh "R" in
        destruct (config_int_cases config key d) as [[R [? ->]] | [R ->]];
          [simpl | right; split; [tauto | reflexivity]]
    end.
  left. split; [tauto | eauto].
Qed.

(** The six instrument rows of [app_config] are read on every call, for
    every instrument.  When each of them is absent or is a number, the
    instrument configuration is returned; when one of them is not a number,
    the plan generator, the execution P&L and the risk recalculator raise
    [ValueError] whatever the instrument and the trade are. *)
Theorem unreadable_instrument_row_raises config :
  (instrument_rows_readable config /\
   exists ic, get_instrument_config config = Ok ic) \/
  (~ instrument_rows_readable config /\
   (forall direction inst entry q md,
      compute_live_trade_plan config direction inst entry q md = Raise ValueError) /\
   (forall direction inst entry exec_price q,
      compute_execution_pnl config direction inst entry exec_price q = Raise ValueError) /\
   (forall live_trade, recalculate_live_trade config live_trade = Raise ValueError)).
Proof.
  destruct (get_instrument_config_cases config) as [H | [Hn Hraise]]; [left; exact H|].
  right. split; [exact Hn|].
  unfold compute_live_trade_plan, compute_execution_pnl, recalculate_live_trade,
    instrument_dpp.
  rewrite Hraise. repeat split.
Qed.
End InstrumentRows.

(** ** Numbers: change of sign *)

Lemma Qc_compare_0 (q : Qc) : (q ?= Q2Qc 0)%Qc = (Qnum q ?= 0).
Proof.
  unfold Qccompare, Qcompare. cbn [this Q2Qc].
  change (Qnum (Qred 0)) with 0. change (Qden (Qred 0)) with 1%positive.
  rewrite Z.mul_1_r. reflexivity.
Qed.

Lemma Qc_num_opp (q : Qc) : Qnum (- q)%Qc = - Qnum q.
Proof. rewrite Qc_opp_this. reflexivity. Qed.

Lemma nsign_nopp x : nsign (nopp x) = CompOpp <$> nsign x.
Proof.
  destruct x as [q| | |]; try reflexivity.
  cbn [nopp nsign fmap option_fmap option_map].
  rewrite !Qc_compare_0, Qc_num_opp. f_equal.
  destruct (Qnum q); reflexivity.
Qed.

Lemma nopp_involutive x : nopp (nopp x) = x.
Proof. destruct x; try reflexivity. cbn [nopp]. rewrite Qcopp_involutive. reflexivity. Qed.

Lemma nsub_swap x y : nsub x y = nopp (nsub y x).
Proof.
  destruct x as [a| | |], y as [b| | |]; try reflexivity.
  unfold nsub. cbn [nopp nadd]. f_equal. ring.
Qed.

Lemma nmul_nopp_l x y : nmul (nopp x) y = nopp (nmul x y).
Proof.
  destruct x as [a| | |], y as [b| | |]; try reflexivity;
    try (cbn [nopp nmul]; f_equal; ring);
    unfold nmul; rewrite ?nsign_nopp; cbn [nopp];
    try (destruct (nsign (Fin a)) as [[]|]; reflexivity);
    try (destruct (nsign (Fin b)) as [[]|]; reflexivity).
Qed.

(** ** Live trades: the P&L of an execution *)

Section ExecutionFacts.
Context {B : PyBuiltins}.

Lemma execution_pnl_short dpp direction entry exec_price q :
  direction <> "Long" ->
  execution_pnl dpp direction entry exec_price q =
  nopp (execution_pnl dpp "Long" entry exec_price q).
Proof.
  intros Hd. unfold execution_pnl.
  destruct (String.eqb_spec direction "Long") as [Heq | _]; [contradiction|].
  cbn [String.eqb Ascii.eqb Bool.eqb andb].
  rewrite (nsub_swap entry exec_price), !nmul_nopp_l, round_opp. reflexivity.
Qed.

Lemma execution_pnl_swap dpp direction entry exec_price q :
  execution_pnl dpp direction exec_price entry q =
  nopp (execution_pnl dpp direction entry exec_price q).
Proof.
  unfold execution_pnl.
  destruct (String.eqb direction "Long").
  - rewrite (nsub_swap entry exec_price), !nmul_nopp_l, round_opp. reflexivity.
  - rewrite (nsub_swap exec_price entry), !nmul_nopp_l, round_opp. reflexivity.
Qed.

(** The P&L of an execution changes sign with the direction and with the
    exchange of the entry and execution prices; every direction other than
    ["Long"] is computed as a short. *)
Theorem execution_pnl_changes_sign config direction inst entry exec_price q :
  direction <> "Long" ->
  compute_execution_pnl config direction inst entry exec_price q =
    (x ← compute_execution_pnl config "Long" inst entry exec_price q; Ok (nopp x)) /\
  compute_execution_pnl config direction inst entry exec_price q =
    compute_execution_pnl config "Short" inst entry exec_price q /\
  compute_execution_pnl config direction inst entry exec_price q =
    compute_execution_pnl config "Long" inst exec_price entry q.
Proof.
  intros Hd. unfold compute_execution_pnl.
  destruct (instrument_dpp config inst) as [dpp|e]; [|repeat split]. simpl.
  rewrite (execution_pnl_short dpp direction) by exact Hd.
  rewrite (execution_pnl_short dpp "Short") by discriminate.
  rewrite (execution_pnl_swap dpp "Long" entry exec_price).
  repeat split.
Qed.
End ExecutionFacts.

(** A short of two units entered at 100 and bought back at 98. *)
Lemma execution_pnl_witness :
  compute_execution_pnl (B := example_builtins) ∅ "Short" "MES" (of_int 100) (of_int 98) 2 =
    (x ← compute_execution_pnl (B := example_builtins) ∅ "Long" "MES"
           (of_int 100) (of_int 98) 2;
     Ok (nopp x)) /\
  compute_execution_pnl (B := example_builtins) ∅ "Long" "MES" (of_int 98) (of_int 100) 2 =
    Ok (of_int 20).
Proof.
  destruct (execution_pnl_changes_sign (B := example_builtins) ∅ "Short" "MES"
              (of_int 100) (of_int 98) 2) as (H1 & _ & H3); [discriminate|].
  split; [exact H1|]. canon_refl.
Defined.

(** ** Live trades: consistency of the snapshot *)

Lemma Qc_num_0 (q : Qc) : Qnum q = 0 -> q = Q2Qc 0.
Proof.
  intros H. rewrite <- (Qc_is_canon q (Q2Qc 0)); [reflexivity|].
  cbn [this Q2Qc]. rewrite Qred_correct. unfold Qeq. rewrite H. reflexivity.
Qed.

Lemma not_negative_nmax x : not_negative (nmax x (of_int 0)).
Proof.
  unfold not_negative, nmax. destruct (nltb x (of_int 0)) eqn:E; [reflexivity | exact E].
Qed.

Lemma not_negative_zero : not_negative (of_int 0).
Proof. reflexivity. Qed.

Lemma not_negative_nadd x y : not_negative x -> not_negative y -> not_negative (nadd x y).
Proof.
  unfold not_negative, of_int.
  destruct x as [a| | |], y as [b| | |]; try reflexivity; try discriminate.
  cbn [nadd nltb]. rewrite !Qc_ltb_0_r. intros Ha Hb.
  apply Z.ltb_ge in Ha, Hb. apply Z.ltb_ge.
  unfold Qcplus, Q2Qc, Qplus. cbn [this].
  apply Qred_num_sign. nia.
Qed.

Lemma not_negative_round x n : not_negative x -> not_negative (round x n).
Proof.
  unfold not_negative, of_int. destruct x as [q| | |]; try (intros H; exact H).
  cbn [round nltb]. rewrite !Qc_ltb_0_r. intros Hq.
  apply Z.ltb_ge in Hq. apply Z.ltb_ge. apply round_half_even_sign, Hq.
Qed.

(** The risk shown is the loss side of the worst case: what [max(0, -e)]
    gives of the exposure [e] shown. *)
Lemma risk_of_round wc :
  round (risk_of wc) 2 = nmax (of_int 0) (nopp (round wc 2)) /\
  not_negative (round (risk_of wc) 2).
Proof.
  unfold risk_of, nmax, not_negative, of_int.
  destruct wc as [q| | |];
    try (cbn [nltb nabs]; fold (of_int 0); rewrite ?round_zero; split; reflexivity).
  cbn [nltb nabs round nopp]. rewrite !Qc_ltb_0_r, !Qc_ltb_0_l.
  destruct (round_half_even_sign q 2) as [Hpos Hneg].
  destruct (Z.ltb_spec (Qnum q) 0) as [Hlt | Hge].
  - cbn [round nltb]. rewrite Qc_ltb_0_r, round_half_even_opp, Qc_num_opp.
    specialize (Hneg ltac:(lia)).
    destruct (Z.ltb_spec 0 (- Qnum (round_half_even q 2))) as [H1 | H1].
    + split; [reflexivity | apply Z.ltb_ge; lia].
    + assert (Hz : round_half_even q 2 = Q2Qc 0) by (apply Qc_num_0; lia).
      rewrite Hz. split; [|reflexivity].
      apply (f_equal Fin), Qc_is_canon. reflexivity.
  - specialize (Hpos Hge).
    fold (of_int 0). rewrite round_zero. unfold of_int.
    rewrite Qc_num_opp.
    destruct (Z.ltb_spec 0 (- Qnum (round_half_even q 2))) as [H1 | H1]; [lia|].
    split; reflexivity.
Qed.

Lemma fold_portion_step_reward is_long entry dpp pe pl ps st :
  not_negative (total_reward st) ->
  not_negative (total_reward (fold_left (portion_step is_long entry dpp pe pl) ps st)).
Proof.
  revert st. induction ps as [|p ps IH]; intros st Hst; [exact Hst|].
  cbn [fold_left]. apply IH. unfold portion_step.
  destruct (pl !! ("stop", p)) as [stop_lv|]; [|exact Hst].
  destruct (_ <=? 0); [exact Hst|].
  cbn [total_reward]. destruct (pl !! ("tp", p)); [|exact Hst].
  apply not_negative_nadd; [exact Hst | apply not_negative_nmax].
Qed.

(** In every snapshot the risk and the reward shown are not negative, and
    the risk is the loss side of the exposure shown, [max(0, -e)] for an
    exposure [e]: it is the loss when the exposure is a loss, and 0 when
    the stops lock a profit. *)
Theorem snapshot_risk_mirrors_exposure dpp live_trade snap :
  risk_snapshot dpp live_trade = Ok snap ->
  exists r p,
    snap !! "current_risk" = Some (VNum r) /\
    snap !! "potential_reward" = Some (VNum p) /\
    not_negative r /\ not_negative p /\
    (exited_total live_trade < total_qty live_trade ->
     exists e, snap !! "net_stop_exposure" = Some (VNum e) /\
               r = nmax (of_int 0) (nopp e)).
Proof.
  unfold risk_snapshot. fold (exited_total live_trade).
  destruct (Z.leb_spec (total_qty live_trade - exited_total live_trade) 0) as [Hle | Hgt].
  { intros [= <-]. exists (of_int 0), (of_int 0).
    split; [reflexivity|]. split; [reflexivity|].
    split; [reflexivity|]. split; [reflexivity|]. lia. }
  destruct (String.eqb (mode live_trade) "partials").
  - cbn [mbind result_bind]. intros [= <-]. eexists _, _.
    split; [reflexivity|]. split; [reflexivity|].
    unfold partials_outcome. cbn [current_risk reward net_stop_exposure].
    split; [apply risk_of_round|].
    split; [apply not_negative_round, fold_portion_step_reward, not_negative_zero|].
    intros _. eexists. split; [reflexivity|]. apply risk_of_round.
  - unfold full_outcome.
    replace (0 <? total_qty live_trade - exited_total live_trade) with true
      by (symmetry; apply Z.ltb_lt; lia).
    destruct (first_level "stop" (levels live_trade)) as [stop_lv|];
      cbn [mbind result_bind]; intros [= <-]; eexists _, _;
      (split; [reflexivity|]); (split; [reflexivity|]);
      cbn [current_risk reward net_stop_exposure].
    + split; [apply risk_of_round|].
      split; [apply not_negative_round;
              destruct (first_level "tp" (levels live_trade));
              [apply not_negative_nmax | apply not_negative_zero]|].
      intros _. eexists. split; [reflexivity|]. apply risk_of_round.
    + change (Fin (round_half_even (Q2Qc (inject_Z 0)) 2)) with (round (of_int 0) 2).
      rewrite round_zero.
      split; [reflexivity|].
      split; [apply not_negative_round;
              destruct (first_level "tp" (levels live_trade));
              [apply not_negative_nmax | apply not_negative_zero]|].
      intros _. eexists. split; reflexivity.
Qed.

(** The trade in partials mode whose first portion is exited: an exposure of
    -175 and a risk of 175. *)
Lemma snapshot_risk_witness :
  exists snap r p e,
    risk_snapshot (of_int 5) partials_trade = Ok snap /\
    snap !! "current_risk" = Some (VNum r) /\
    snap !! "potential_reward" = Some (VNum p) /\
    snap !! "net_stop_exposure" = Some (VNum e) /\
    not_negative r /\ not_negative p /\ r = nmax (of_int 0) (nopp e).
Proof.
  destruct (snapshot_risk_mirrors_exposure (of_int 5) partials_trade _ eq_refl)
    as (r & p & Hr & Hp & Hnr & Hnp & He).
  destruct He as (e & He & Hre); [vm_compute; reflexivity|].
  eexists _, r, p, e. split; [reflexivity|]. repeat split; assumption.
Defined.

(** ** Live trades: the plan of full mode *)

Lemma nabs_nopp x : nabs (nopp x) = nabs x.
Proof.
  destruct x as [q| | |]; try reflexivity.
  cbn [nopp nabs]. rewrite !Qc_ltb_0_r, Qc_num_opp, Qcopp_involutive.
  destruct (Z.ltb_spec (- Qnum q) 0), (Z.ltb_spec (Qnum q) 0); try reflexivity; try lia.
  assert (Hz : q = Q2Qc 0) by (apply Qc_num_0; lia).
  rewrite Hz. apply (f_equal Fin), Qc_is_canon. reflexivity.
Qed.

Lemma planned_stop_eq is_long (entry sd : Qc) dpp p q :
  {| level_type := "stop"; portion := p; lv_qty := q;
     lv_price := round (stop_price_at is_long (Fin entry) (Fin sd)) 2;
     risk_dollars :=
       round (nmul (nmul (nabs (nsub (Fin entry)
                                  (stop_price_at is_long (Fin entry) (Fin sd))))
                         (of_int q)) dpp) 2;
     reward_dollars := of_int 0 |} =
  planned_stop is_long entry sd dpp p q.
Proof.
  unfold planned_stop, stop_price_at. destruct is_long.
  - replace (nsub (Fin entry) (nsub (Fin entry) (Fin sd))) with (Fin sd)
      by (unfold nsub; cbn [nopp nadd]; f_equal; ring).
    reflexivity.
  - replace (nsub (Fin entry) (nadd (Fin entry) (Fin sd))) with (nopp (Fin sd))
      by (unfold nsub; cbn [nopp nadd]; f_equal; ring).
    rewrite nabs_nopp. reflexivity.
Qed.

Lemma planned_tp_eq is_long (entry td : Qc) dpp p q :
  {| level_type := "tp"; portion := p; lv_qty := q;
     lv_price := round (tp_price_at is_long (Fin entry) (Fin td)) 2;
     risk_dollars := of_int 0;
     reward_dollars :=
       round (nmul (nmul (nabs (nsub (tp_price_at is_long (Fin entry) (Fin td))
                                     (Fin entry)))
                         (of_int q)) dpp) 2 |} =
  planned_tp is_long entry td dpp p q.
Proof.
  unfold planned_tp, tp_price_at. destruct is_long.
  - replace (nsub (nadd (Fin entry) (Fin td)) (Fin entry)) with (Fin td)
      by (unfold nsub; cbn [nopp nadd]; f_equal; ring).
    reflexivity.
  - replace (nsub (nsub (Fin entry) (Fin td)) (Fin entry)) with (nopp (Fin td))
      by (unfold nsub; cbn [nopp nadd]; f_equal; ring).
    rewrite nabs_nopp. reflexivity.
Qed.

Section FullPlanFacts.
Context {B : PyBuiltins}.

(** In full mode the plan reads the two distances of full mode and no
    other trade default.  It has a stop and a take-profit level for the
    whole quantity, the stop against the direction of the trade and the
    take-profit with it; the risk is |stop distance| x quantity x dollars
    per point and the reward |take-profit distance| x quantity x dollars per
    point, both rounded to 2 decimals, whatever the direction and the entry
    price are. *)
Theorem full_plan_amounts config direction inst (entry : Qc) total dpp (sd td : Qc) :
  instrument_dpp config inst = Ok dpp ->
  py_float (trade_default config "full_stop_points" "20") = Some (Fin sd) ->
  py_float (trade_default config "full_tp_points" "20") = Some (Fin td) ->
  compute_live_trade_plan config direction inst (Fin entry) total "full" =
  Ok [ planned_stop (String.eqb direction "Long") entry sd dpp 1 total;
       planned_tp (String.eqb direction "Long") entry td dpp 1 total ].
Proof.
  intros Hdpp Hsd Htd. unfold compute_live_trade_plan. rewrite Hdpp.
  cbn [mbind result_bind]. unfold plan_levels.
  cbn [String.eqb Ascii.eqb Bool.eqb andb].
  rewrite (get_trade_defaults_lookup config "full_stop_points" "20") by (simpl; tauto).
  rewrite (get_trade_defaults_lookup config "full_tp_points" "20") by (simpl; tauto).
  cbn [mbind result_bind]. unfold float_of_str. rewrite Hsd, Htd.
  cbn [mbind result_bind]. rewrite planned_stop_eq, planned_tp_eq. reflexivity.
Qed.
End FullPlanFacts.

(** A short entry at 100 for 2 units of MES with the distances of the
    defaults: the stop is at 120, the take-profit at 80, and 200 dollars are
    at risk. *)
Lemma full_plan_amounts_witness :
  compute_live_trade_plan (B := example_builtins) ∅ "Short" "MES" (of_int 100) 2 "full" =
  Ok [ {| level_type := "stop"; portion := 1; lv_qty := 2; lv_price := of_int 120;
          risk_dollars := of_int 200; reward_dollars := of_int 0 |};
       {| level_type := "tp"; portion := 1; lv_qty := 2; lv_price := of_int 80;
          risk_dollars := of_int 0; reward_dollars := of_int 200 |} ].
Proof.
  rewrite (full_plan_amounts (B := example_builtins) ∅ "Short" "MES"
             (Q2Qc (inject_Z 100)) 2 (of_int 5) (Q2Qc (inject_Z 20)) (Q2Qc (inject_Z 20))).
  - canon_refl.
  - reflexivity.
  - vm_compute. reflexivity.
  - vm_compute. reflexivity.
Defined.

(** ** Live trades: the portions of the snapshot *)

Lemma portion_step_details is_long entry dpp exs lvs st p :
  portion_details
    (portion_step is_long entry dpp (portion_exited_of exs) (portion_levels_of lvs) st p) =
  portion_details st ++
  match remaining_detail is_long entry dpp lvs exs p with
  | Some d => [d]
  | None => []
  end.
Proof.
  unfold portion_step, remaining_detail, remaining_in.
  rewrite !portion_levels_lookup, portion_exited_lookup.
  destruct (level_of "stop" lvs p) as [lv|]; [|rewrite app_nil_r; reflexivity].
  destruct (Z.leb_spec (lv_qty lv - exited_in exs p) 0) as [Hle | Hgt];
    destruct (Z.ltb_spec 0 (lv_qty lv - exited_in exs p)) as [Hlt | Hge];
    try lia; [rewrite app_nil_r; reflexivity|].
  cbn [portion_details]. destruct (level_of "tp" lvs p); reflexivity.
Qed.

Lemma portions_loop_details is_long entry dpp exs lvs :
  portion_details (portions_loop is_long entry dpp exs lvs) =
  omap (remaining_detail is_long entry dpp lvs exs) [1; 2; 3].
Proof.
  unfold portions_loop. cbn [fold_left].
  rewrite !portion_step_details. cbn [portion_details omap list_omap app].
  destruct (remaining_detail is_long entry dpp lvs exs 1),
           (remaining_detail is_long entry dpp lvs exs 2),
           (remaining_detail is_long entry dpp lvs exs 3); reflexivity.
Qed.

Lemma remaining_detail_qty is_long entry dpp lvs exs p d :
  remaining_detail is_long entry dpp lvs exs p = Some d ->
  pd_portion d = p /\ 0 < pd_qty d /\
  exists lv, level_of "stop" lvs p = Some lv /\ pd_qty d = lv_qty lv - exited_in exs p.
Proof.
  unfold remaining_detail, remaining_in.
  destruct (level_of "stop" lvs p) as [lv|]; [|discriminate].
  destruct (Z.ltb_spec 0 (lv_qty lv - exited_in exs p)); [|discriminate].
  intros [= <-]. cbn [pd_portion pd_qty]. split; [reflexivity|]. split; [lia|].
  exists lv. split; reflexivity.
Qed.

(** The fields [active_portions] and [portion_details] of a snapshot hold
    the same list.  For a trade in partials mode that has quantity left it
    has one entry for each of the portions 1, 2 and 3 that has a stop level
    with more quantity than was exited from the portion, in this order, with
    the quantity that is left of it; otherwise it is empty. *)
Theorem active_portions_are_portion_details dpp live_trade snap :
  risk_snapshot dpp live_trade = Ok snap ->
  exists ds,
    snap !! "portion_details" = Some (VList ds) /\
    snap !! "active_portions" = Some (VList ds) /\
    ds = (if String.eqb (mode live_trade) "partials" &&
             (exited_total live_trade <? total_qty live_trade)
          then omap (remaining_detail (is_long_trade live_trade)
                       (entry_price live_trade) dpp
                       (levels live_trade) (executions live_trade)) [1; 2; 3]
          else []) /\
    Forall (fun d => 0 < pd_qty d /\
                     exists lv, level_of "stop" (levels live_trade) (pd_portion d) = Some lv /\
                                pd_qty d = lv_qty lv -
                                           exited_in (executions live_trade) (pd_portion d))
           ds.
Proof.
  unfold risk_snapshot. fold (exited_total live_trade). fold (is_long_trade live_trade).
  destruct (Z.leb_spec (total_qty live_trade - exited_total live_trade) 0) as [Hle | Hgt].
  { intros [= <-]. exists []. split; [reflexivity|]. split; [reflexivity|].
    replace (exited_total live_trade <? total_qty live_trade) with false
      by (symmetry; apply Z.ltb_ge; lia).
    rewrite andb_false_r. split; [reflexivity | constructor]. }
  replace (exited_total live_trade <? total_qty live_trade) with true
    by (symmetry; apply Z.ltb_lt; lia).
  rewrite andb_true_r.
  destruct (String.eqb (mode live_trade) "partials").
  - cbn [mbind result_bind]. intros [= <-].
    unfold partials_outcome. cbn [details]. rewrite portions_loop_details.
    set (ds := omap _ [1; 2; 3]).
    assert (Hall : Forall (fun d => 0 < pd_qty d /\
                     exists lv, level_of "stop" (levels live_trade) (pd_portion d) = Some lv /\
                                pd_qty d = lv_qty lv -
                                           exited_in (executions live_trade) (pd_portion d))
                     ds).
    { apply Forall_forall. intros d Hd. unfold ds in Hd.
      apply list_elem_of_omap in Hd as (p & _ & Hp).
      apply remaining_detail_qty in Hp as (Hpd & Hq & lv & Hlv & Hrem).
      rewrite Hpd. split; [exact Hq|]. exists lv. split; assumption. }
    exists ds. split; [reflexivity|]. split.
    + replace (filter (fun d => 0 < pd_qty d) ds) with ds; [reflexivity|].
      symmetry. apply filter_all. eapply Forall_impl; [exact Hall|].
      intros d [Hq _]. exact Hq.
    + split; [reflexivity | exact Hall].
  - unfold full_outcome.
    replace (0 <? total_qty live_trade - exited_total live_trade) with true
      by (symmetry; apply Z.ltb_lt; lia).
    destruct (first_level "stop" (levels live_trade));
      cbn [mbind result_bind]; intros [= <-]; exists [];
      (split; [reflexivity|]); (split; [reflexivity|]);
      (split; [reflexivity | constructor]).
Qed.

(** The trade in partials mode whose first portion is exited: the portions 2
    and 3 remain, with one unit each. *)
Lemma portion_details_witness :
  exists snap ds,
    risk_snapshot (of_int 5) partials_trade = Ok snap /\
    snap !! "portion_details" = Some (VList ds) /\
    snap !! "active_portions" = Some (VList ds) /\
    map pd_portion ds = [2; 3] /\ map pd_qty ds = [1; 1].
Proof.
  destruct (active_portions_are_portion_details (of_int 5) partials_trade _ eq_refl)
    as (ds & Hd & Ha & Hds & _).
  eexists _, ds. split; [reflexivity|]. split; [exact Hd|]. split; [exact Ha|].
  rewrite Hds. split; reflexivity.
Defined.

(** ** Live trades: the mode *)

Section ModeFacts.
Context {B : PyBuiltins}.

(** The two functions do not read the mode alike.  The plan generator
    takes every mode other than ["full"] as partials and plans three
    portions; the risk recalculator takes every mode other than
    ["partials"] as full and computes with the first stop and take-profit
    levels and the whole remaining quantity.  A trade whose mode is neither
    is planned as one and recalculated as the other. *)
Theorem unknown_mode_is_planned_as_partials_and_recalculated_as_full md :
  md <> "full" -> md <> "partials" ->
  (forall config direction inst entry q,
     compute_live_trade_plan config direction inst entry q md =
     compute_live_trade_plan config direction inst entry q "partials") /\
  (forall config live_trade,
     mode live_trade = md ->
     recalculate_live_trade config live_trade =
     recalculate_live_trade config (with_mode live_trade "full")).
Proof.
  intros Hfull Hpartials. split.
  - intros config direction inst entry q.
    unfold compute_live_trade_plan, plan_levels.
    apply String.eqb_neq in Hfull. rewrite Hfull. reflexivity.
  - intros config live_trade Hmd.
    unfold recalculate_live_trade, risk_snapshot, with_mode.
    cbn [lt_direction instrument entry_price total_qty mode levels executions].
    rewrite Hmd. apply String.eqb_neq in Hpartials. rewrite Hpartials. reflexivity.
Qed.
End ModeFacts.

(** A mode that the program does not know. *)
Lemma unknown_mode_witness :
  compute_live_trade_plan (B := example_builtins) ∅ "Long" "MES" (of_int 100) 3 "scalp" =
  compute_live_trade_plan (B := example_builtins) ∅ "Long" "MES" (of_int 100) 3 "partials" /\
  recalculate_live_trade (B := example_builtins) ∅ (with_mode partials_trade "scalp") =
  recalculate_live_trade (B := example_builtins) ∅ (with_mode partials_trade "full").
Proof.
  destruct (unknown_mode_is_planned_as_partials_and_recalculated_as_full
              (B := example_builtins) "scalp") as [Hplan Hrecalc];
    [discriminate | discriminate |].
  split; [apply Hplan | apply (Hrecalc ∅ (with_mode partials_trade "scalp")); reflexivity].
Defined.

(** ** Live trades: from the plan to the first snapshot *)

Section FreshTradeFacts.
Context {B : PyBuiltins}.

(** The stop level of a portion among the levels of a plan of partials
    mode, in whatever order the levels are listed. *)
Lemma planned_stop_level (lvls lvs : list Level) q1 q2 q3 :
  map level_shape lvls =
    [ ("stop", 1, q1); ("tp", 1, q1); ("stop", 2, q2); ("tp", 2, q2);
      ("stop", 3, q3); ("tp", 3, q3) ] ->
  lvs ≡ₚ lvls ->
  (exists lv, level_of "stop" lvs 1 = Some lv /\ lv_qty lv = q1) /\
  (exists lv, level_of "stop" lvs 2 = Some lv /\ lv_qty lv = q2) /\
  (exists lv, level_of "stop" lvs 3 = Some lv /\ lv_qty lv = q3).
Proof.
  intros Hshape Hperm.
  destruct lvls as [|a1 [|a2 [|a3 [|a4 [|a5 [|a6 [|a7 rest]]]]]]]; try discriminate Hshape.
  unfold level_shape in Hshape. cbn [map] in Hshape.
  injection Hshape as Ht1 Hp1 Hq1 Ht2 Hp2 Hq2 Ht3 Hp3 Hq3 Ht4 Hp4 Hq4 Ht5 Hp5 Hq5 Ht6 Hp6 Hq6.
  assert (Hone : forall p a,
            filter (fun lv => level_type lv = "stop" /\ portion lv = p)
                   [a1; a2; a3; a4; a5; a6] = [a] ->
            exists lv, level_of "stop" lvs p = Some lv /\ lv_qty lv = lv_qty a).
  { intros p a Hf. exists a. split; [|reflexivity].
    unfold level_of.
    assert (Hp : filter (fun lv => level_type lv = "stop" /\ portion lv = p) lvs ≡ₚ [a])
      by (rewrite Hperm, Hf; reflexivity).
    apply Permutation_singleton_r in Hp. rewrite Hp. reflexivity. }
  assert (Hf1 : filter (fun lv => level_type lv = "stop" /\ portion lv = 1)
                        [a1; a2; a3; a4; a5; a6] = [a1]).
  { rewrite !filter_cons, filter_nil.
    rewrite Ht1, Hp1, Ht2, Hp2, Ht3, Hp3, Ht4, Hp4, Ht5, Hp5, Ht6, Hp6.
    decide_pairs. reflexivity. }
  assert (Hf2 : filter (fun lv => level_type lv = "stop" /\ portion lv = 2)
                        [a1; a2; a3; a4; a5; a6] = [a3]).
  { rewrite !filter_cons, filter_nil.
    rewrite Ht1, Hp1, Ht2, Hp2, Ht3, Hp3, Ht4, Hp4, Ht5, Hp5, Ht6, Hp6.
    decide_pairs. reflexivity. }
  assert (Hf3 : filter (fun lv => level_type lv = "stop" /\ portion lv = 3)
                        [a1; a2; a3; a4; a5; a6] = [a5]).
  { rewrite !filter_cons, filter_nil.
    rewrite Ht1, Hp1, Ht2, Hp2, Ht3, Hp3, Ht4, Hp4, Ht5, Hp5, Ht6, Hp6.
    decide_pairs. reflexivity. }
  split; [|split].
  - rewrite <- Hq1. apply Hone, Hf1.
  - rewrite <- Hq3. apply Hone, Hf2.
  - rewrite <- Hq5. apply Hone, Hf3.
Qed.

Lemma remaining_detail_fresh is_long entry dpp lvs p lv :
  level_of "stop" lvs p = Some lv ->
  pd_qty <$> remaining_detail is_long entry dpp lvs [] p =
  if 0 <? lv_qty lv then Some (lv_qty lv) else None.
Proof.
  intros Hlv. unfold remaining_detail, remaining_in. rewrite Hlv.
  change (exited_in [] p) with 0. rewrite Z.sub_0_r.
  destruct (0 <? lv_qty lv); reflexivity.
Qed.

(** A trade in partials mode that has just been planned: whatever the
    order in which its levels are listed, the recalculator returns a
    snapshot, nothing is exited, and the portions that the snapshot lists
    hold the three quantities of the plan, those that are 0 left out; their
    quantities add up to the quantity of the trade. *)
Theorem fresh_partials_trade_lists_every_unit
    config direction inst entry total lvls lvs :
  0 <= total ->
  compute_live_trade_plan config direction inst entry total "partials" = Ok lvls ->
  lvs ≡ₚ lvls ->
  exists snap ds,
    recalculate_live_trade config
      (fresh_trade direction inst entry total "partials" lvs) = Ok snap /\
    snap !! "exited_qty" = Some (VInt 0) /\
    snap !! "portion_details" = Some (VList ds) /\
    map pd_qty ds =
      filter (fun q => 0 < q)
             [ total / 3 + (if 0 <? total mod 3 then 1 else 0);
               total / 3 + (if 1 <? total mod 3 then 1 else 0);
               total / 3 ] /\
    sum_Z (map pd_qty ds) = total.
Proof.
  intros Htotal Hplan Hperm.
  unfold compute_live_trade_plan in Hplan.
  destruct (instrument_dpp config inst) as [dpp|] eqn:Hdpp; [|discriminate].
  cbn [mbind result_bind] in Hplan.
  assert (Hmd : "partials" <> "full") by discriminate.
  destruct (plan_levels_partials_inv _ _ _ _ _ _ _ Hmd Hplan)
    as (s & t1 & t2 & t3 & Hs & H1 & H2 & H3).
  destruct (partials_levels dpp _ direction entry total "partials" _ _ _ _
              Hmd Hs H1 H2 H3) as (lvls' & Hplan' & Hshape).
  rewrite Hplan in Hplan'. injection Hplan' as <-.
  destruct (planned_stop_level lvls lvs _ _ _ Hshape Hperm)
    as ((l1 & Hl1 & Hq1) & (l2 & Hl2 & Hq2) & (l3 & Hl3 & Hq3)).
  set (q1 := total / 3 + (if 0 <? total mod 3 then 1 else 0)) in *.
  set (q2 := total / 3 + (if 1 <? total mod 3 then 1 else 0)) in *.
  set (q3 := total / 3) in *.
  assert (Hsum : q1 + q2 + q3 = total /\ 0 <= q1 /\ 0 <= q2 /\ 0 <= q3).
  { unfold q1, q2, q3.
    assert (Hr : total mod 3 = 0 \/ total mod 3 = 1 \/ total mod 3 = 2)
      by (pose proof (Z.mod_pos_bound total 3); lia).
    pose proof (Z.div_mod total 3) as Hdm.
    pose proof (Z.div_pos total 3 Htotal ltac:(lia)) as Hdiv.
    destruct Hr as [Hr | [Hr | Hr]]; rewrite Hr in *; simpl; lia. }
  destruct Hsum as (Hsum & Hp1 & Hp2 & Hp3).
  clearbody q1 q2 q3.
  unfold recalculate_live_trade, fresh_trade. cbn [instrument]. rewrite Hdpp.
  cbn [mbind result_bind]. unfold risk_snapshot.
  cbn [lt_direction entry_price total_qty mode levels executions map].
  change (sum_Z []) with 0. rewrite Z.sub_0_r.
  destruct (Z.leb_spec total 0) as [Hle | Hgt].
  { eexists _, []. split; [reflexivity|]. split; [reflexivity|]. split; [reflexivity|].
    rewrite !filter_cons, filter_nil.
    repeat (case_decide; [lia|]). split; [reflexivity | change (0 = total); lia]. }
  cbn [String.eqb Ascii.eqb Bool.eqb andb mbind result_bind].
  unfold partials_outcome. cbn [details]. rewrite portions_loop_details.
  eexists _, _. split; [reflexivity|]. split; [reflexivity|]. split; [reflexivity|].
  pose proof (remaining_detail_fresh (String.eqb direction "Long") entry dpp lvs 1 l1 Hl1) as E1.
  pose proof (remaining_detail_fresh (String.eqb direction "Long") entry dpp lvs 2 l2 Hl2) as E2.
  pose proof (remaining_detail_fresh (String.eqb direction "Long") entry dpp lvs 3 l3 Hl3) as E3.
  rewrite Hq1 in E1. rewrite Hq2 in E2. rewrite Hq3 in E3.
  cbn [omap list_omap]. rewrite !filter_cons, filter_nil.
  destruct (remaining_detail _ entry dpp lvs [] 1) as [d1|];
    destruct (remaining_detail _ entry dpp lvs [] 2) as [d2|];
    destruct (remaining_detail _ entry dpp lvs [] 3) as [d3|];
    cbn [fmap option_fmap option_map] in E1, E2, E3;
    destruct (Z.ltb_spec 0 q1); try discriminate E1;
    destruct (Z.ltb_spec 0 q2); try discriminate E2;
    destruct (Z.ltb_spec 0 q3); try discriminate E3;
    repeat match goal with
      | H : Some _ = Some _ |- _ => injection H as H
      end;
    repeat (case_decide; try lia);
    cbn [map]; unfold sum_Z; cbn [fold_left];
    (split; [congruence | lia]).
Qed.
End FreshTradeFacts.

(** Four units planned in partials mode, the levels listed as the database
    returns them, stops first: the portions hold 2, 1 and 1 units. *)
Lemma fresh_partials_trade_witness :
  exists lvls snap ds,
    compute_live_trade_plan (B := example_builtins) ∅ "Long" "MES" (of_int 100) 4 "partials" =
      Ok lvls /\
    recalculate_live_trade (B := example_builtins) ∅
      (fresh_trade "Long" "MES" (of_int 100) 4 "partials"
         (filter (fun lv => level_type lv = "stop") lvls ++
          filter (fun lv => level_type lv <> "stop") lvls)) = Ok snap /\
    snap !! "portion_details" = Some (VList ds) /\
    map pd_qty ds = [2; 1; 1] /\
    sum_Z (map pd_qty ds) = 4.
Proof.
  destruct (compute_live_trade_plan (B := example_builtins) ∅ "Long" "MES" (of_int 100) 4
              "partials") as [lvls|] eqn:Hplan; [|vm_compute in Hplan; discriminate Hplan].
  destruct (fresh_partials_trade_lists_every_unit (B := example_builtins) ∅ "Long" "MES"
              (of_int 100) 4 lvls
              (filter (fun lv => level_type lv = "stop") lvls ++
               filter (fun lv => level_type lv <> "stop") lvls))
    as (snap & ds & Hsnap & _ & Hds & Hq & Hsum).
  - lia.
  - exact Hplan.
  - apply filter_app_complement.
  - exists lvls, snap, ds. split; [reflexivity|]. split; [exact Hsnap|].
    split; [exact Hds|]. split; [exact Hq | exact Hsum].
Defined.

(** ** The upload parser: dates *)

Section DateFacts.
Context {B : PyBuiltins} {R : FileReaders}.

Lemma parse_date_cases raw :
  (blank raw <-> _parse_date raw = Raise IndexError) /\
  (~ blank raw ->
   exists word rest,
     split (strip raw) = word :: rest /\
     _parse_date raw =
     Ok (default word (first_format word ["%m/%d/%Y"; "%Y-%m-%d"; "%m/%d/%y"]
                         "%Y-%m-%d"))).
Proof.
  unfold _parse_date, nth_item.
  pose proof (split_strip_blank raw) as Hnil.
  destruct (split (strip raw)) as [|word rest] eqn:Hsplit.
  - cbn [lookup list_lookup mbind result_bind].
    assert (Hb : blank raw) by (apply Hnil; reflexivity).
    split; [tauto | intros Hnb; contradiction].
  - cbn [lookup list_lookup mbind result_bind].
    assert (Hb : ~ blank raw) by (intros Hb; apply Hnil in Hb; discriminate Hb).
    split.
    + split; [intros Hb'; contradiction|].
      destruct (first_format word _ _); discriminate.
    + intros _. exists word, rest. split; [reflexivity|].
      destruct (first_format word _ _); reflexivity.
Qed.

Lemma parse_date_raises raw e : _parse_date raw = Raise e -> e = IndexError /\ blank raw.
Proof.
  intros He. unfold _parse_date, nth_item in He.
  pose proof (split_strip_blank raw) as Hnil.
  destruct (split (strip raw)) as [|word rest].
  - cbn [lookup list_lookup mbind result_bind] in He. injection He as <-.
    split; [reflexivity | apply Hnil; reflexivity].
  - cbn [lookup list_lookup mbind result_bind] in He.
    destruct (first_format word _ _); discriminate.
Qed.

(** [_parse_date] raises [IndexError] exactly on a text that is empty or
    made of white space only, the white space of [str.isspace], and raises
    nothing else.  On any other text it returns the date of the first word
    when that word is a date in one of the three formats, and the first
    word itself otherwise. *)
Theorem parse_date_raises_on_blank_text raw :
  (blank raw <-> _parse_date raw = Raise IndexError) /\
  (forall e, _parse_date raw = Raise e -> e = IndexError) /\
  (~ blank raw ->
   exists word rest,
     split (strip raw) = word :: rest /\
     _parse_date raw =
     Ok (default word (first_format word ["%m/%d/%Y"; "%Y-%m-%d"; "%m/%d/%y"]
                         "%Y-%m-%d"))).
Proof.
  destruct (parse_date_cases raw) as [H1 H2].
  split; [exact H1|]. split; [|exact H2].
  intros e He. apply parse_date_raises in He as [-> _]. reflexivity.
Qed.

(** The exceptions of a row: those that the loop catches, and the two
    that it lets through, with the cell that raises them. *)
Lemma fill_of_row_raises r e :
  fill_of_row r = Raise e ->
  caught e = true \/
  (e = OverflowError /\
   ((exists v, r !! "filledQty" = Some v /\
               (py_float (str v) = Some PInf \/ py_float (str v) = Some NInf)) \/
    (exists z, r !! "avgPrice" = Some (CInt z) /\ FLOAT_INT_BOUND <= Z.abs z))) \/
  (e = IndexError /\ exists v, r !! "Date" = Some v /\ blank (str v)).
Proof.
  unfold fill_of_row, getitem.
  destruct (r !! "B/S") as [s|]; cbn [mbind result_bind];
    [|intros [= <-]; left; reflexivity].
  destruct (r !! "filledQty") as [vq|]; cbn [mbind result_bind];
    [|intros [= <-]; left; reflexivity].
  unfold float_of_str at 1.
  destruct (py_float (str vq)) as [x|] eqn:Ex; cbn [mbind result_bind];
    [|intros [= <-]; left; reflexivity].
  destruct x as [q| | |]; cbn [int_of_float mbind result_bind].
  2: { intros [= <-]. right. left. split; [reflexivity|]. left. exists vq. tauto. }
  2: { intros [= <-]. right. left. split; [reflexivity|]. left. exists vq. tauto. }
  2: { intros [= <-]. left. reflexivity. }
  destruct (r !! "avgPrice") as [vp|]; cbn [mbind result_bind];
    [|intros [= <-]; left; reflexivity].
  destruct (float_of_cell vp) as [p|e'] eqn:Ep; cbn [mbind result_bind].
  2: { intros [= <-].
       destruct vp as [|sp|z|x|b|tr tx]; cbn [float_of_cell] in Ep;
         try discriminate Ep; try (injection Ep as <-; left; reflexivity).
       - unfold float_of_str in Ep. destruct (py_float sp); [discriminate Ep|].
         injection Ep as <-. left. reflexivity.
       - unfold float_of_int in Ep.
         destruct (Z.ltb_spec (Z.abs z) FLOAT_INT_BOUND); [discriminate Ep|].
         injection Ep as <-. right. left. split; [reflexivity|]. right.
         exists z. split; [reflexivity | assumption]. }
  destruct (r !! "Fill Time") as [t|]; cbn [mbind result_bind];
    [|intros [= <-]; left; reflexivity].
  destruct (r !! "Date") as [vd|]; cbn [mbind result_bind];
    [|intros [= <-]; left; reflexivity].
  destruct (_parse_date (str vd)) as [d|e'] eqn:Ed; cbn [mbind result_bind];
    [discriminate|].
  intros [= <-]. right. right.
  apply parse_date_raises in Ed as [-> Hb].
  split; [reflexivity | exists vd; split; [reflexivity | exact Hb]].
Qed.

Lemma fills_of_rows_raises rows :
  forall acc e,
    fills_of_rows rows acc = Raise e ->
    exists r, r ∈ rows /\ fill_of_row r = Raise e /\ caught e = false.
Proof.
  induction rows as [|r rows IH]; intros acc e; cbn [fills_of_rows]; [discriminate|].
  destruct (negb (cell_truthy (r !! "Fill Time")) || negb (cell_truthy (r !! "B/S"))).
  - intros H. destruct (IH _ _ H) as (r' & Hin & Hr'). exists r'. split; [right|]; assumption.
  - destruct (fill_of_row r) as [f|e'] eqn:Er.
    + intros H. destruct (IH _ _ H) as (r' & Hin & Hr').
      exists r'. split; [right|]; assumption.
    + destruct (caught e') eqn:Hc.
      * intros H. destruct (IH _ _ H) as (r' & Hin & Hr').
        exists r'. split; [right|]; assumption.
      * intros [= <-]. exists r. split; [left|]. split; [exact Er | exact Hc].
Qed.

(** Whatever the file is, an exception of [parse_uploaded_file] is
    [ValueError], or the exception that the library raised when it read
    the file, or, once the rows are read, [IndexError] or [OverflowError].
    It raises [IndexError] only when a row has a date that is empty or
    white space, and [OverflowError] only when a row has an infinite
    quantity or a price that is an [int] beyond the range of [float]:
    these leave the loop, which catches [ValueError], [KeyError] and
    [TypeError] only. *)
Theorem parse_uploaded_file_exceptions HAS_OPENPYXL filename file_bytes e :
  parse_uploaded_file HAS_OPENPYXL filename file_bytes = Raise e ->
  e = ValueError \/
  (file_readable HAS_OPENPYXL filename = true /\
   (csv_rows file_bytes = Raise e \/ xlsx_sheet file_bytes = Raise e)) \/
  (exists table,
     read_rows HAS_OPENPYXL filename file_bytes = Ok table /\
     ((e = IndexError /\
       exists r v, r ∈ table /\ r !! "Date" = Some v /\ blank (str v)) \/
      (e = OverflowError /\
       exists r, r ∈ table /\
         ((exists v, r !! "filledQty" = Some v /\
                     (py_float (str v) = Some PInf \/ py_float (str v) = Some NInf)) \/
          (exists z, r !! "avgPrice" = Some (CInt z) /\ FLOAT_INT_BOUND <= Z.abs z))))).
Proof.
  unfold parse_uploaded_file.
  destruct (read_rows HAS_OPENPYXL filename file_bytes) as [table|e'] eqn:Eread;
    cbn [mbind result_bind].
  2: { intros [= <-]. apply read_rows_raises in Eread.
       destruct (file_readable HAS_OPENPYXL filename);
         [right; left; split; [reflexivity | exact Eread] | left; exact Eread]. }
  destruct table as [|r0 table]; [intros [= <-]; left; reflexivity|].
  destruct (bool_decide _); [|intros [= <-]; left; reflexivity].
  destruct (fills_of_rows (r0 :: table) []) as [fills|e'] eqn:Ef;
    cbn [mbind result_bind];
    [destruct fills; [intros [= <-]; left; reflexivity | discriminate]|].
  intros [= <-].
  destruct (fills_of_rows_raises _ _ _ Ef) as (r & Hin & Hr & Hc).
  destruct (fill_of_row_raises r e' Hr) as [Hcaught | [[-> Hq] | [-> Hd]]];
    [congruence | | ].
  - right. right. exists (r0 :: table). split; [reflexivity|]. right.
    split; [reflexivity|]. exists r. split; [exact Hin | exact Hq].
  - right. right. exists (r0 :: table). split; [reflexivity|]. left.
    split; [reflexivity|]. destruct Hd as (v & Hv & Hb). exists r, v. tauto.
Qed.
End DateFacts.

(** ** Round trips close when the position is first flat *)

Lemma prefix_snoc_inv {A : Type} (p l : list A) x :
  p `prefix_of` l ++ [x] -> p = l ++ [x] \/ p `prefix_of` l.
Proof.
  intros [k Hk]. destruct k as [|y k' _] using rev_ind.
  - left. rewrite app_nil_r in Hk. congruence.
  - right. rewrite app_assoc in Hk. apply app_inj_tail in Hk as [-> _].
    exists k'. reflexivity.
Qed.

Lemma never_flat_snoc g f :
  never_flat g -> signed_sum (g ++ [f]) <> 0 -> never_flat (g ++ [f]).
Proof.
  intros Hg Hf p Hp Hne.
  apply prefix_snoc_inv in Hp as [-> | Hp]; [exact Hf | apply Hg; assumption].
Qed.

Lemma flat_only_at_end_snoc g f : never_flat g -> flat_only_at_end (g ++ [f]).
Proof.
  intros Hg p Hp Hne Hneq.
  apply prefix_snoc_inv in Hp as [-> | Hp]; [contradiction | apply Hg; assumption].
Qed.

Lemma never_flat_flat_only_at_end g : never_flat g -> flat_only_at_end g.
Proof. intros Hg p Hp Hne _. apply Hg; assumption. Qed.

(** The loop keeps a group open as long as the position is not flat. *)
Lemma build_loop_first_flat l :
  forall position current acc res,
    position = signed_sum current ->
    never_flat current ->
    build_loop l position current acc = Ok res ->
    exists new,
      res = acc ++ new /\
      Forall (fun t => flat_only_at_end (fills t)) new.
Proof.
  induction l as [|f l IH]; intros position current acc res Hpos Hcur; simpl.
  - destruct current as [|c current].
    + intros [= <-]. exists []. rewrite app_nil_r. split; [reflexivity | constructor].
    + intros Hres. apply bind_Ok in Hres as (t & Ht & Hres). injection Hres as <-.
      destruct (compute_stats_fills _ _ _ Ht) as (Hfills & _ & _).
      exists [t]. split; [reflexivity|].
      constructor; [|constructor].
      rewrite Hfills. apply never_flat_flat_only_at_end, Hcur.
  - assert (Hpos' : position + signed_qty f = signed_sum (current ++ [f]))
      by (rewrite signed_sum_snoc; lia).
    destruct (Z.eqb_spec (position + signed_qty f) 0) as [Hz | Hnz].
    + intros Hres. apply bind_Ok in Hres as (t & Ht & Hres).
      destruct (compute_stats_fills _ _ _ Ht) as (Hfills & _ & _).
      destruct (IH (position + signed_qty f) [] (acc ++ [t]) res) as (new & Hb & Hall).
      { rewrite Hz. reflexivity. }
      { intros p Hp Hne. apply prefix_nil_inv in Hp. contradiction. }
      { exact Hres. }
      exists (t :: new). rewrite Hb, <- app_assoc. split; [reflexivity|].
      constructor; [|exact Hall].
      rewrite Hfills. apply flat_only_at_end_snoc, Hcur.
    + intros Hres.
      destruct (IH (position + signed_qty f) (current ++ [f]) acc res Hpos')
        as (new & Hb & Hall).
      { apply never_flat_snoc; [exact Hcur | rewrite <- Hpos'; exact Hnz]. }
      { exact Hres. }
      exists new. split; [exact Hb | exact Hall].
Qed.

(** A trade ends at the first fill that brings the position back to zero:
    inside a trade of the reconstruction, the signed quantities of the
    fills taken from its first one never sum to zero before its end. *)
Theorem trades_close_when_first_flat l days :
  reconstruct_trades l = Ok days ->
  forall day, day ∈ days ->
  forall t, t ∈ trades day ->
  forall p, p `prefix_of` fills t -> p <> [] -> p <> fills t -> signed_sum p <> 0.
Proof.
  intros Hrec day Hday t Ht.
  destruct (reconstruct_trades_days l days Hrec) as (_ & Htrades).
  destruct (Htrades day Hday) as [Hts _].
  destruct (build_loop_first_flat
              (sorted time (filter (fun f => date f = day_date day) l)) 0 [] []
              (trades day) eq_refl)
    as (new & Hb & Hall).
  { intros p Hp Hne. apply prefix_nil_inv in Hp. contradiction. }
  { exact Hts. }
  cbn [app] in Hb. rewrite Hb in Ht.
  rewrite Forall_forall in Hall. exact (Hall t Ht).
Qed.

(** Two round trips of one day, given out of order. *)
Lemma trades_close_witness :
  exists days,
    reconstruct_trades two_round_trips = Ok days /\
    map (fun day => map (fun t => map time (fills t)) (trades day)) days =
      [ [ ["09:30:00"; "09:31:00"]; ["09:35:00"; "09:36:00"] ] ] /\
    forall day, day ∈ days ->
    forall t, t ∈ trades day ->
    forall p, p `prefix_of` fills t -> p <> [] -> p <> fills t -> signed_sum p <> 0.
Proof.
  eexists. split; [vm_compute; reflexivity|]. split; [reflexivity|].
  apply (trades_close_when_first_flat two_round_trips).
  vm_compute. reflexivity.
Defined.

(** ** Sides that are neither ["Buy"] nor ["Sell"] *)

Lemma filter_none {A : Type} (P : A -> Prop) `{!forall x, Decision (P x)} (l : list A) :
  Forall (fun x => ~ P x) l -> filter P l = [].
Proof.
  induction 1 as [|x l Hx Hl IH]; [reflexivity|].
  rewrite filter_cons, decide_False by assumption. exact IH.
Qed.

Lemma value_over_quantity (s : Qc) (q : Z) :
  q <> 0 ->
  ((s / Q2Qc (inject_Z q) + - Q2Qc (inject_Z 0)) * Q2Qc (inject_Z q) * Q2Qc (inject_Z 5)
   = s * Q2Qc (inject_Z 5))%Qc.
Proof.
  intros Hq. pose proof (Q2Qc_inject_Z_neq_0 q Hq) as Hne.
  replace (Q2Qc (inject_Z 0)) with (Q2Qc 0) by (apply Qc_is_canon; reflexivity).
  field. exact Hne.
Qed.

(** The side of a fill is compared with ["Buy"] for the position and the
    quantities, and with ["Sell"] for the direction.  A group of fills of
    positive quantity and finite price none of which has the side ["Buy"],
    and which does not start with a ["Sell"], is counted as sold in full
    and entered long: it is not flagged open, its average entry is 0, and
    its P&L is 5 times the value of all its fills. *)
Theorem fills_without_a_buy_side l n t :
  Forall (fun f => 0 < qty f) l ->
  Forall (fun f => finite (price f)) l ->
  Forall (fun f => side f <> "Buy") l ->
  side <$> head l <> Some "Sell" ->
  _compute_stats l n = Ok t ->
  direction t = "Long" /\
  open t = false /\
  trade_qty t = sum_Z (map qty l) /\
  avg_entry t = of_int 0 /\
  avg_exit t = round (vwap l) 4 /\
  pnl t = round (nmul (cash_value l) (of_int 5)) 2.
Proof.
  intros Hpos Hfin Hside Hhead Hstat.
  destruct l as [|f0 l]; [discriminate|].
  apply compute_stats_Ok in Hstat. subst t. unfold stats_of.
  cbn [pnl trade_qty open direction avg_entry avg_exit].
  destruct (totals_spec (f0 :: l)) as (Hbq & Hbv & Hsq & Hsv).
  rewrite Hbq, Hbv, Hsq, Hsv. clear Hbq Hbv Hsq Hsv.
  assert (Hb : buys (f0 :: l) = [])
    by exact (filter_none (fun f => side f = "Buy") _ Hside).
  assert (Hs : sells (f0 :: l) = f0 :: l)
    by exact (filter_all (fun f => side f <> "Buy") _ Hside).
  rewrite Hb, Hs. clear Hb Hs.
  change (sum_Z (map qty [])) with 0. change (sum_num (map notional [])) with (of_int 0).
  assert (Hq : 0 < sum_Z (map qty (f0 :: l)))
    by (apply sum_qty_pos; [exact Hpos | discriminate]).
  assert (Hshort : String.eqb (side f0) "Sell" = false).
  { apply String.eqb_neq. intros Heq. apply Hhead. cbn. rewrite Heq. reflexivity. }
  rewrite Hshort, vwap_unfold.
  assert (Ht : truthy (sum_Z (map qty (f0 :: l))) = true)
    by (unfold truthy; apply negb_true_iff, Z.eqb_neq; lia).
  assert (Hz : (sum_Z (map qty (f0 :: l)) =? 0) = false) by (apply Z.eqb_neq; lia).
  rewrite Ht, Hz. change (truthy 0) with false.
  cbn [andb orb negb]. rewrite round_zero, Z.max_r by lia.
  do 5 (split; [reflexivity|]).
  fold (cash_value (f0 :: l)).
  destruct (cash_value_finite (f0 :: l) Hfin) as [s Hs]. rewrite Hs.
  unfold nsub, of_int. cbn [ndiv_int nopp nadd nmul]. do 2 f_equal.
  apply value_over_quantity. lia.
Qed.

(** A buy at 100 and a sell at 105 with their sides in capitals: one long
    trade of 2 units entered at 0, with a P&L of 5 x 205 = 1025. *)
Lemma capital_sides_witness :
  exists t,
    _compute_stats capital_side_fills 1 = Ok t /\
    direction t = "Long" /\ open t = false /\ trade_qty t = 2 /\
    avg_entry t = of_int 0 /\
    pnl t = round (nmul (cash_value capital_side_fills) (of_int 5)) 2 /\
    round (nmul (cash_value capital_side_fills) (of_int 5)) 2 = of_int 1025.
Proof.
  eexists. split; [reflexivity|].
  destruct (fills_without_a_buy_side capital_side_fills 1 _
              ltac:(repeat constructor) ltac:(repeat constructor)
              ltac:(repeat constructor; discriminate) ltac:(discriminate) eq_refl)
    as (Hd & Ho & Hq & He & _ & Hp).
  split; [exact Hd|]. split; [exact Ho|]. split; [exact Hq|]. split; [exact He|].
  split; [exact Hp|]. canon_refl.
Defined.

(** ** Reconstruction over several days: the order of the input *)

Lemma insert_by_map {A C : Type} (key : C -> string) (h : A -> C) (key' : A -> string) :
  (forall x, key (h x) = key' x) ->
  forall x l, map h (insert_by key' x l) = insert_by key (h x) (map h l).
Proof.
  intros Hk x l. induction l as [|y l IH]; [reflexivity|].
  cbn [insert_by map]. rewrite !Hk.
  destruct (String.leb (key' x) (key' y)); [reflexivity|].
  cbn [map]. rewrite IH. reflexivity.
Qed.

Lemma sorted_map {A C : Type} (key : C -> string) (h : A -> C) (key' : A -> string) :
  (forall x, key (h x) = key' x) ->
  forall l, map h (sorted key' l) = sorted key (map h l).
Proof.
  intros Hk l. induction l as [|x l IH]; [reflexivity|].
  cbn [sorted foldr map]. fold (sorted key' l). fold (sorted key (map h l)).
  rewrite (insert_by_map key h key' Hk), IH. reflexivity.
Qed.

Lemma mapM_result_map {A C D : Type} (g : A -> result D) (g0 : C -> result D)
    (h : A -> C) (l : list A) :
  (forall x, g x = g0 (h x)) -> mapM g l = mapM g0 (map h l).
Proof.
  intros Hg. induction l as [|x l IH]; [reflexivity|].
  simpl. rewrite Hg.
  destruct (g0 (h x)); [|reflexivity]. simpl. rewrite IH. reflexivity.
Qed.

(** The dates of the dict with their fills sorted by time. *)
Lemma sorted_days_Permutation (l l' : list Fill) :
  l ≡ₚ l' ->
  (forall d, sorted time (filter (fun f => date f = d) l') =
             sorted time (filter (fun f => date f = d) l)) ->
  map (fun p => (fst p, sorted time (snd p))) (map_to_list (group_by_date l')) ≡ₚ
  map (fun p => (fst p, sorted time (snd p))) (map_to_list (group_by_date l)).
Proof.
  intros Hperm Hsorted.
  assert (Hnd : forall k : list Fill,
            NoDup (map (fun p => (fst p, sorted time (snd p)))
                       (map_to_list (group_by_date k)))).
  { intros k. apply (NoDup_fmap_1 fst). rewrite <- list_fmap_compose.
    apply NoDup_fst_map_to_list. }
  apply NoDup_Permutation; [apply Hnd | apply Hnd |].
  assert (Hin : forall (k k' : list Fill) x,
            k ≡ₚ k' ->
            (forall d, sorted time (filter (fun f => date f = d) k') =
                       sorted time (filter (fun f => date f = d) k)) ->
            x ∈ map (fun p => (fst p, sorted time (snd p))) (map_to_list (group_by_date k)) ->
            x ∈ map (fun p => (fst p, sorted time (snd p))) (map_to_list (group_by_date k'))).
  { intros k k' x Hp Hs Hx.
    apply list_elem_of_fmap in Hx as ([d fs] & -> & Hx).
    apply group_by_date_items in Hx as [-> Hne]. cbn [fst snd].
    apply list_elem_of_fmap.
    exists (d, filter (fun f => date f = d) k'). cbn [fst snd]. split.
    - rewrite Hs. reflexivity.
    - apply group_by_date_items. split; [reflexivity|].
      intros Hnil. apply Hne. apply Permutation_nil. rewrite <- Hnil, Hp. reflexivity. }
  intros x. split.
  - apply Hin; [symmetry; exact Hperm | intros d; symmetry; apply Hsorted].
  - apply Hin; [exact Hperm | exact Hsorted].
Qed.

(** Running the reconstruction on a permutation of the fills that keeps
    the fills of each date and time in their order gives the same days and
    trades, whatever the number of days is. *)
Theorem reconstruction_of_several_days_ignores_input_order (l l' : list Fill) :
  l ≡ₚ l' ->
  (forall d t, filter (fun f => date f = d /\ time f = t) l' =
               filter (fun f => date f = d /\ time f = t) l) ->
  reconstruct_trades l' = reconstruct_trades l.
Proof.
  intros Hperm Hties.
  assert (Hsorted : forall d, sorted time (filter (fun f => date f = d) l') =
                              sorted time (filter (fun f => date f = d) l)).
  { intros d. apply sorted_stable_eq. intros t.
    rewrite !list_filter_filter.
    rewrite (list_filter_iff _ (fun f => date f = d /\ time f = t) l')
      by (intros f; tauto).
    rewrite (list_filter_iff _ (fun f => date f = d /\ time f = t) l)
      by (intros f; tauto).
    apply Hties. }
  unfold reconstruct_trades.
  set (g0 := fun p : string * list Fill =>
               ts ← _build_round_trips (snd p);
               Ok {| day_date := fst p; trades := ts |}).
  set (h := fun p : string * list Fill => (fst p, sorted time (snd p))).
  rewrite (mapM_result_map _ g0 h) by (intros [d fs]; reflexivity).
  rewrite (mapM_result_map _ g0 h (sorted fst (map_to_list (group_by_date l))))
    by (intros [d fs]; reflexivity).
  f_equal.
  rewrite !(sorted_map fst h fst) by (intros [d fs]; reflexivity).
  apply sorted_Permutation_eq.
  - rewrite <- list_fmap_compose. apply NoDup_fst_map_to_list.
  - symmetry. apply sorted_days_Permutation; assumption.
Qed.

(** Two days whose fills are given interleaved. *)
Lemma several_days_order_witness :
  reconstruct_trades two_days_interleaved = reconstruct_trades two_days.
Proof.
  apply reconstruction_of_several_days_ignores_input_order.
  - transitivity (List.rev two_days); [apply Permutation_rev|].
    apply perm_skip, perm_swap.
  - intros d t. unfold two_days, two_days_interleaved, fill_on.
    rewrite !filter_cons, !filter_nil. cbn [date time].
    repeat case_decide; destruct_and?; simplify_eq; try reflexivity;
      exfalso; naive_solver.
Defined.

(** ** Live trades: the potential reward *)

Lemma portion_step_reward is_long entry dpp exs lvs st p :
  total_reward
    (portion_step is_long entry dpp (portion_exited_of exs) (portion_levels_of lvs) st p) =
  match remaining_reward is_long entry dpp lvs exs p with
  | Some x => nadd (total_reward st) x
  | None => total_reward st
  end.
Proof.
  unfold portion_step, remaining_reward, remaining_in.
  rewrite !portion_levels_lookup, portion_exited_lookup.
  destruct (level_of "stop" lvs p) as [lv|]; [|reflexivity].
  destruct (Z.leb_spec (lv_qty lv - exited_in exs p) 0) as [Hle | Hgt];
    destruct (Z.ltb_spec 0 (lv_qty lv - exited_in exs p)) as [Hlt | Hge];
    try lia; [reflexivity|].
  cbn [total_reward]. destruct (level_of "tp" lvs p); reflexivity.
Qed.

Lemma portions_loop_reward is_long entry dpp exs lvs :
  total_reward (portions_loop is_long entry dpp exs lvs) =
  sum_num (omap (remaining_reward is_long entry dpp lvs exs) [1; 2; 3]).
Proof.
  unfold portions_loop, sum_num. cbn [fold_left].
  rewrite !portion_step_reward. cbn [total_reward omap list_omap].
  destruct (remaining_reward is_long entry dpp lvs exs 1),
           (remaining_reward is_long entry dpp lvs exs 2),
           (remaining_reward is_long entry dpp lvs exs 3); reflexivity.
Qed.

(** The potential reward of a trade that has quantity left.  In partials
    mode it is the sum, over the portions that remain and have a
    take-profit level, of the P&L of their remaining quantity at that
    level, a level that would give a loss counting for 0; a portion
    without a stop level counts for nothing.  In any other mode it is the
    P&L of the whole remaining quantity at the first take-profit level, or
    0 when that is a loss or there is no such level.  The snapshot holds
    it rounded to 2 decimals. *)
Theorem potential_reward_of_remaining_portions dpp live_trade snap :
  risk_snapshot dpp live_trade = Ok snap ->
  exited_total live_trade < total_qty live_trade ->
  (mode live_trade = "partials" ->
   snap !! "potential_reward" =
     Some (VNum (round (sum_num (omap (remaining_reward (is_long_trade live_trade)
                                         (entry_price live_trade) dpp
                                         (levels live_trade) (executions live_trade))
                                      [1; 2; 3])) 2))) /\
  (mode live_trade <> "partials" ->
   snap !! "potential_reward" =
     Some (VNum (round (match first_level "tp" (levels live_trade) with
                        | Some tp_lv =>
                            nmax (exit_pnl (is_long_trade live_trade)
                                    (entry_price live_trade) (lv_price tp_lv)
                                    (total_qty live_trade - exited_total live_trade) dpp)
                                 (of_int 0)
                        | None => of_int 0
                        end) 2))).
Proof.
  unfold risk_snapshot. fold (exited_total live_trade). fold (is_long_trade live_trade).
  intros Hsnap Hrem.
  destruct (Z.leb_spec (total_qty live_trade - exited_total live_trade) 0) as [Hle | Hgt];
    [lia|].
  destruct (String.eqb_spec (mode live_trade) "partials") as [Hm | Hm].
  - cbn [mbind result_bind] in Hsnap. injection Hsnap as <-.
    split; [|intros Hne; contradiction]. intros _.
    unfold partials_outcome. cbn [reward]. rewrite portions_loop_reward. reflexivity.
  - unfold full_outcome in Hsnap.
    replace (0 <? total_qty live_trade - exited_total live_trade) with true in Hsnap
      by (symmetry; apply Z.ltb_lt; lia).
    split; [intros Heq; contradiction|]. intros _.
    destruct (first_level "stop" (levels live_trade));
      cbn [mbind result_bind] in Hsnap; injection Hsnap as <-; reflexivity.
Qed.

(** The trade in partials mode whose first portion is exited: the targets
    of the portions 2 and 3 are worth 50 and 100 dollars. *)
Lemma potential_reward_witness :
  exists snap,
    risk_snapshot (of_int 5) partials_trade = Ok snap /\
    snap !! "potential_reward" =
      Some (VNum (round (sum_num (omap (remaining_reward (is_long_trade partials_trade)
                                          (entry_price partials_trade) (of_int 5)
                                          (levels partials_trade)
                                          (executions partials_trade))
                                       [1; 2; 3])) 2)) /\
    snap !! "potential_reward" = Some (VNum (of_int 150)).
Proof.
  eexists. split; [reflexivity|]. split.
  - apply (potential_reward_of_remaining_portions (of_int 5) partials_trade);
      [reflexivity | vm_compute; reflexivity | reflexivity].
  - canon_refl.
Defined.

(** ** Live trades: the plan of partials mode *)

Section PartialsPlanFacts.
Context {B : PyBuiltins}.

(** In every mode other than ["full"] the plan reads the four distances of
    partials mode and no other trade default.  The three portions have
    their stops at the same price, the stop distance against the direction
    of the trade, and their take-profits at the three take-profit
    distances with it; the risk and the reward of a portion are
    |distance| x quantity of the portion x dollars per point, rounded to 2
    decimals. *)
Theorem partials_plan_amounts config direction inst (entry : Qc) total md dpp
    (sd td1 td2 td3 : Qc) :
  md <> "full" ->
  instrument_dpp config inst = Ok dpp ->
  py_float (trade_default config "partial_stop_points" "20") = Some (Fin sd) ->
  py_float (trade_default config "partial_tp1_points" "5") = Some (Fin td1) ->
  py_float (trade_default config "partial_tp2_points" "10") = Some (Fin td2) ->
  py_float (trade_default config "partial_tp3_points" "20") = Some (Fin td3) ->
  compute_live_trade_plan config direction inst (Fin entry) total md =
  let is_long := String.eqb direction "Long" in
  let q1 := total / 3 + (if 0 <? total mod 3 then 1 else 0) in
  let q2 := total / 3 + (if 1 <? total mod 3 then 1 else 0) in
  let q3 := total / 3 in
  Ok [ planned_stop is_long entry sd dpp 1 q1; planned_tp is_long entry td1 dpp 1 q1;
       planned_stop is_long entry sd dpp 2 q2; planned_tp is_long entry td2 dpp 2 q2;
       planned_stop is_long entry sd dpp 3 q3; planned_tp is_long entry td3 dpp 3 q3 ].
Proof.
  intros Hmd Hdpp Hsd H1 H2 H3. unfold compute_live_trade_plan. rewrite Hdpp.
  cbn [mbind result_bind]. unfold plan_levels.
  apply String.eqb_neq in Hmd. rewrite Hmd.
  rewrite (get_trade_defaults_lookup config "partial_stop_points" "20") by (simpl; tauto).
  rewrite (get_trade_defaults_lookup config "partial_tp1_points" "5") by (simpl; tauto).
  rewrite (get_trade_defaults_lookup config "partial_tp2_points" "10") by (simpl; tauto).
  rewrite (get_trade_defaults_lookup config "partial_tp3_points" "20") by (simpl; tauto).
  cbn [mbind result_bind]. unfold float_of_str. rewrite Hsd, H1, H2, H3.
  cbn [mbind result_bind]. rewrite split_qty_spec.
  cbn [mbind result_bind seq foldl nth_item lookup list_lookup app Z.of_nat Z.add
       Pos.of_succ_nat Pos.succ Pos.add].
  rewrite !planned_stop_eq, !planned_tp_eq. reflexivity.
Qed.
End PartialsPlanFacts.

(** Four units of MES entered long at 100 with the distances of the
    defaults: stops at 80, targets at 105, 110 and 120, and 2, 1 and 1
    units. *)
Lemma partials_plan_amounts_witness :
  compute_live_trade_plan (B := example_builtins) ∅ "Long" "MES" (of_int 100) 4 "partials" =
  Ok [ planned_stop true (Q2Qc 100) (Q2Qc 20) (of_int 5) 1 2;
       planned_tp true (Q2Qc 100) (Q2Qc 5) (of_int 5) 1 2;
       planned_stop true (Q2Qc 100) (Q2Qc 20) (of_int 5) 2 1;
       planned_tp true (Q2Qc 100) (Q2Qc 10) (of_int 5) 2 1;
       planned_stop true (Q2Qc 100) (Q2Qc 20) (of_int 5) 3 1;
       planned_tp true (Q2Qc 100) (Q2Qc 20) (of_int 5) 3 1 ] /\
  map lv_price [ planned_stop true (Q2Qc 100) (Q2Qc 20) (of_int 5) 1 2;
                 planned_tp true (Q2Qc 100) (Q2Qc 5) (of_int 5) 1 2;
                 planned_tp true (Q2Qc 100) (Q2Qc 10) (of_int 5) 2 1;
                 planned_tp true (Q2Qc 100) (Q2Qc 20) (of_int 5) 3 1 ] =
  [ of_int 80; of_int 105; of_int 110; of_int 120 ].
Proof.
  split; [|canon_refl].
  apply (partials_plan_amounts (B := example_builtins) ∅ "Long" "MES" (Q2Qc 100) 4
           "partials" (of_int 5) (Q2Qc 20) (Q2Qc 5) (Q2Qc 10) (Q2Qc 20)).
  - discriminate.
  - reflexivity.
  - vm_compute. reflexivity.
  - vm_compute. reflexivity.
  - vm_compute. reflexivity.
  - vm_compute. reflexivity.
Defined.

(** ** Settings *)

Section SettingsFacts.
Context {B : PyBuiltins} {V : Type} (py_str : V -> string).

Lemma save_default_lookup (body : gmap string V) key config k :
  match body !! key with
  | Some value => set_config py_str config ("td_" +:+ key) value
  | None => config
  end !! k =
  if String.eqb k ("td_" +:+ key) then
    match body !! key with
    | Some v => Some (py_str v)
    | None => config !! k
    end
  else config !! k.
Proof.
  unfold set_config.
  destruct (String.eqb_spec k ("td_" +:+ key)) as [-> | Hne]; destruct (body !! key);
    try reflexivity.
  - apply lookup_insert_eq.
  - apply lookup_insert_ne. congruence.
Qed.

Lemma api_save_trade_defaults_lookup (body : gmap string V) config k :
  api_save_trade_defaults py_str body config !! k =
  match List.find (fun kd => String.eqb k ("td_" +:+ fst kd)) DEFAULT_TRADE_DEFAULTS with
  | Some (key, _) =>
      match body !! key with
      | Some v => Some (py_str v)
      | None => config !! k
      end
  | None => config !! k
  end.
Proof.
  unfold api_save_trade_defaults, DEFAULT_TRADE_DEFAULTS.
  cbn [foldl List.find fst]. rewrite !save_default_lookup.
  destruct (String.eqb_spec k ("td_" +:+ "full_stop_points")) as [-> | _];
    [eval_eqb; reflexivity|].
  destruct (String.eqb_spec k ("td_" +:+ "full_tp_points")) as [-> | _];
    [eval_eqb; reflexivity|].
  destruct (String.eqb_spec k ("td_" +:+ "partial_stop_points")) as [-> | _];
    [eval_eqb; reflexivity|].
  destruct (String.eqb_spec k ("td_" +:+ "partial_tp1_points")) as [-> | _];
    [eval_eqb; reflexivity|].
  destruct (String.eqb_spec k ("td_" +:+ "partial_tp2_points")) as [-> | _];
    [eval_eqb; reflexivity|].
  destruct (String.eqb_spec k ("td_" +:+ "partial_tp3_points")) as [-> | _];
    reflexivity.
Qed.

(** Saving the trade defaults writes the rows [td_<key>] of the keys given
    in the body, as text and without a check, and no other row.  Reading
    the defaults back gives the text saved for the keys of the body and
    what was read before for the others; the risk recalculator is not
    affected.  A value that is not a number is saved like any other: the
    plan generator then raises [ValueError] in the mode that reads it. *)
Theorem saved_trade_defaults_are_read_back (body : gmap string V) config :
  (forall key dflt,
     In (key, dflt) DEFAULT_TRADE_DEFAULTS ->
     get_trade_defaults (api_save_trade_defaults py_str body config) !! key =
     Some (match body !! key with
           | Some v => py_str v
           | None => trade_default config key dflt
           end)) /\
  (forall k,
     ~ In k (map (fun kd => "td_" +:+ fst kd) DEFAULT_TRADE_DEFAULTS) ->
     api_save_trade_defaults py_str body config !! k = config !! k) /\
  (forall live_trade,
     recalculate_live_trade (api_save_trade_defaults py_str body config) live_trade =
     recalculate_live_trade config live_trade) /\
  (forall v direction inst entry q,
     body !! "full_stop_points" = Some v ->
     py_float (py_str v) = None ->
     compute_live_trade_plan (api_save_trade_defaults py_str body config)
       direction inst entry q "full" = Raise ValueError).
Proof.
  assert (Hframe : forall k,
            ~ In k (map (fun kd => "td_" +:+ fst kd) DEFAULT_TRADE_DEFAULTS) ->
            api_save_trade_defaults py_str body config !! k = config !! k).
  { intros k Hk. rewrite api_save_trade_defaults_lookup.
    destruct (List.find _ DEFAULT_TRADE_DEFAULTS) as [[key dflt]|] eqn:E; [|reflexivity].
    exfalso. apply Hk. apply find_some in E as [Hin Heq].
    apply String.eqb_eq in Heq. rewrite Heq.
    apply (in_map (fun kd => "td_" +:+ fst kd) _ _ Hin). }
  assert (Hread : forall key dflt,
            In (key, dflt) DEFAULT_TRADE_DEFAULTS ->
            get_trade_defaults (api_save_trade_defaults py_str body config) !! key =
            Some (match body !! key with
                  | Some v => py_str v
                  | None => trade_default config key dflt
                  end)).
  { intros key dflt Hin.
    pose proof (get_trade_defaults_lookup
                  (api_save_trade_defaults py_str body config) key dflt Hin) as Hget.
    unfold getitem in Hget.
    destruct (get_trade_defaults _ !! key) as [x|]; [|discriminate].
    injection Hget as ->. f_equal. unfold trade_default.
    rewrite api_save_trade_defaults_lookup.
    unfold DEFAULT_TRADE_DEFAULTS in Hin. cbn [In] in Hin.
    repeat (destruct Hin as [[= <- <-] | Hin];
            [unfold DEFAULT_TRADE_DEFAULTS; cbn [List.find fst]; eval_eqb;
             cbv iota; destruct (body !! _); reflexivity|]).
    destruct Hin. }
  split; [exact Hread|]. split; [exact Hframe|]. split.
  - intros live_trade. unfold recalculate_live_trade, instrument_dpp.
    rewrite (get_instrument_config_agree
               (api_save_trade_defaults py_str body config) config); [reflexivity|].
    unfold instrument_keys.
    repeat (constructor; [apply Hframe; cbn; intuition discriminate|]). constructor.
  - intros v direction inst entry q Hv Hbad. unfold compute_live_trade_plan.
    destruct (instrument_dpp _ inst) as [dpp|e] eqn:Hdpp.
    + cbn [mbind result_bind]. unfold plan_levels.
      cbn [String.eqb Ascii.eqb Bool.eqb andb]. unfold getitem.
      rewrite (Hread "full_stop_points" "20") by (cbn; tauto).
      rewrite Hv. cbn [mbind result_bind]. unfold float_of_str. rewrite Hbad. reflexivity.
    + unfold instrument_dpp in Hdpp.
      destruct (get_instrument_config_cases
                  (api_save_trade_defaults py_str body config)) as [[_ [ic Hic]] | [_ Hr]].
      * rewrite Hic in Hdpp. discriminate Hdpp.
      * rewrite Hr in Hdpp. cbn in Hdpp. injection Hdpp as <-. reflexivity.
Qed.
End SettingsFacts.

Section InstrumentSettingsFacts.
Context {B : PyBuiltins} (py_str : json -> string).

(** On an object the test and the subscript raise nothing: the row is
    written when the field is given. *)
Lemma save_if_present_object d name key config :
  save_if_present py_str (JDict d) name key config =
  (write_field py_str d name key config, Ok ()).
Proof.
  unfold save_if_present, contains, subscript, getitem, write_field, set_config.
  destruct (d !! name) as [v|].
  - rewrite bool_decide_eq_true_2 by (eexists; reflexivity). reflexivity.
  - rewrite bool_decide_eq_false_2 by (intros [v Hv]; discriminate Hv). reflexivity.
Qed.

Lemma save_if_present_no_container v name key config :
  no_container v -> save_if_present py_str v name key config = (config, Raise TypeError).
Proof. destruct v; simpl; intros H; try reflexivity; destruct H. Qed.

Lemma save_instrument_object body inst d config :
  fields_of body inst = Some d ->
  save_instrument py_str body inst config = (write_instrument py_str d inst config, Ok ()).
Proof.
  unfold fields_of, save_instrument, write_instrument.
  destruct (body !! inst) as [[| | | | | |d']|]; try discriminate.
  - intros [= ->]. unfold and_then. rewrite !save_if_present_object. reflexivity.
  - intros [= <-]. unfold write_field. rewrite !lookup_empty. reflexivity.
Qed.

Lemma save_instrument_no_container body inst v config :
  body !! inst = Some v -> no_container v ->
  save_instrument py_str body inst config = (config, Raise TypeError).
Proof.
  intros Hv Hno. unfold save_instrument. rewrite Hv. unfold and_then.
  rewrite save_if_present_no_container by exact Hno. reflexivity.
Qed.

Lemma write_field_lookup fields name key config k :
  write_field py_str fields name key config !! k =
  if String.eqb k key then
    match fields !! name with
    | Some v => Some (py_str v)
    | None => config !! k
    end
  else config !! k.
Proof.
  unfold write_field.
  destruct (String.eqb_spec k key) as [-> | Hne]; destruct (fields !! name);
    try reflexivity.
  - apply lookup_insert_eq.
  - apply lookup_insert_ne. congruence.
Qed.

(** The rows that the handler writes from the fields of the two
    instruments, and the other rows. *)
Lemma written_rows_lookup (cm ce : gmap string json) config k :
  write_instrument py_str ce "ES" (write_instrument py_str cm "MES" config) !! k =
  match List.find (fun e => String.eqb k (snd e))
          [ (cm, "dollars_per_point", "inst_MES_dpp");
            (cm, "dollars_per_tick", "inst_MES_dpt");
            (cm, "ticks_per_point", "inst_MES_tpp");
            (ce, "dollars_per_point", "inst_ES_dpp");
            (ce, "dollars_per_tick", "inst_ES_dpt");
            (ce, "ticks_per_point", "inst_ES_tpp") ] with
  | Some (fields, name, _) =>
      match fields !! name with
      | Some v => Some (py_str v)
      | None => config !! k
      end
  | None => config !! k
  end.
Proof.
  unfold write_instrument. rewrite !write_field_lookup. cbn [List.find snd].
  change ("inst_" +:+ "MES" +:+ "_dpp") with "inst_MES_dpp".
  change ("inst_" +:+ "MES" +:+ "_dpt") with "inst_MES_dpt".
  change ("inst_" +:+ "MES" +:+ "_tpp") with "inst_MES_tpp".
  change ("inst_" +:+ "ES" +:+ "_dpp") with "inst_ES_dpp".
  change ("inst_" +:+ "ES" +:+ "_dpt") with "inst_ES_dpt".
  change ("inst_" +:+ "ES" +:+ "_tpp") with "inst_ES_tpp".
  destruct (String.eqb_spec k "inst_MES_dpp") as [-> | _]; [eval_eqb; reflexivity|].
  destruct (String.eqb_spec k "inst_MES_dpt") as [-> | _]; [eval_eqb; reflexivity|].
  destruct (String.eqb_spec k "inst_MES_tpp") as [-> | _]; [eval_eqb; reflexivity|].
  destruct (String.eqb_spec k "inst_ES_dpp") as [-> | _]; [eval_eqb; reflexivity|].
  destruct (String.eqb_spec k "inst_ES_dpt") as [-> | _]; [eval_eqb; reflexivity|].
  destruct (String.eqb_spec k "inst_ES_tpp") as [-> | _]; reflexivity.
Qed.

(** The rows after only the fields of MES were written. *)
Lemma written_MES_lookup (cm : gmap string json) config k :
  write_instrument py_str cm "MES" config !! k =
  match List.find (fun e => String.eqb k (snd e))
          [ ("dollars_per_point", "inst_MES_dpp");
            ("dollars_per_tick", "inst_MES_dpt");
            ("ticks_per_point", "inst_MES_tpp") ] with
  | Some (name, _) =>
      match cm !! name with
      | Some v => Some (py_str v)
      | None => config !! k
      end
  | None => config !! k
  end.
Proof.
  unfold write_instrument. rewrite !write_field_lookup. cbn [List.find snd].
  change ("inst_" +:+ "MES" +:+ "_dpp") with "inst_MES_dpp".
  change ("inst_" +:+ "MES" +:+ "_dpt") with "inst_MES_dpt".
  change ("inst_" +:+ "MES" +:+ "_tpp") with "inst_MES_tpp".
  destruct (String.eqb_spec k "inst_MES_dpp") as [-> | _]; [eval_eqb; reflexivity|].
  destruct (String.eqb_spec k "inst_MES_dpt") as [-> | _]; [eval_eqb; reflexivity|].
  destruct (String.eqb_spec k "inst_MES_tpp") as [-> | _]; reflexivity.
Qed.

(** What the handler does with a body whose values for the instruments are
    objects, and with one that has a value that is no container. *)
Lemma api_save_instrument_config_objects body cm ce config :
  fields_of body "MES" = Some cm -> fields_of body "ES" = Some ce ->
  api_save_instrument_config py_str body config =
  (write_instrument py_str ce "ES" (write_instrument py_str cm "MES" config), Ok ()).
Proof.
  intros Hm He. unfold api_save_instrument_config. cbn [foldl]. unfold and_then.
  rewrite (save_instrument_object _ _ _ _ Hm), (save_instrument_object _ _ _ _ He).
  reflexivity.
Qed.

Lemma api_save_instrument_config_MES_no_container body v config :
  body !! "MES" = Some v -> no_container v ->
  api_save_instrument_config py_str body config = (config, Raise TypeError).
Proof.
  intros Hv Hno. unfold api_save_instrument_config. cbn [foldl]. unfold and_then.
  rewrite (save_instrument_no_container _ _ _ _ Hv Hno). reflexivity.
Qed.

Lemma api_save_instrument_config_ES_no_container body cm v config :
  fields_of body "MES" = Some cm -> body !! "ES" = Some v -> no_container v ->
  api_save_instrument_config py_str body config =
  (write_instrument py_str cm "MES" config, Raise TypeError).
Proof.
  intros Hm Hv Hno. unfold api_save_instrument_config. cbn [foldl]. unfold and_then.
  rewrite (save_instrument_object _ _ _ _ Hm).
  rewrite (save_instrument_no_container _ _ _ _ Hv Hno). reflexivity.
Qed.

(** What [get_instrument_config] returns for the dollars per point of
    ["MES"] and ["ES"]: the row of the instrument, or its default. *)
Lemma instrument_dpp_row config inst key dflt :
  (inst, key, dflt) = ("MES", "inst_MES_dpp", of_int 5) \/
  (inst, key, dflt) = ("ES", "inst_ES_dpp", of_int 50) ->
  instrument_rows_readable config ->
  instrument_dpp config inst = config_float config key dflt.
Proof.
  intros Hinst Hread.
  unfold instrument_dpp, get_instrument_config. cbn [foldl INSTRUMENT_CONFIG].
  change ("inst_" +:+ "MES" +:+ "_dpp") with "inst_MES_dpp".
  change ("inst_" +:+ "MES" +:+ "_dpt") with "inst_MES_dpt".
  change ("inst_" +:+ "MES" +:+ "_tpp") with "inst_MES_tpp".
  change ("inst_" +:+ "ES" +:+ "_dpp") with "inst_ES_dpp".
  change ("inst_" +:+ "ES" +:+ "_dpt") with "inst_ES_dpt".
  change ("inst_" +:+ "ES" +:+ "_tpp") with "inst_ES_tpp".
  destruct Hread as (R1 & R2 & R3 & R4 & R5 & R6).
  cbn [mbind result_bind dollars_per_point dollars_per_tick ticks_per_point
       MES_defaults ES_defaults].
  destruct (config_float_cases config "inst_MES_dpp" (of_int 5)) as [[_ [x1 E1]] | [N _]];
    [|contradiction].
  destruct (config_float_cases config "inst_MES_dpt" (Fin (Q2Qc (5 # 4))))
    as [[_ [x2 E2]] | [N _]]; [|contradiction].
  destruct (config_int_cases config "inst_MES_tpp" 4) as [[_ [x3 E3]] | [N _]];
    [|contradiction].
  destruct (config_float_cases config "inst_ES_dpp" (of_int 50)) as [[_ [x4 E4]] | [N _]];
    [|contradiction].
  destruct (config_float_cases config "inst_ES_dpt" (Fin (Q2Qc (25 # 2))))
    as [[_ [x5 E5]] | [N _]]; [|contradiction].
  destruct (config_int_cases config "inst_ES_tpp" 4) as [[_ [x6 E6]] | [N _]];
    [|contradiction].
  rewrite E1, E2, E3, E4, E5, E6. cbn [mbind result_bind].
  destruct Hinst as [[= -> -> ->] | [= -> -> ->]].
  - rewrite lookup_insert_ne by discriminate. rewrite lookup_insert_eq.
    cbn [default dollars_per_point]. symmetry. exact E1.
  - rewrite lookup_insert_eq. cbn [default dollars_per_point]. symmetry. exact E4.
Qed.

(** Saving the instrument configuration, for a body that is a JSON object.
    When what the body has for MES and for ES is an object, or nothing, the
    handler returns; it has written the rows of the fields given, as text
    and without a check, and has left the trade defaults as they were.  When
    the saved dollars per point of an instrument is a number and the other
    instrument rows are readable, it is what the three live-trade functions
    compute with for that instrument; when it is not a number they raise
    [ValueError] for every instrument.  When what the body has for an
    instrument is [null], a truth value or a number, the handler raises
    [TypeError]: for MES before any row is written, for ES after the rows
    of MES were written, which stay. *)
Theorem saved_instrument_rows_are_read_back (body : gmap string json) config :
  (forall cm ce,
     fields_of body "MES" = Some cm -> fields_of body "ES" = Some ce ->
     exists saved,
       api_save_instrument_config py_str body config = (saved, Ok ()) /\
       get_trade_defaults saved = get_trade_defaults config /\
       forall inst key dflt fields v,
         (inst, key, dflt, fields) = ("MES", "inst_MES_dpp", of_int 5, cm) \/
         (inst, key, dflt, fields) = ("ES", "inst_ES_dpp", of_int 50, ce) ->
         fields !! "dollars_per_point" = Some v ->
         saved !! key = Some (py_str v) /\
         (forall x, py_float (py_str v) = Some x ->
                    instrument_rows_readable saved ->
                    instrument_dpp saved inst = Ok x) /\
         (py_float (py_str v) = None ->
          forall any, instrument_dpp saved any = Raise ValueError)) /\
  (forall v,
     body !! "MES" = Some v -> no_container v ->
     api_save_instrument_config py_str body config = (config, Raise TypeError)) /\
  (forall cm v,
     fields_of body "MES" = Some cm -> body !! "ES" = Some v -> no_container v ->
     exists saved,
       api_save_instrument_config py_str body config = (saved, Raise TypeError) /\
       (forall w, cm !! "dollars_per_point" = Some w ->
                  saved !! "inst_MES_dpp" = Some (py_str w)) /\
       (forall k, k <> "inst_MES_dpp" -> k <> "inst_MES_dpt" -> k <> "inst_MES_tpp" ->
                  saved !! k = config !! k)).
Proof.
  split; [|split].
  - intros cm ce Hm He.
    exists (write_instrument py_str ce "ES" (write_instrument py_str cm "MES" config)).
    split; [apply api_save_instrument_config_objects; assumption|].
    set (saved := write_instrument py_str ce "ES" (write_instrument py_str cm "MES" config)).
    split.
    { unfold get_trade_defaults, saved. cbn [foldl DEFAULT_TRADE_DEFAULTS].
      rewrite !written_rows_lookup. cbn [List.find snd]. eval_eqb. reflexivity. }
    intros inst key dflt fields v Hinst Hv.
    assert (Hrow : saved !! key = Some (py_str v)).
    { unfold saved. rewrite written_rows_lookup.
      destruct Hinst as [[= -> -> -> ->] | [= -> -> -> ->]]; cbn [List.find snd]; eval_eqb;
        cbv iota; rewrite Hv; reflexivity. }
    assert (Hinst' : (inst, key, dflt) = ("MES", "inst_MES_dpp", of_int 5) \/
                     (inst, key, dflt) = ("ES", "inst_ES_dpp", of_int 50)).
    { destruct Hinst as [[= -> -> -> ->] | [= -> -> -> ->]]; [left | right]; reflexivity. }
    split; [exact Hrow|]. split.
    + intros x Hx Hread.
      rewrite (instrument_dpp_row saved inst key dflt Hinst' Hread).
      unfold config_float. rewrite Hrow, Hx. reflexivity.
    + intros Hbad any. unfold instrument_dpp.
      destruct (get_instrument_config_cases saved) as [[Hread _] | [_ Hr]].
      * exfalso.
        assert (Hf : float_row_readable saved key).
        { destruct Hread as (R1 & _ & _ & R4 & _).
          destruct Hinst' as [[= -> -> ->] | [= -> -> ->]]; assumption. }
        exact (Hf (py_str v) Hrow Hbad).
      * rewrite Hr. reflexivity.
  - intros v Hv Hno. apply api_save_instrument_config_MES_no_container with v; assumption.
  - intros cm v Hm Hv Hno.
    exists (write_instrument py_str cm "MES" config).
    split; [apply api_save_instrument_config_ES_no_container with v; assumption|].
    split.
    + intros w Hw. rewrite written_MES_lookup. cbn [List.find snd]. eval_eqb.
      cbv iota. rewrite Hw. reflexivity.
    + intros k H1 H2 H3. rewrite written_MES_lookup. cbn [List.find snd].
      destruct (String.eqb_spec k "inst_MES_dpp"); [contradiction|].
      destruct (String.eqb_spec k "inst_MES_dpt"); [contradiction|].
      destruct (String.eqb_spec k "inst_MES_tpp"); [contradiction|].
      reflexivity.
Qed.
End InstrumentSettingsFacts.

(** The dollars per point of MES saved as the text 10, and a body whose
    value for MES is a number. *)
Lemma saved_instrument_rows_witness :
  exists saved,
    api_save_instrument_config example_str
      {[ "MES" := JDict {[ "dollars_per_point" := JStr "10" ]} ]} ∅ = (saved, Ok ()) /\
    saved !! "inst_MES_dpp" = Some "10" /\
    instrument_dpp (B := example_builtins) saved "MES" = Ok (of_int 10).
Proof.
  assert (Hm : fields_of {[ "MES" := JDict {[ "dollars_per_point" := JStr "10" ]} ]} "MES" =
               Some {[ "dollars_per_point" := JStr "10" ]})
    by (unfold fields_of; rewrite lookup_singleton_eq; reflexivity).
  assert (He : fields_of {[ "MES" := JDict {[ "dollars_per_point" := JStr "10" ]} ]} "ES" =
               Some ∅)
    by (unfold fields_of; rewrite lookup_singleton_ne by discriminate; reflexivity).
  destruct (proj1 (saved_instrument_rows_are_read_back (B := example_builtins) example_str
                     {[ "MES" := JDict {[ "dollars_per_point" := JStr "10" ]} ]} ∅)
              {[ "dollars_per_point" := JStr "10" ]} ∅ Hm He)
    as (saved & Hsaved & _ & Hrows).
  exists saved. split; [exact Hsaved|].
  destruct (Hrows "MES" "inst_MES_dpp" (of_int 5) {[ "dollars_per_point" := JStr "10" ]}
              (JStr "10") (or_introl eq_refl) (lookup_singleton_eq _ _))
    as (Hrow & Hdpp & _).
  split; [exact Hrow|].
  apply Hdpp; [vm_compute; reflexivity|].
  rewrite (api_save_instrument_config_objects _ _ _ _ _ Hm He) in Hsaved.
  injection Hsaved as <-.
  repeat split; intros s; rewrite written_rows_lookup; cbn [List.find snd]; eval_eqb;
    cbv iota;
    rewrite ?lookup_singleton_eq, ?lookup_empty;
    rewrite ?lookup_singleton_ne by discriminate;
    rewrite ?lookup_empty;
    try discriminate;
    intros [= <-]; vm_compute; discriminate.
Defined.

(** The body [{"MES": 5, "ES": {"dollars_per_point": 60}}] makes the
    handler raise before the row of ES is written. *)
Lemma number_for_an_instrument_raises :
  api_save_instrument_config example_str
    {[ "MES" := JInt 5; "ES" := JDict {[ "dollars_per_point" := JInt 60 ]} ]} ∅ =
  (∅, Raise TypeError).
Proof. vm_compute. reflexivity. Qed.

(** A file whose second row has no date. *)
Lemma parse_uploaded_file_exceptions_witness :
  parse_uploaded_file (B := example_builtins) (R := csv_file [good_row; blank_date_row])
    true "fills.csv" some_bytes = Raise IndexError /\
  exists r v, r ∈ map row_of_csv [good_row; blank_date_row] /\
              r !! "Date" = Some v /\ blank (str (B := example_builtins) v).
Proof.
  assert (H : parse_uploaded_file (B := example_builtins)
                (R := csv_file [good_row; blank_date_row])
                true "fills.csv" some_bytes = Raise IndexError) by (vm_compute; reflexivity).
  split; [exact H|].
  destruct (parse_uploaded_file_exceptions (B := example_builtins)
              (R := csv_file [good_row; blank_date_row]) _ _ _ _ H)
    as [Hv | [[_ [Hr | Hr]] | (table & Ht & [[_ Hd] | [Ho _]])]];
    [discriminate Hv | discriminate Hr | discriminate Hr | | discriminate Ho].
  injection Ht as <-. exact Hd.
Defined.
